(** * CodeReviewerGenAI: the deterministic core of the review pipeline

    A shallow embedding of the analysis and orchestration code of the
    repository (src/agents/complexity.py, readability.py, plagiarism.py,
    summarizer.py, graph.py, edge_cases.py, correctness.py and
    repo_manager.py) together with the properties its specification states
    about it and further properties the code shows.

    Conventions of the embedding.
    - Python [int] is [Z]; Python [float] is [Q] (exact rationals); Python
      [str] is [string], the UTF-8 bytes of the text.
    - A Python call that may raise returns [result]; a [try]/[except
      Exception] block is a [match] on it.  Only exceptions derived from
      [Exception] are modelled.
    - The collaborators that live outside the repository (the [ast] parser,
      radon, scikit-learn, md5, the clock, the agents plugged into the
      workflow) are Section variables: every theorem holds for all of them,
      and a closed example instantiates them explicitly. *)

From Stdlib Require Import ZArith QArith Qround Lqa String Ascii List Bool Sorted Floats.
From stdpp Require Import base gmap strings list pretty.

Local Open Scope string_scope.
Local Open Scope list_scope.

(** ** Python values shared by all modules *)

Module Py.

(** Exceptions carry the text [str(e)] yields. *)
Inductive exn : Type :=
| SyntaxError (msg : string)
| NameError (msg : string)
| IndexError (msg : string)
| OtherError (msg : string).

Definition str_exn (e : exn) : string :=
  match e with
  | SyntaxError m | NameError m | IndexError m | OtherError m => m
  end.

Inductive result (A : Type) : Type :=
| Ok (a : A)
| Raise (e : exn).
Arguments Ok {A} a.
Arguments Raise {A} e.

Definition bind {A B : Type} (r : result A) (k : A -> result B) : result B :=
  match r with
  | Ok a => k a
  | Raise e => Raise e
  end.

Definition is_ok {A : Type} (r : result A) : bool :=
  match r with Ok _ => true | Raise _ => false end.

(** [x in xs] for a list of strings. *)
Definition str_in (x : string) (xs : list string) : bool :=
  existsb (String.eqb x) xs.

(** [pattern in text]: substring test. *)
Fixpoint contains (pattern text : string) : bool :=
  if String.prefix pattern text then true
  else match text with
       | EmptyString => false
       | String _ rest => contains pattern rest
       end.

(** [max(a, b)] on floats. *)
Definition Qmax (a b : Q) : Q := if Qle_bool a b then b else a.

End Py.

#[global] Instance result_ret : MRet Py.result := @Py.Ok.
#[global] Instance result_bind : MBind Py.result :=
  fun A B k r => Py.bind r k.

(** ** The syntax tree handed out by [ast.parse]

    A node has a class, a position and its child nodes in the order
    [ast.iter_child_nodes] yields them.  The classes the repository's
    visitors dispatch on carry the attributes those visitors read; every
    other class is [Other] with its non-node attributes kept verbatim. *)

Module PyAst.

Inductive expr_context : Type := Load | Store | Del.

Inductive constant : Type :=
| CNone
| CBool (b : bool)
| CInt (z : Z)
| CStr (s : string)
| COther (repr : string).

Inductive node_class : Type :=
| Module (docstring : option string)
| FunctionDef (name : string) (nargs : nat) (docstring : option string)
| ClassDef (name : string) (docstring : option string)
| For
| While
| If
| IfExp
| Name (id : string) (ctx : expr_context)
| Constant (value : constant)
| Import (names : list string)
| ImportFrom (module : option string)
| Call
| ListNode (ctx : expr_context)
| DictNode
| Other (cls : string) (attrs : list string).

(** [docstring] is what [ast.get_docstring(node)] returns for the node and
    [nargs] is [len(node.args.args)].  The first child of a [Call] is its
    [func]. *)
#[warnings="-register-all"]
Inductive node : Type :=
| Node (c : node_class) (lineno end_lineno : Z) (children : list node).

Definition class_of (n : node) : node_class :=
  match n with Node c _ _ _ => c end.
Definition lineno_of (n : node) : Z :=
  match n with Node _ l _ _ => l end.
Definition children_of (n : node) : list node :=
  match n with Node _ _ _ ks => ks end.

(** Induction with the hypothesis available for every child. *)
Section NodeInd.
Variable P : node -> Prop.
Hypothesis step : forall c l e ks, Forall P ks -> P (Node c l e ks).

Fixpoint node_ind' (n : node) : P n :=
    match n with
    | Node c l e ks =>
        step c l e ks
          ((fix all (ks : list node) : Forall P ks :=
              match ks with
              | [] => @List.Forall_nil node P
              | k :: ks' => @List.Forall_cons node P k ks' (node_ind' k) (all ks')
              end) ks)
    end.
End NodeInd.

Fixpoint node_count (n : node) : nat :=
  match n with
  | Node _ _ _ ks => S (fold_right (fun k acc => (node_count k + acc)%nat) 0%nat ks)
  end.

(** [ast.walk]: breadth-first, a queue of pending nodes.  The fuel bounds
    the number of nodes taken from the queue. *)
Fixpoint walk_queue (fuel : nat) (todo : list node) : list node :=
  match fuel with
  | O => []
  | S fuel' =>
      match todo with
      | [] => []
      | n :: rest => n :: walk_queue fuel' (rest ++ children_of n)
      end
  end.

Definition walk (tree : node) : list node := walk_queue (node_count tree) [tree].

End PyAst.

(** ** src/agents/complexity.py *)

Module Complexity.
Import PyAst.
Local Open Scope Z_scope.

(** *** LoopComplexityVisitor *)

Record LoopComplexityVisitor : Type := {
  loop_depth : Z;
  max_depth : Z;
  loop_lines : list Z;
  complexity_factors : list string
}.

Definition LoopComplexityVisitor_init : LoopComplexityVisitor :=
  {| loop_depth := 0; max_depth := 0; loop_lines := []; complexity_factors := [] |}.

(** The body shared by [visit_For] and [visit_While]; they differ in the
    text of the factor they record.  [generic_visit] visits the children. *)
Definition visit_loop (factor : string)
    (generic_visit : LoopComplexityVisitor -> LoopComplexityVisitor)
    (lineno : Z) (self : LoopComplexityVisitor) : LoopComplexityVisitor :=
  let depth := loop_depth self + 1 in
  let entered :=
    {| loop_depth := depth;
       max_depth := Z.max (max_depth self) depth;
       loop_lines := loop_lines self ++ [lineno];
       complexity_factors :=
         if 1 <? depth
         then complexity_factors self ++ [factor +:+ pretty lineno]
         else complexity_factors self |} in
  let visited := generic_visit entered in
  {| loop_depth := loop_depth visited - 1;
     max_depth := max_depth visited;
     loop_lines := loop_lines visited;
     complexity_factors := complexity_factors visited |}.

Definition visit_For := visit_loop "nested loop starting line ".
Definition visit_While := visit_loop "nested while loop starting line ".

Fixpoint visit (n : node) (self : LoopComplexityVisitor) : LoopComplexityVisitor :=
  match n with
  | Node c lineno _ ks =>
      let generic_visit := fun v => fold_left (fun acc k => visit k acc) ks v in
      match c with
      | For => visit_For generic_visit lineno self
      | While => visit_While generic_visit lineno self
      | _ => generic_visit self
      end
  end.

Record TimeEstimate : Type := {
  big_o : string;
  explanation : string;
  time_hotspots : list string
}.

(** The label the source writes for depth two: its bytes are
    [O ( n 0xC3 0x82 0xC2 0xB2 )], a superscript two encoded twice. *)
Definition big_o_depth_two : string :=
  "O(n" +:+ String "195" (String "130" (String "194" (String "178" ")"))).

Definition get_complexity (self : LoopComplexityVisitor) : TimeEstimate :=
  let d := max_depth self in
  let '(label, text) :=
    if d =? 0 then ("O(1)", "No loops detected - constant time")
    else if d =? 1 then ("O(n)", "Single loop - linear time")
    else if d =? 2 then (big_o_depth_two, "Nested loops detected - quadratic time")
    else ("O(n^" +:+ pretty d +:+ ")",
          "Deeply nested loops (depth " +:+ pretty d +:+ ") - polynomial time") in
  {| big_o := label; explanation := text; time_hotspots := complexity_factors self |}.

(** *** MemoryComplexityVisitor *)

Record MemoryComplexityVisitor : Type := {
  allocations : list string;
  current_function : option string
}.

Definition MemoryComplexityVisitor_init : MemoryComplexityVisitor :=
  {| allocations := []; current_function := None |}.

(** [f"{self.current_function}"]. *)
Definition str_function (f : option string) : string :=
  match f with Some name => name | None => "None" end.

Definition record_allocation (what : string) (lineno : Z)
    (self : MemoryComplexityVisitor) : MemoryComplexityVisitor :=
  {| allocations :=
       allocations self ++
         [what +:+ " in " +:+ str_function (current_function self) +:+ " at line " +:+ pretty lineno];
     current_function := current_function self |}.

Definition is_collection_constructor (func : option node) : bool :=
  match func with
  | Some (Node (Name id _) _ _ _) => Py.str_in id ["list"; "dict"; "set"]
  | _ => false
  end.

Fixpoint memory_visit (n : node) (self : MemoryComplexityVisitor) : MemoryComplexityVisitor :=
  match n with
  | Node c lineno _ ks =>
      let generic_visit := fun v => fold_left (fun acc k => memory_visit k acc) ks v in
      match c with
      | FunctionDef name _ _ =>
          generic_visit {| allocations := allocations self; current_function := Some name |}
      | ListNode Store => generic_visit (record_allocation "List allocation" lineno self)
      | Call =>
          if is_collection_constructor (head ks)
          then generic_visit (record_allocation "Collection constructor" lineno self)
          else generic_visit self
      | _ => generic_visit self
      end
  end.

Record SpaceEstimate : Type := {
  space_big_o : string;
  space_explanation : string;
  details : list string
}.

Definition memory_get_complexity (self : MemoryComplexityVisitor) : SpaceEstimate :=
  match allocations self with
  | [] => {| space_big_o := "O(1)"; space_explanation := "Constant space usage";
             details := firstn 5 (allocations self) |}
  | _ => {| space_big_o := "O(n)";
            space_explanation := "Allocates data structures based on input size";
            details := firstn 5 (allocations self) |}
  end.

(** *** ComplexityAgent._analyze_python *)

(** One block of [radon.complexity.cc_visit]. *)
Record Block : Type := {
  name : string;
  complexity : Z;
  lineno : Z
}.

Record Hotspot : Type := {
  h_function : string;
  h_complexity : Z;
  h_line : Z
}.

Record Analysis : Type := {
  time : TimeEstimate;
  space : SpaceEstimate;
  cyclomatic : Z;
  maintainability : Q;
  hotspots : list Hotspot
}.

Definition analysis_default : Analysis :=
  {| time := {| big_o := "O(1)"; explanation := ""; time_hotspots := [] |};
     space := {| space_big_o := "O(1)"; space_explanation := ""; details := [] |};
     cyclomatic := 0;
     maintainability := 0;
     hotspots := [] |}.

Definition hotspot_of (c : Block) : Hotspot :=
  {| h_function := name c; h_complexity := complexity c; h_line := lineno c |}.

(** [[{...} for c in cc if c.complexity > 5]]. *)
Definition hotspots_of (cc : list Block) : list Hotspot :=
  map hotspot_of (filter (fun c => 5 <? complexity c) cc).

(** [max(c.complexity for c in cc)] for a non-empty [cc]. *)
Definition max_complexity (c : Block) (cc : list Block) : Z :=
  fold_left (fun m b => Z.max m (complexity b)) cc (complexity c).

Section WithCollaborators.
(** [ast.parse], [radon.complexity.cc_visit] and [radon.metrics.mi_visit]. *)
Variable parse : string -> Py.result node.
Variable cc_visit : string -> Py.result (list Block).
Variable mi_visit : string -> Py.result Q.

Definition _analyze_python (code : string) : Analysis :=
  match parse code with
  | Py.Raise _ => analysis_default
  | Py.Ok tree =>
      let loop_visitor := visit tree LoopComplexityVisitor_init in
      let memory_visitor := memory_visit tree MemoryComplexityVisitor_init in
      let '(cyclo, hot) :=
        match cc_visit code with
        | Py.Ok (c :: cc) => (max_complexity c cc, hotspots_of (c :: cc))
        | _ => (0, [])
        end in
      let mi :=
        match mi_visit code with
        | Py.Ok m => m
        | Py.Raise _ => 0%Q
        end in
      {| time := get_complexity loop_visitor;
         space := memory_get_complexity memory_visitor;
         cyclomatic := cyclo;
         maintainability := mi;
         hotspots := hot |}
  end.

End WithCollaborators.

(** The nesting depth of the loops of a tree, as the specification words
    it: a loop adds one to the deepest nesting found below it. *)
Fixpoint loop_nesting_depth (n : node) : Z :=
  match n with
  | Node c _ _ ks =>
      let below := fold_right (fun k m => Z.max (loop_nesting_depth k) m) 0 ks in
      match c with
      | For | While => 1 + below
      | _ => below
      end
  end.

(** A hotspot list in descending order of complexity. *)
Definition descending (hs : list Hotspot) : Prop :=
  StronglySorted (fun a b => (h_complexity b <= h_complexity a)%Z) hs.

End Complexity.

(** ** src/agents/readability.py *)

Module Readability.
Import PyAst.

(** [str.islower], [str.isupper] and [in] on identifiers.  Identifiers are
    taken to be ASCII: only the letters [A-Z] and [a-z] are cased. *)
Definition is_upper (c : ascii) : bool :=
  let n := nat_of_ascii c in (65 <=? n)%nat && (n <=? 90)%nat.
Definition is_lower (c : ascii) : bool :=
  let n := nat_of_ascii c in (97 <=? n)%nat && (n <=? 122)%nat.

Fixpoint any_char (p : ascii -> bool) (s : string) : bool :=
  match s with
  | EmptyString => false
  | String c rest => p c || any_char p rest
  end.

Definition islower (s : string) : bool :=
  negb (any_char is_upper s) && any_char is_lower s.

Definition has_underscore (s : string) : bool :=
  any_char (Ascii.eqb "_"%char) s.

(** [name[0].isupper()]; indexing an empty string raises. *)
Definition first_isupper (s : string) : Py.result bool :=
  match s with
  | EmptyString => Py.Raise (Py.IndexError "string index out of range")
  | String c _ => Py.Ok (is_upper c)
  end.

(** *** NamingConventionVisitor *)

Module NamingConventionVisitor.

Record t : Type := {
  issues : list string;
  score : Q;
  function_count : Z;
  class_count : Z
}.

Definition init : t :=
  {| issues := []; score := 10; function_count := 0; class_count := 0 |}.

Definition penalise (message : string) (penalty : Q) (self : t) : t :=
  {| issues := issues self ++ [message];
     score := score self - penalty;
     function_count := function_count self;
     class_count := class_count self |}.

Definition visit_FunctionDef (name : string) (lineno : Z) (self : t) : t :=
  let counted :=
    {| issues := issues self; score := score self;
       function_count := function_count self + 1;
       class_count := class_count self |} in
  if negb (islower name) || negb (has_underscore name)
  then penalise ("Line " +:+ pretty lineno +:+ ": Function '" +:+ name +:+
                 "' should use snake_case") 1 counted
  else counted.

Definition visit_ClassDef (name : string) (lineno : Z) (self : t) : Py.result t :=
  let counted :=
    {| issues := issues self; score := score self;
       function_count := function_count self;
       class_count := class_count self + 1 |} in
  upper ← first_isupper name;
  mret (if negb upper
        then penalise ("Line " +:+ pretty lineno +:+ ": Class '" +:+ name +:+
                       "' should use CamelCase") 1 counted
        else counted).

Definition visit_Name (id : string) (ctx : expr_context) (lineno : Z) (self : t) : t :=
  match ctx with
  | Store =>
      if (String.length id =? 1)%nat && negb (Py.str_in id ["i"; "j"; "k"; "x"; "y"])
      then penalise ("Line " +:+ pretty lineno +:+ ": Variable '" +:+ id +:+
                     "' - consider a more descriptive name") (1 # 2) self
      else self
  | _ => self
  end.

Fixpoint visit (n : node) (self : t) : Py.result t :=
  match n with
  | Node c lineno _ ks =>
      let generic_visit := fun v : t =>
        fold_left (fun acc k => match acc with
                                | Py.Ok v' => visit k v'
                                | Py.Raise e => Py.Raise e
                                end) ks (Py.Ok v) in
      match c with
      | FunctionDef name _ _ => generic_visit (visit_FunctionDef name lineno self)
      | ClassDef name _ =>
          match visit_ClassDef name lineno self with
          | Py.Ok v => generic_visit v
          | Py.Raise e => Py.Raise e
          end
      | Name id ctx => generic_visit (visit_Name id ctx lineno self)
      | _ => generic_visit self
      end
  end.

End NamingConventionVisitor.

(** *** DocumentationVisitor *)

(** [not ast.get_docstring(node)]: no docstring, or an empty one. *)
Definition lacks_docstring (docstring : option string) : bool :=
  match docstring with
  | None | Some EmptyString => true
  | Some _ => false
  end.

Module DocumentationVisitor.

Record t : Type := {
  issues : list string;
  score : Q;
  functions_with_docstring : Z;
  total_functions : Z
}.

Definition init : t :=
  {| issues := []; score := 10; functions_with_docstring := 0; total_functions := 0 |}.

Definition penalise (message : string) (self : t) : t :=
  {| issues := issues self ++ [message];
     score := score self - 1;
     functions_with_docstring := functions_with_docstring self;
     total_functions := total_functions self |}.

Definition visit_FunctionDef (name : string) (docstring : option string)
    (lineno : Z) (self : t) : t :=
  let counted :=
    {| issues := issues self; score := score self;
       functions_with_docstring := functions_with_docstring self;
       total_functions := total_functions self + 1 |} in
  if lacks_docstring docstring
  then penalise ("Line " +:+ pretty lineno +:+ ": Function '" +:+ name +:+
                 "' missing docstring") counted
  else {| issues := issues counted; score := score counted;
          functions_with_docstring := functions_with_docstring counted + 1;
          total_functions := total_functions counted |}.

Definition visit_ClassDef (name : string) (docstring : option string)
    (lineno : Z) (self : t) : t :=
  if lacks_docstring docstring
  then penalise ("Line " +:+ pretty lineno +:+ ": Class '" +:+ name +:+
                 "' missing docstring") self
  else self.

Definition visit_Module (docstring : option string) (self : t) : t :=
  if lacks_docstring docstring
  then penalise "Module missing docstring" self
  else self.

Fixpoint visit (n : node) (self : t) : t :=
  match n with
  | Node c lineno _ ks =>
      let generic_visit := fun v => fold_left (fun acc k => visit k acc) ks v in
      match c with
      | FunctionDef name _ docstring =>
          generic_visit (visit_FunctionDef name docstring lineno self)
      | ClassDef name docstring =>
          generic_visit (visit_ClassDef name docstring lineno self)
      | Module docstring => generic_visit (visit_Module docstring self)
      | _ => generic_visit self
      end
  end.

End DocumentationVisitor.

(** *** StructureVisitor *)

Module StructureVisitor.

Record t : Type := {
  issues : list string;
  score : Q;
  function_lengths : list Z;
  avg_function_length : Q
}.

Definition init : t :=
  {| issues := []; score := 10; function_lengths := []; avg_function_length := 0 |}.

Definition penalise (message : string) (penalty : Q) (self : t) : t :=
  {| issues := issues self ++ [message];
     score := score self - penalty;
     function_lengths := function_lengths self;
     avg_function_length := avg_function_length self |}.

Definition visit_FunctionDef (name : string) (nargs : nat)
    (lineno end_lineno : Z) (self : t) : t :=
  let function_lines := (end_lineno - lineno)%Z in
  let measured :=
    {| issues := issues self; score := score self;
       function_lengths := function_lengths self ++ [function_lines];
       avg_function_length := avg_function_length self |} in
  let by_length :=
    if (50 <? function_lines)%Z
    then penalise ("Line " +:+ pretty lineno +:+ ": Function '" +:+ name +:+
                   "' is too long (" +:+ pretty function_lines +:+ " lines)") 1 measured
    else if (30 <? function_lines)%Z
    then penalise ("Line " +:+ pretty lineno +:+ ": Consider breaking down function '" +:+
                   name +:+ "'") (1 # 2) measured
    else measured in
  if (5 <? nargs)%nat
  then penalise ("Line " +:+ pretty lineno +:+ ": Function '" +:+ name +:+
                 "' has too many arguments (" +:+ pretty nargs +:+ ")") 1 by_length
  else by_length.

Definition visit_Module (self : t) : t :=
  match function_lengths self with
  | [] => self
  | lengths =>
      {| issues := issues self; score := score self;
         function_lengths := lengths;
         avg_function_length :=
           inject_Z (fold_right Z.add 0%Z lengths) / inject_Z (Z.of_nat (length lengths)) |}
  end.

Fixpoint visit (n : node) (self : t) : t :=
  match n with
  | Node c lineno end_lineno ks =>
      let generic_visit := fun v => fold_left (fun acc k => visit k acc) ks v in
      match c with
      | FunctionDef name nargs _ =>
          generic_visit (visit_FunctionDef name nargs lineno end_lineno self)
      | Module _ => generic_visit (visit_Module self)
      | _ => generic_visit self
      end
  end.

End StructureVisitor.

(** *** ReadabilityAgent._analyze_python *)

Record Scores : Type := {
  style : Q;
  documentation : Q;
  naming : Q;
  structure : Q
}.

Record Metrics : Type := {
  lines : Z;
  functions : Z;
  classes : Z;
  avg_function_length : Q
}.

Record Analysis : Type := {
  scores : Scores;
  issues : list string;
  metrics : option Metrics
}.

Definition _calculate_style_score (issues : list string) : Z :=
  let base_score := 10%Z in
  let penalty := Z.min (Z.of_nat (length issues)) 10 in
  Z.max 0 (base_score - penalty).

Section WithCollaborators.
(** [ast.parse]; the issue lines [_run_pylint] gathers from pylint before it
    truncates them; and [str.splitlines]. *)
Variable parse : string -> Py.result node.
Variable pylint_issues : string -> list string.
Variable splitlines : string -> list string.

Definition _run_pylint (code : string) : list string :=
  firstn 10 (pylint_issues code).

Definition parse_error (e : Py.exn) : Analysis :=
  {| scores := {| style := 0; documentation := 0; naming := 0; structure := 0 |};
     issues := ["Parse error: " +:+ Py.str_exn e];
     metrics := None |}.

Definition _analyze_python (code : string) : Analysis :=
  match parse code with
  | Py.Raise e => parse_error e
  | Py.Ok tree =>
      match NamingConventionVisitor.visit tree NamingConventionVisitor.init with
      | Py.Raise e => parse_error e
      | Py.Ok naming_visitor =>
          let doc_visitor := DocumentationVisitor.visit tree DocumentationVisitor.init in
          let struct_visitor := StructureVisitor.visit tree StructureVisitor.init in
          let all_issues :=
            NamingConventionVisitor.issues naming_visitor ++
            DocumentationVisitor.issues doc_visitor ++
            StructureVisitor.issues struct_visitor ++
            _run_pylint code in
          {| scores :=
               {| style := inject_Z (_calculate_style_score all_issues);
                  documentation := DocumentationVisitor.score doc_visitor;
                  naming := NamingConventionVisitor.score naming_visitor;
                  structure := StructureVisitor.score struct_visitor |};
             issues := all_issues;
             metrics :=
               Some {| lines := Z.of_nat (length (splitlines code));
                       functions := NamingConventionVisitor.function_count naming_visitor;
                       classes := NamingConventionVisitor.class_count naming_visitor;
                       avg_function_length :=
                         StructureVisitor.avg_function_length struct_visitor |} |}
      end
  end.

End WithCollaborators.

End Readability.

(** ** src/agents/plagiarism.py *)

Module Plagiarism.
Import PyAst.

(** [a > b] on floats. *)
Definition Qgtb (a b : Q) : bool := negb (Qle_bool a b).

Record Features : Type := {
  num_functions : Z;
  num_classes : Z;
  num_loops : Z;
  num_conditionals : Z;
  avg_function_length : Z;
  max_nesting_depth : Z;
  imports : list (option string)
}.

Definition features_default : Features :=
  {| num_functions := 0; num_classes := 0; num_loops := 0; num_conditionals := 0;
     avg_function_length := 0; max_nesting_depth := 0; imports := [] |}.

(** One entry of [known_solutions]. *)
Record Entry : Type := {
  code : string;
  source : string;
  ast_hash : string;
  features : Features;
  timestamp : string
}.

Record PlagiarismDetector : Type := {
  known_solutions : list Entry;
  ast_cache : gmap string string
}.

Definition PlagiarismDetector_init : PlagiarismDetector :=
  {| known_solutions := []; ast_cache := ∅ |}.

Record Match : Type := {
  m_source : string;
  similarity : Q;
  m_method : string
}.

(** What one method returns; a key the method leaves out is [None]. *)
Record MethodReport : Type := {
  score : Q;
  matches : list Match;
  r_ast_hash : option string;
  r_features : option Features;
  error : option string
}.

Record Report : Type := {
  similarity_score : Q;
  r_matches : list Match;
  method : string;
  details : option MethodReport
}.

Definition no_match : MethodReport :=
  {| score := 0; matches := []; r_ast_hash := None; r_features := None; error := None |}.

(** *** _normalize_ast

    [NormalizeTransformer] rewrites the classes it has a method for and
    leaves every other node, with all its attributes, as it is.  [visit_Name]
    and [visit_Constant] return the node without visiting below it.  A
    docstring is a [Constant] below the node, so none is left afterwards. *)
Fixpoint _normalize_ast (tree : node) : node :=
  match tree with
  | Node c lineno end_lineno ks =>
      match c with
      | Name _ ctx => Node (Name "var" ctx) lineno end_lineno ks
      | FunctionDef _ nargs _ =>
          Node (FunctionDef "func" nargs None) lineno end_lineno (map _normalize_ast ks)
      | ClassDef _ _ =>
          Node (ClassDef "Class" None) lineno end_lineno (map _normalize_ast ks)
      | Constant _ => Node (Constant CNone) lineno end_lineno ks
      | Module _ => Node (Module None) lineno end_lineno (map _normalize_ast ks)
      | _ => Node c lineno end_lineno (map _normalize_ast ks)
      end
  end.

(** *** Name resolution inside add_to_database

    A bare name in a method body is looked up among the function's locals,
    then the module's globals, then the builtins; the attributes of the
    enclosing class are not in scope. *)
Definition add_to_database_locals : list string :=
  ["self"; "code"; "source"; "tree"; "normalized"; "ast_hash"; "features"; "e"].

Definition module_globals : list string :=
  ["__name__"; "__doc__"; "__package__"; "__loader__"; "__spec__"; "__file__";
   "__cached__"; "__builtins__";
   "ast"; "hashlib"; "List"; "Dict"; "Tuple"; "np"; "TfidfVectorizer";
   "cosine_similarity"; "logging"; "logger"; "PlagiarismDetector"].

Definition class_attributes : list string :=
  ["__init__"; "detect"; "_check_ast_similarity"; "_normalize_ast";
   "_check_tfidf_similarity"; "_check_structure_similarity";
   "_extract_structural_features"; "_calculate_structural_similarity";
   "add_to_database"; "import_datetime"].

Definition builtins : list string :=
  ["abs"; "aiter"; "all"; "anext"; "any"; "ascii"; "bin"; "bool"; "breakpoint";
   "bytearray"; "bytes"; "callable"; "chr"; "classmethod"; "compile"; "complex";
   "copyright"; "credits"; "delattr"; "dict"; "dir"; "divmod"; "enumerate"; "eval";
   "exec"; "exit"; "filter"; "float"; "format"; "frozenset"; "getattr"; "globals";
   "hasattr"; "hash"; "help"; "hex"; "id"; "input"; "int"; "isinstance";
   "issubclass"; "iter"; "len"; "license"; "list"; "locals"; "map"; "max";
   "memoryview"; "min"; "next"; "object"; "oct"; "open"; "ord"; "pow"; "print";
   "property"; "quit"; "range"; "repr"; "reversed"; "round"; "set"; "setattr";
   "slice"; "sorted"; "staticmethod"; "str"; "sum"; "super"; "tuple"; "type";
   "vars"; "zip"; "__import__"; "__build_class__"; "__debug__";
   "Ellipsis"; "NotImplemented"; "None"; "True"; "False";
   "ArithmeticError"; "AssertionError"; "AttributeError"; "BaseException";
   "BaseExceptionGroup"; "BlockingIOError"; "BrokenPipeError"; "BufferError";
   "BytesWarning"; "ChildProcessError"; "ConnectionAbortedError"; "ConnectionError";
   "ConnectionRefusedError"; "ConnectionResetError"; "DeprecationWarning";
   "EOFError"; "EncodingWarning"; "EnvironmentError"; "Exception"; "ExceptionGroup";
   "FileExistsError"; "FileNotFoundError"; "FloatingPointError"; "FutureWarning";
   "GeneratorExit"; "IOError"; "ImportError"; "ImportWarning"; "IndentationError";
   "IndexError"; "InterruptedError"; "IsADirectoryError"; "KeyError";
   "KeyboardInterrupt"; "LookupError"; "MemoryError"; "ModuleNotFoundError";
   "NameError"; "NotADirectoryError"; "NotImplementedError"; "OSError";
   "OverflowError"; "PendingDeprecationWarning"; "PermissionError";
   "ProcessLookupError"; "RecursionError"; "ReferenceError"; "ResourceWarning";
   "RuntimeError"; "RuntimeWarning"; "StopAsyncIteration"; "StopIteration";
   "SyntaxError"; "SyntaxWarning"; "SystemError"; "SystemExit"; "TabError";
   "TimeoutError"; "TypeError"; "UnboundLocalError"; "UnicodeDecodeError";
   "UnicodeEncodeError"; "UnicodeError"; "UnicodeTranslateError"; "UnicodeWarning";
   "UserWarning"; "ValueError"; "Warning"; "ZeroDivisionError"].

Inductive binding : Type := LocalName | GlobalName | BuiltinName.

Definition lookup_name (locals : list string) (name : string) : Py.result binding :=
  if Py.str_in name locals then Py.Ok LocalName
  else if Py.str_in name module_globals then Py.Ok GlobalName
  else if Py.str_in name builtins then Py.Ok BuiltinName
  else Py.Raise (Py.NameError ("name '" +:+ name +:+ "' is not defined")).

(** *** _calculate_structural_similarity *)

(** One numeric feature: skipped when both counts are zero. *)
Definition numeric_score (a b : Z) : list Q :=
  let max_val := Z.max a b in
  if (0 <? max_val)%Z
  then [(1 - inject_Z (Z.abs (a - b)) / inject_Z max_val)%Q]
  else [].

Definition import_score (imports1 imports2 : gset (option string)) : list Q :=
  if bool_decide (imports1 = ∅) && bool_decide (imports2 = ∅)
  then []
  else
    let intersection := Z.of_nat (size (imports1 ∩ imports2)) in
    let union := Z.of_nat (size (imports1 ∪ imports2)) in
    [if (0 <? union)%Z then (inject_Z intersection / inject_Z union)%Q else 0%Q].

Definition Qsum (xs : list Q) : Q := fold_left Qplus xs 0%Q.

(** Both arguments are feature records, never empty dicts, so the source's
    first guard is not taken. *)
Definition _calculate_structural_similarity (features1 features2 : Features) : Q :=
  let numerical_scores :=
    numeric_score (num_functions features1) (num_functions features2) ++
    numeric_score (num_classes features1) (num_classes features2) ++
    numeric_score (num_loops features1) (num_loops features2) ++
    numeric_score (num_conditionals features1) (num_conditionals features2) ++
    import_score (list_to_set (imports features1)) (list_to_set (imports features2)) in
  match numerical_scores with
  | [] => 0%Q
  | _ => (Qsum numerical_scores / inject_Z (Z.of_nat (length numerical_scores)))%Q
  end.

(** One step of the loop over [ast.walk(tree)]. *)
Definition count_node (f : Features) (n : node) : Features :=
  match class_of n with
  | FunctionDef _ _ _ =>
      {| num_functions := num_functions f + 1; num_classes := num_classes f;
         num_loops := num_loops f; num_conditionals := num_conditionals f;
         avg_function_length := avg_function_length f;
         max_nesting_depth := max_nesting_depth f; imports := imports f |}
  | ClassDef _ _ =>
      {| num_functions := num_functions f; num_classes := num_classes f + 1;
         num_loops := num_loops f; num_conditionals := num_conditionals f;
         avg_function_length := avg_function_length f;
         max_nesting_depth := max_nesting_depth f; imports := imports f |}
  | For | While =>
      {| num_functions := num_functions f; num_classes := num_classes f;
         num_loops := num_loops f + 1; num_conditionals := num_conditionals f;
         avg_function_length := avg_function_length f;
         max_nesting_depth := max_nesting_depth f; imports := imports f |}
  | If | IfExp =>
      {| num_functions := num_functions f; num_classes := num_classes f;
         num_loops := num_loops f; num_conditionals := num_conditionals f + 1;
         avg_function_length := avg_function_length f;
         max_nesting_depth := max_nesting_depth f; imports := imports f |}
  | Import names =>
      {| num_functions := num_functions f; num_classes := num_classes f;
         num_loops := num_loops f; num_conditionals := num_conditionals f;
         avg_function_length := avg_function_length f;
         max_nesting_depth := max_nesting_depth f;
         imports := imports f ++ map Some names |}
  | ImportFrom module =>
      {| num_functions := num_functions f; num_classes := num_classes f;
         num_loops := num_loops f; num_conditionals := num_conditionals f;
         avg_function_length := avg_function_length f;
         max_nesting_depth := max_nesting_depth f;
         imports := imports f ++ [module] |}
  | _ => f
  end.

Fixpoint Qmaximum (seed : Q) (xs : list Q) : Q :=
  match xs with
  | [] => seed
  | x :: rest => Qmaximum (Py.Qmax seed x) rest
  end.

Section WithCollaborators.
(** [ast.parse]; [str] of a tree object; [hashlib.md5(...).hexdigest()];
    scikit-learn's TF-IDF vectoriser followed by the cosine similarity of the
    last document against the others; and the value the timestamp
    expression of [add_to_database] would have once its name is resolved. *)
Variable parse : string -> Py.result node.
Variable str_ast : node -> string.
Variable md5_hexdigest : string -> string.
Variable cosine_similarities : list string -> Py.result (list Q).
Variable isoformat_now : Py.result string.

Definition structural_hash (tree : node) : string :=
  md5_hexdigest (str_ast (_normalize_ast tree)).

Definition _check_ast_similarity (self : PlagiarismDetector) (query : string) : MethodReport :=
  match parse query with
  | Py.Raise e =>
      {| score := 0; matches := []; r_ast_hash := None; r_features := None;
         error := Some (Py.str_exn e) |}
  | Py.Ok tree =>
      let hash := structural_hash tree in
      let found :=
        map (fun known => {| m_source := source known; similarity := 1;
                             m_method := "exact_ast_match" |})
            (filter (fun known => String.eqb (ast_hash known) hash) (known_solutions self)) in
      {| score := match found with [] => 0 | _ => 1 end;
         matches := found; r_ast_hash := Some hash; r_features := None; error := None |}
  end.

(** The loop over [enumerate(similarities)]; [known_solutions[i]] raises
    when the index is out of range. *)
Fixpoint tfidf_matches (known : list Entry) (i : nat) (similarities : list Q)
    : Py.result (list Match) :=
  match similarities with
  | [] => Py.Ok []
  | sim :: rest =>
      if Qgtb sim (7 # 10)
      then match known !! i with
           | Some k =>
               found ← tfidf_matches known (S i) rest;
               mret ({| m_source := source k; similarity := sim; m_method := "tfidf" |} :: found)
           | None => Py.Raise (Py.IndexError "list index out of range")
           end
      else tfidf_matches known (S i) rest
  end.

Definition _check_tfidf_similarity (self : PlagiarismDetector) (query : string) : MethodReport :=
  match known_solutions self with
  | [] => no_match
  | _ =>
      let documents := map code (known_solutions self) ++ [query] in
      match
        similarities ← cosine_similarities documents;
        found ← tfidf_matches (known_solutions self) 0 similarities;
        mret {| score := match similarities with
                         | [] => 0
                         | s :: rest => Qmaximum s rest
                         end;
                matches := found; r_ast_hash := None; r_features := None; error := None |}
      with
      | Py.Ok report => report
      | Py.Raise _ => no_match
      end
  end.

Definition _extract_structural_features (text : string) : Features :=
  match parse text with
  | Py.Raise _ => features_default
  | Py.Ok tree => fold_left count_node (walk tree) features_default
  end.

Definition _check_structure_similarity (self : PlagiarismDetector) (query : string)
    : MethodReport :=
  let query_features := _extract_structural_features query in
  let found :=
    flat_map (fun known =>
                let sim := _calculate_structural_similarity query_features (features known) in
                if Qgtb sim (8 # 10)
                then [{| m_source := source known; similarity := sim;
                         m_method := "structural" |}]
                else [])
             (known_solutions self) in
  {| score := match map similarity found with
              | [] => 0
              | s :: rest => Qmaximum s rest
              end;
     matches := found; r_ast_hash := None; r_features := Some query_features;
     error := None |}.

Definition default_threshold : Q := 8 # 10.

Definition detect (self : PlagiarismDetector) (query : string) (threshold : Q) : Report :=
  let ast_similarity := _check_ast_similarity self query in
  if Qgtb (score ast_similarity) threshold
  then {| similarity_score := score ast_similarity; r_matches := matches ast_similarity;
          method := "ast"; details := Some ast_similarity |}
  else
    let tfidf_similarity := _check_tfidf_similarity self query in
    if Qgtb (score tfidf_similarity) threshold
    then {| similarity_score := score tfidf_similarity; r_matches := matches tfidf_similarity;
            method := "tfidf"; details := Some tfidf_similarity |}
    else
      let struct_similarity := _check_structure_similarity self query in
      {| similarity_score := score struct_similarity; r_matches := matches struct_similarity;
         method := "structure"; details := Some struct_similarity |}.

(** The dictionary is built, key by key, before [append] is called: the
    timestamp expression is evaluated last and an exception there leaves
    [known_solutions] as it was. *)
Definition add_to_database (self : PlagiarismDetector) (text label : string)
    : PlagiarismDetector :=
  match
    tree ← parse text;
    let hash := structural_hash tree in
    let extracted := _extract_structural_features text in
    _ ← lookup_name add_to_database_locals "import_datetime";
    now ← isoformat_now;
    mret {| known_solutions :=
              known_solutions self ++
                [{| code := text; source := label; ast_hash := hash;
                    features := extracted; timestamp := now |}];
            ast_cache := ast_cache self |}
  with
  | Py.Ok updated => updated
  | Py.Raise _ => self
  end.

End WithCollaborators.

End Plagiarism.

(** ** src/agents/summarizer.py *)

Module Summarizer.

(** The four reports handed to the summarizer, with the keys it reads; a
    key that is absent from the dictionary is [None]. *)
Record CorrectnessReport : Type := {
  tests_passed : option Z;
  total_tests : option Z
}.

(** [big_o] is [report["time_complexity"]["big_o"]], [None] when either key
    is absent. *)
Record ComplexityReport : Type := {
  big_o : option string
}.

Record ReadabilityReport : Type := {
  scores : option (gmap string Q)
}.

Record EdgeCase : Type := {
  severity : option string
}.

Record EdgeCasesReport : Type := {
  priority_cases : option (list EdgeCase)
}.

Record Reports : Type := {
  correctness_report : CorrectnessReport;
  complexity_report : ComplexityReport;
  readability_report : ReadabilityReport;
  edge_cases_report : EdgeCasesReport
}.

(** The superscripts two and three of the score table, in UTF-8. *)
Definition superscript_two : string := String "194" (String "178" "").
Definition superscript_three : string := String "194" (String "179" "").

Definition complexity_scores : list (string * Z) :=
  [("O(1)", 100%Z); ("O(log n)", 90%Z); ("O(n)", 80%Z); ("O(n log n)", 70%Z);
   ("O(n" +:+ superscript_two +:+ ")", 50%Z);
   ("O(n" +:+ superscript_three +:+ ")", 30%Z);
   ("O(2^n)", 10%Z)].

Fixpoint first_pattern (table : list (string * Z)) (text : string) : option Z :=
  match table with
  | [] => None
  | (pattern, value) :: rest =>
      if Py.contains pattern text then Some value else first_pattern rest text
  end.

Definition _score_complexity (report : ComplexityReport) : Z :=
  let time_complexity := default "O(n)" (big_o report) in
  default 60%Z (first_pattern complexity_scores time_complexity).

(** [sum(d.values())]. *)
Definition sum_values (d : gmap string Q) : Q :=
  map_fold (fun _ v acc => (acc + v)%Q) 0%Q d.

(** [int(x)] on a float: the fraction is dropped, towards zero. *)
Definition int_of_float (x : Q) : Z := Z.quot (Qnum x) (Z.pos (Qden x)).

(** [round(x)]: to the nearest integer, a tie to the even one. *)
Definition round_of_float (x : Q) : Z :=
  let low := Qfloor x in
  match ((x - inject_Z low) ?= (1 # 2))%Q with
  | Lt => low
  | Gt => (low + 1)%Z
  | Eq => if Z.even low then low else (low + 1)%Z
  end.

Definition correctness_score (r : CorrectnessReport) : Q :=
  match total_tests r with
  | Some total =>
      if (total =? 0)%Z then 70
      else inject_Z (default 0%Z (tests_passed r)) / inject_Z (Z.max total 1) * 100
  | None => 70
  end.

Definition readability_score (r : ReadabilityReport) : Q :=
  match scores r with
  | Some d => if bool_decide (d = ∅) then 70 else sum_values d / 4 * 10
  | None => 70
  end.

Definition robustness_score (r : EdgeCasesReport) : Q :=
  match priority_cases r with
  | Some (c :: cases) => inject_Z (Z.of_nat (length (c :: cases))) / 10 * 100
  | _ => 70
  end.

Record SubScores : Type := {
  correctness : Q;
  complexity : Q;
  readability : Q;
  robustness : Q
}.

Definition weights : SubScores :=
  {| correctness := 35 # 100; complexity := 25 # 100;
     readability := 20 # 100; robustness := 20 # 100 |}.

Definition sub_scores (reports : Reports) : SubScores :=
  {| correctness := correctness_score (correctness_report reports);
     complexity := inject_Z (_score_complexity (complexity_report reports));
     readability := readability_score (readability_report reports);
     robustness := robustness_score (edge_cases_report reports) |}.

(** [sum(scores[key] * weights[key] for key in weights)]. *)
Definition weighted_sum (s : SubScores) : Q :=
  0 + correctness s * correctness weights
    + complexity s * complexity weights
    + readability s * readability weights
    + robustness s * robustness weights.

Definition _calculate_overall_score (reports : Reports) : Z :=
  int_of_float (weighted_sum (sub_scores reports)).

End Summarizer.

(** ** src/agents/graph.py

    The compiled LangGraph workflow is read as its builder calls describe
    it: a node runs, its outgoing edge (plain or conditional) gives the next
    node, and the invocation ends at [END]; the state a node returns is the
    state the next node receives. *)

Module Graph.
#[local] Set Implicit Arguments.

Inductive graph_node : Type :=
| correctness | delay_1 | complexity | delay_2 | readability | delay_3
| edge_cases | delay_4 | plagiarism | delay_5 | summarizer | error_handler.

#[global] Instance graph_node_eq_dec : EqDecision graph_node.
Proof. solve_decision. Defined.

Inductive target : Type :=
| To (n : graph_node)
| END.

Section WithAgents.
(** The dictionary an agent returns, the empty dictionary, and the agents
    plugged into the workflow.  An agent missing from [self.agents] is an
    invocation that raises. *)
Variable Report : Type.
Variable empty_report : Report.

Record Agents : Type := {
  correctness_review : string -> string -> Py.result Report;
  complexity_analyze : string -> string -> Py.result Report;
  readability_review : string -> string -> string -> Py.result Report;
  edge_cases_generate_cases : string -> string -> Py.result Report;
  plagiarism_detect : string -> Py.result Report;
  summarizer_summarize :
    string -> string -> Report -> Report -> Report -> Report -> string -> Py.result Report
}.

(** [results] holds the [*_result] keys that are present; [plagiarism_check]
    and the time stamps are [None] while their key is absent. *)
Record ReviewState : Type := {
  code : string;
  language : string;
  user_id : string;
  review_id : string;
  repo_url : string;
  deep_analysis : bool;
  plagiarism_check : option bool;
  results : gmap string Report;
  current_agent : option string;
  errors : list string;
  start_time : option Q;
  end_time : option Q;
  duration : option Q
}.

Definition set_current_agent (agent : string) (s : ReviewState) : ReviewState :=
  {| code := code s; language := language s; user_id := user_id s;
     review_id := review_id s; repo_url := repo_url s; deep_analysis := deep_analysis s;
     plagiarism_check := plagiarism_check s; results := results s;
     current_agent := Some agent; errors := errors s;
     start_time := start_time s; end_time := end_time s; duration := duration s |}.

Definition set_result (key : string) (report : Report) (s : ReviewState) : ReviewState :=
  {| code := code s; language := language s; user_id := user_id s;
     review_id := review_id s; repo_url := repo_url s; deep_analysis := deep_analysis s;
     plagiarism_check := plagiarism_check s; results := <[key := report]> (results s);
     current_agent := current_agent s; errors := errors s;
     start_time := start_time s; end_time := end_time s; duration := duration s |}.

Definition set_errors (es : list string) (s : ReviewState) : ReviewState :=
  {| code := code s; language := language s; user_id := user_id s;
     review_id := review_id s; repo_url := repo_url s; deep_analysis := deep_analysis s;
     plagiarism_check := plagiarism_check s; results := results s;
     current_agent := current_agent s; errors := es;
     start_time := start_time s; end_time := end_time s; duration := duration s |}.

Definition append_error (entry : string) (s : ReviewState) : ReviewState :=
  set_errors (errors s ++ [entry]) s.

Definition set_times (start stop elapsed : option Q) (s : ReviewState) : ReviewState :=
  {| code := code s; language := language s; user_id := user_id s;
     review_id := review_id s; repo_url := repo_url s; deep_analysis := deep_analysis s;
     plagiarism_check := plagiarism_check s; results := results s;
     current_agent := current_agent s; errors := errors s;
     start_time := start; end_time := stop; duration := elapsed |}.

Variable agents : Agents.

(** The [try]/[except Exception] every stage wraps its agent in. *)
Definition guarded (label key : string) (invocation : Py.result Report)
    (state : ReviewState) : ReviewState :=
  match invocation with
  | Py.Ok result => set_result key result state
  | Py.Raise e => append_error (label +:+ ": " +:+ Py.str_exn e) state
  end.

Definition get_result (key : string) (state : ReviewState) : Report :=
  default empty_report (results state !! key).

Definition _delay_2_seconds (state : ReviewState) : ReviewState := state.

Definition _run_correctness (state : ReviewState) : ReviewState :=
  let state := set_current_agent "correctness" state in
  guarded "Correctness" "correctness_result"
    (correctness_review agents (code state) (language state)) state.

Definition _run_complexity (state : ReviewState) : ReviewState :=
  let state := set_current_agent "complexity" state in
  guarded "Complexity" "complexity_result"
    (complexity_analyze agents (code state) (language state)) state.

Definition _run_readability (state : ReviewState) : ReviewState :=
  let state := set_current_agent "readability" state in
  guarded "Readability" "readability_result"
    (readability_review agents (code state) (language state) (user_id state)) state.

Definition _run_edge_cases (state : ReviewState) : ReviewState :=
  let state := set_current_agent "edge_cases" state in
  guarded "Edge Cases" "edge_cases_result"
    (edge_cases_generate_cases agents (code state) (language state)) state.

Definition _run_plagiarism (state : ReviewState) : ReviewState :=
  let state := set_current_agent "plagiarism" state in
  guarded "Plagiarism" "plagiarism_result"
    (plagiarism_detect agents (code state)) state.

Definition _run_summarizer (state : ReviewState) : ReviewState :=
  let state := set_current_agent "summarizer" state in
  guarded "Summarizer" "summarizer_result"
    (summarizer_summarize agents (code state) (language state)
       (get_result "correctness_result" state)
       (get_result "complexity_result" state)
       (get_result "readability_result" state)
       (get_result "edge_cases_result" state)
       (user_id state)) state.

Definition _handle_errors (state : ReviewState) : ReviewState := state.

Definition _should_check_plagiarism (state : ReviewState) : bool :=
  default false (plagiarism_check state).

(** *** _build_graph: the nodes' functions and the edges *)

Definition node_function (n : graph_node) : ReviewState -> ReviewState :=
  match n with
  | correctness => _run_correctness
  | complexity => _run_complexity
  | readability => _run_readability
  | edge_cases => _run_edge_cases
  | plagiarism => _run_plagiarism
  | summarizer => _run_summarizer
  | error_handler => _handle_errors
  | delay_1 | delay_2 | delay_3 | delay_4 | delay_5 => _delay_2_seconds
  end.

Definition entry_point : graph_node := correctness.

(** [add_edge] and [add_conditional_edges]; [error_handler] has no edge. *)
Definition edge (n : graph_node) (state : ReviewState) : target :=
  match n with
  | correctness => To delay_1
  | delay_1 => To complexity
  | complexity => To delay_2
  | delay_2 => To readability
  | readability => To delay_3
  | delay_3 => To edge_cases
  | edge_cases => if _should_check_plagiarism state then To delay_4 else To delay_5
  | delay_4 => To plagiarism
  | plagiarism => To delay_5
  | delay_5 => To summarizer
  | summarizer => END
  | error_handler => END
  end.

(** LangGraph's default bound on the number of steps of one invocation. *)
Definition recursion_limit : nat := 25.

(** The compiled graph: run the node, follow its edge, until [END].  The
    second component lists the nodes that ran, in order. *)
Fixpoint execute (fuel : nat) (n : graph_node) (state : ReviewState)
    : Py.result (ReviewState * list graph_node) :=
  match fuel with
  | O => Py.Raise (Py.OtherError "Recursion limit reached")
  | S fuel' =>
      let state' := node_function n state in
      match edge n state' with
      | END => Py.Ok (state', [n])
      | To next =>
          '(final, ran) ← execute fuel' next state';
          mret (final, n :: ran)
      end
  end.

Definition ainvoke (state : ReviewState) : Py.result (ReviewState * list graph_node) :=
  execute recursion_limit entry_point state.

(** [run], with the two readings of the clock as arguments. *)
Definition run (clock_start clock_end : Q) (initial_state : ReviewState) : ReviewState :=
  let state := set_errors [] (set_times (Some clock_start) (end_time initial_state)
                                (duration initial_state) initial_state) in
  match ainvoke state with
  | Py.Ok (result, _) =>
      set_times (start_time result) (Some clock_end)
        (option_map (fun started : Q => (clock_end - started)%Q) (start_time result)) result
  | Py.Raise e => append_error ("Graph: " +:+ Py.str_exn e) state
  end.

(** The nodes one call of [run] executes. *)
Definition nodes_run (clock_start : Q) (initial_state : ReviewState) : list graph_node :=
  let state := set_errors [] (set_times (Some clock_start) (end_time initial_state)
                                (duration initial_state) initial_state) in
  match ainvoke state with
  | Py.Ok (_, ran) => ran
  | Py.Raise _ => []
  end.

(** The agent call a stage makes when it runs in [state]. *)
Definition invocation (n : graph_node) (state : ReviewState) : option (Py.result Report) :=
  match n with
  | correctness => Some (correctness_review agents (code state) (language state))
  | complexity => Some (complexity_analyze agents (code state) (language state))
  | readability =>
      Some (readability_review agents (code state) (language state) (user_id state))
  | edge_cases => Some (edge_cases_generate_cases agents (code state) (language state))
  | plagiarism => Some (plagiarism_detect agents (code state))
  | summarizer =>
      Some (summarizer_summarize agents (code state) (language state)
              (get_result "correctness_result" state)
              (get_result "complexity_result" state)
              (get_result "readability_result" state)
              (get_result "edge_cases_result" state)
              (user_id state))
  | _ => None
  end.

End WithAgents.

(** The label a stage puts in front of its error records, and the key it
    stores its report under. *)
Definition error_label (n : graph_node) : string :=
  match n with
  | correctness => "Correctness"
  | complexity => "Complexity"
  | readability => "Readability"
  | edge_cases => "Edge Cases"
  | plagiarism => "Plagiarism"
  | summarizer => "Summarizer"
  | _ => ""
  end.

Definition result_key (n : graph_node) : string :=
  match n with
  | correctness => "correctness_result"
  | complexity => "complexity_result"
  | readability => "readability_result"
  | edge_cases => "edge_cases_result"
  | plagiarism => "plagiarism_result"
  | summarizer => "summarizer_result"
  | _ => ""
  end.

Definition is_stage (n : graph_node) : bool :=
  match n with
  | correctness | complexity | readability | edge_cases | plagiarism | summarizer => true
  | _ => false
  end.

(** The error records of one stage: those that start with its label. *)
Definition errors_of (n : graph_node) (errors : list string) : list string :=
  filter (fun entry => String.prefix (error_label n +:+ ": ") entry) errors.

End Graph.

(** ** JSON values

    What [json.loads] returns: the reports of the language model and the
    output of a test run reach the code as such values.  An object keeps
    its keys in insertion order.  The texts of the type and attribute errors
    are those of CPython 3.8 to 3.13. *)

Module Json.

#[warnings="-register-all"]
Inductive json : Type :=
| JNull
| JBool (b : bool)
| JInt (z : Z)
| JFloat (f : float)
| JString (s : string)
| JArray (items : list json)
| JObject (fields : list (string * json)).

(** [type(v).__name__]. *)
Definition type_name (v : json) : string :=
  match v with
  | JNull => "NoneType"
  | JBool _ => "bool"
  | JInt _ => "int"
  | JFloat _ => "float"
  | JString _ => "str"
  | JArray _ => "list"
  | JObject _ => "dict"
  end.

Fixpoint lookup (key : string) (fields : list (string * json)) : option json :=
  match fields with
  | [] => None
  | (k, v) :: rest => if String.eqb k key then Some v else lookup key rest
  end.

(** [d[key] = v] on the fields of a dict: an existing key keeps its place. *)
Fixpoint set_key (key : string) (v : json) (fields : list (string * json))
    : list (string * json) :=
  match fields with
  | [] => [(key, v)]
  | (k, w) :: rest =>
      if String.eqb k key then (k, v) :: rest else (k, w) :: set_key key v rest
  end.

(** [x.get(key)]: only a dict has the method. *)
Definition get (x : json) (key : string) : Py.result (option json) :=
  match x with
  | JObject fields => Py.Ok (lookup key fields)
  | _ => Py.Raise (Py.OtherError ("'" +:+ type_name x +:+ "' object has no attribute 'get'"))
  end.

(** [x[key] = v] with a string key. *)
Definition set_item (x : json) (key : string) (v : json) : Py.result json :=
  match x with
  | JObject fields => Py.Ok (JObject (set_key key v fields))
  | JArray _ => Py.Raise (Py.OtherError "list indices must be integers or slices, not str")
  | _ =>
      Py.Raise (Py.OtherError
                  ("'" +:+ type_name x +:+ "' object does not support item assignment"))
  end.

(** [bool(v)]. *)
Definition truthy (v : json) : bool :=
  match v with
  | JNull => false
  | JBool b => b
  | JInt z => negb (z =? 0)%Z
  | JFloat f => negb (PrimFloat.eqb f 0%float)
  | JString s => negb (String.eqb s "")
  | JArray items => match items with [] => false | _ => true end
  | JObject fields => match fields with [] => false | _ => true end
  end.

(** Lists and dicts cannot be dictionary keys. *)
Definition hashable (v : json) : bool :=
  match v with
  | JArray _ | JObject _ => false
  | _ => true
  end.

End Json.

(** ** src/agents/edge_cases.py *)

Module EdgeCases.
Import Json.

(** *** _prioritize_cases *)

Definition severity_order : list (string * Z) :=
  [("critical", 0%Z); ("high", 1%Z); ("medium", 2%Z); ("low", 3%Z)].

Fixpoint order_get (table : list (string * Z)) (key : string) : option Z :=
  match table with
  | [] => None
  | (k, v) :: rest => if String.eqb k key then Some v else order_get rest key
  end.

(** The inner loop: each case of one category is tagged with the category
    and appended.  The tag is written into the case itself. *)
Fixpoint tag_cases (category : string) (cases all_tests : list json)
    : Py.result (list json) :=
  match cases with
  | [] => Py.Ok all_tests
  | case :: rest =>
      tagged ← set_item case "category" (JString category);
      tag_cases category rest (all_tests ++ [tagged])
  end.

(** The outer loop over [all_cases.items()]; a value that is not a list is
    skipped. *)
Fixpoint collect (items : list (string * json)) (all_tests : list json)
    : Py.result (list json) :=
  match items with
  | [] => Py.Ok all_tests
  | (category, JArray cases) :: rest =>
      all_tests' ← tag_cases category cases all_tests;
      collect rest all_tests'
  | _ :: rest => collect rest all_tests
  end.

(** The sort key, [severity_order.get(x.get("severity", "medium"), 2)]: a
    value that is no key of the table ranks 2, a list or a dict cannot be
    looked up. *)
Definition sort_key (x : json) : Py.result Z :=
  found ← get x "severity";
  let severity := default (JString "medium") found in
  match severity with
  | JString s => Py.Ok (default 2%Z (order_get severity_order s))
  | JArray _ | JObject _ =>
      Py.Raise (Py.OtherError ("unhashable type: '" +:+ type_name severity +:+ "'"))
  | _ => Py.Ok 2%Z
  end.

(** [list.sort(key=...)] computes the key of every element first and then
    sorts stably; the outcome of a stable sort is fixed by the keys, and
    insertion from the right produces it. *)
Fixpoint keyed (xs : list json) : Py.result (list (Z * json)) :=
  match xs with
  | [] => Py.Ok []
  | x :: rest =>
      k ← sort_key x;
      others ← keyed rest;
      mret ((k, x) :: others)
  end.

Fixpoint insert_by_key (k : Z) (x : json) (sorted : list (Z * json)) : list (Z * json) :=
  match sorted with
  | [] => [(k, x)]
  | (k', x') :: rest =>
      if (k <=? k')%Z then (k, x) :: sorted else (k', x') :: insert_by_key k x rest
  end.

Definition sort_by_key (xs : list (Z * json)) : list (Z * json) :=
  fold_right (fun p sorted => insert_by_key p.1 p.2 sorted) [] xs.

Definition _prioritize_cases (all_cases : list (string * json)) : Py.result (list json) :=
  all_tests ← collect all_cases [];
  decorated ← keyed all_tests;
  mret (take 10 (map snd (sort_by_key decorated))).

(** The dictionary [generate_cases] hands to [_prioritize_cases]. *)
Definition edge_cases_dict (boundary invalid stress integration : list json)
    : list (string * json) :=
  [("boundary_cases", JArray boundary); ("invalid_inputs", JArray invalid);
   ("stress_cases", JArray stress); ("integration_cases", JArray integration);
   ("priority_cases", JArray [])].

End EdgeCases.

(** ** src/agents/correctness.py *)

Module Correctness.
Import Json.

(** One entry of [results["test_results"]]; a key the entry does not have
    is [None]. *)
Record TestResult : Type := {
  name : json;
  passed : json;
  input : option json;
  expected : option json;
  actual : option json;
  reason : option json;
  error : option string
}.

Record Results : Type := {
  tests_passed : Z;
  total_tests : Z;
  test_results : list TestResult;
  errors : list string;
  summary : string
}.

(** How [subprocess.run] ends: the process exits, the timeout of five
    seconds expires, or the call raises something else. *)
Inductive process : Type :=
| Completed (returncode : Z) (stdout stderr : string)
| TimeoutExpired
| Failed (e : Py.exn).

Definition results_init (test_cases : list json) : Results :=
  {| tests_passed := 0; total_tests := Z.of_nat (length test_cases);
     test_results := []; errors := []; summary := "" |}.

Definition add_result (r : TestResult) (counted : bool) (results : Results) : Results :=
  {| tests_passed := if counted then tests_passed results + 1 else tests_passed results;
     total_tests := total_tests results;
     test_results := test_results results ++ [r];
     errors := errors results;
     summary := summary results |}.

Definition add_error (message : string) (results : Results) : Results :=
  {| tests_passed := tests_passed results;
     total_tests := total_tests results;
     test_results := test_results results;
     errors := errors results ++ [message];
     summary := summary results |}.

(** [x.get(key, d)]. *)
Definition get_default (x : json) (key : string) (d : json) : Py.result json :=
  found ← get x key;
  mret (default d found).

Definition failed_result (description : json) (message : string) : TestResult :=
  {| name := description; passed := JBool false; input := None; expected := None;
     actual := None; reason := None; error := Some message |}.

Section WithCollaborators.
(** The temporary module written for a source (its file name); the run of
    the test script built from the module name and the test's input,
    expected value and function; [json.loads]; [os.unlink]; [str] of a
    value; the language model answering the prompts of
    [_generate_test_cases], [_llm_based_testing] and [_generate_summary];
    and the search for the text between the first opening and the last
    closing brace. *)
Variable write_module : string -> Py.result string.
Variable subprocess_run : string -> json -> json -> json -> process.
Variable json_loads : string -> Py.result json.
Variable unlink : string -> Py.result unit.
Variable str_of : json -> string.
Variable _generate_test_cases : string -> string -> Py.result (list json).
Variable simulate : string -> string -> json -> json -> json -> Py.result string.
Variable search_object : string -> option string.
Variable _generate_summary : Results -> Py.result string.

(** *** _run_python_tests *)

(** What the body of the inner [try] does after the process has exited. *)
Definition completed (test : json) (returncode : Z) (stdout stderr : string)
    (results : Results) : Py.result Results :=
  if (returncode =? 0)%Z
  then
    output ← json_loads stdout;
    description ← get_default test "description" (JString "Test");
    passed_value ← get_default output "passed" (JBool false);
    input_value ← get_default test "input" JNull;
    expected_value ← get_default test "expected" JNull;
    actual_value ← get_default output "result" JNull;
    flag ← get_default output "passed" JNull;
    mret (add_result
            {| name := description; passed := passed_value; input := Some input_value;
               expected := Some expected_value; actual := Some actual_value;
               reason := None; error := None |}
            (truthy flag) results)
  else
    description ← get_default test "description" (JString "Test");
    mret (add_result (failed_result description stderr) false results).

(** One turn of the loop over the test cases. *)
Definition run_test (filename : string) (results : Results) (test : json) : Results :=
  match
    input_value ← get_default test "input" (JString "");
    expected_value ← get_default test "expected" (JString "");
    function ← get_default test "function" (JString "main");
    mret (subprocess_run filename input_value expected_value function)
  with
  | Py.Raise e => add_error (Py.str_exn e) results
  | Py.Ok (Failed e) => add_error (Py.str_exn e) results
  | Py.Ok TimeoutExpired =>
      match get_default test "description" (JString "Test") with
      | Py.Ok description =>
          add_result (failed_result description "Test execution timed out") false results
      | Py.Raise e => add_error (Py.str_exn e) results
      end
  | Py.Ok (Completed returncode stdout stderr) =>
      match completed test returncode stdout stderr results with
      | Py.Ok results' => results'
      | Py.Raise e => add_error (Py.str_exn e) results
      end
  end.

Definition _run_python_tests (code : string) (test_cases : list json) : Py.result Results :=
  filename ← write_module code;
  let results := fold_left (run_test filename) test_cases (results_init test_cases) in
  _ ← unlink filename;
  mret results.

(** *** _llm_based_testing *)

(** What the [try] block of one turn does with the model's answer; [None]
    when the answer holds no braces, in which case nothing is recorded. *)
Definition simulated (test : json) (content : string) (results : Results)
    : option (Py.result Results) :=
  match search_object content with
  | None => None
  | Some text =>
      Some (result ← json_loads text;
            description ← get_default test "description" (JString "Test");
            passed_value ← get_default result "passed" (JBool false);
            input_value ← get_default test "input" JNull;
            expected_value ← get_default test "expected" JNull;
            actual_value ← get_default result "actual" JNull;
            reason_value ← get_default result "reason" JNull;
            flag ← get_default result "passed" JNull;
            mret (add_result
                    {| name := description; passed := passed_value;
                       input := Some input_value; expected := Some expected_value;
                       actual := Some actual_value; reason := Some reason_value;
                       error := None |}
                    (truthy flag) results))
  end.

Fixpoint simulate_tests (code language : string) (test_cases : list json) (results : Results)
    : Py.result Results :=
  match test_cases with
  | [] => Py.Ok results
  | test :: rest =>
      input_value ← get_default test "input" JNull;
      expected_value ← get_default test "expected" JNull;
      description ← get_default test "description" JNull;
      content ← simulate code language input_value expected_value description;
      simulate_tests code language rest
        match simulated test content results with
        | None => results
        | Some (Py.Ok results') => results'
        | Some (Py.Raise _) =>
            add_error ("Failed to parse LLM response for test: " +:+ str_of description)
              results
        end
  end.

Definition _llm_based_testing (code language : string) (test_cases : list json)
    : Py.result Results :=
  simulate_tests code language test_cases (results_init test_cases).

(** *** review

    The class has no method [_run_javascript_tests]: looking it up
    raises. *)
Definition _run_javascript_tests : Py.result (string -> list json -> Py.result Results) :=
  Py.Raise (Py.OtherError
              "'CorrectnessAgent' object has no attribute '_run_javascript_tests'").

Definition review (code language : string) (test_cases : option (list json))
    : Py.result Results :=
  test_cases ←
    match test_cases with
    | Some (test :: rest) => Py.Ok (test :: rest)
    | _ => _generate_test_cases code language
    end;
  test_results ←
    (if String.eqb language "python" then _run_python_tests code test_cases
     else if String.eqb language "javascript"
          then run ← _run_javascript_tests; run code test_cases
          else _llm_based_testing code language test_cases);
  text ← _generate_summary test_results;
  mret {| tests_passed := tests_passed test_results;
          total_tests := total_tests test_results;
          test_results := Correctness.test_results test_results;
          errors := errors test_results;
          summary := text |}.

End WithCollaborators.

End Correctness.

(** ** src/agents/summarizer.py: critical issues and the feedback history *)

Module SummarizerReview.

(** *** _identify_critical_issues *)

(** A hotspot as the summarizer reads it: [h.get('function')]. *)
Record Hotspot : Type := {
  function : option string
}.

(** The keys of the four reports the method reads. *)
Record Reports : Type := {
  correctness_report : Summarizer.CorrectnessReport;
  hotspots : option (list Hotspot);
  issues : option (list string);
  priority_cases : option (list Summarizer.EdgeCase)
}.

(** [sep.join(parts)]. *)
Fixpoint join (sep : string) (parts : list string) : string :=
  match parts with
  | [] => ""
  | [part] => part
  | part :: rest => part +:+ sep +:+ join sep rest
  end.

Definition is_critical (c : Summarizer.EdgeCase) : bool :=
  match Summarizer.severity c with
  | Some s => String.eqb s "critical"
  | None => false
  end.

(** The failing tests: [reports[0]["tests_passed"]] raises when the key is
    absent. *)
Definition failing_tests (r : Summarizer.CorrectnessReport) : Py.result (list string) :=
  match Summarizer.total_tests r with
  | Some total =>
      if (0 <? total)%Z
      then match Summarizer.tests_passed r with
           | Some passed =>
               let failed := (total - passed)%Z in
               Py.Ok (if (0 <? failed)%Z then [pretty failed +:+ " test(s) failing"] else [])
           | None => Py.Raise (Py.OtherError "'tests_passed'")
           end
      else Py.Ok []
  | None => Py.Ok []
  end.

Definition complexity_hotspots (found : option (list Hotspot)) : list string :=
  match found with
  | Some (h :: rest) =>
      ["High complexity in: "
         +:+ join ", " (map (fun h => default "unknown" (function h)) (take 3 (h :: rest)))]
  | _ => []
  end.

Definition readability_issues (found : option (list string)) : list string :=
  let found := default [] found in
  if (5 <? length found)%nat
  then [pretty (length found) +:+ " readability issues found"]
  else [].

Definition critical_cases (found : option (list Summarizer.EdgeCase)) : list string :=
  match List.filter is_critical (default [] found) with
  | [] => []
  | c :: rest => [pretty (length (c :: rest)) +:+ " critical edge cases to test"]
  end.

Definition _identify_critical_issues (reports : Reports) : Py.result (list string) :=
  failing ← failing_tests (correctness_report reports);
  mret (take 5 (failing ++ complexity_hotspots (hotspots reports)
                  ++ readability_issues (issues reports)
                  ++ critical_cases (priority_cases reports))).

(** *** The agent scores of the dictionary [summarize] returns

    The same four formulas as in [_calculate_overall_score], with other
    values for a report that holds no data. *)
Definition agent_correctness (r : Summarizer.CorrectnessReport) : Q :=
  match Summarizer.total_tests r with
  | Some total =>
      if (total =? 0)%Z then 0
      else inject_Z (default 0%Z (Summarizer.tests_passed r)) / inject_Z (Z.max total 1) * 100
  | None => 0
  end.

Definition agent_readability (r : Summarizer.ReadabilityReport) : Q :=
  match Summarizer.scores r with
  | Some d => if bool_decide (d = ∅) then 0 else Summarizer.sum_values d / 4 * 10
  | None => 0
  end.

Definition agent_robustness (r : Summarizer.EdgeCasesReport) : Q :=
  match Summarizer.priority_cases r with
  | Some (c :: cases) => inject_Z (Z.of_nat (length (c :: cases))) / 10 * 100
  | _ => 50
  end.

Definition agent_scores (reports : Summarizer.Reports) : Summarizer.SubScores :=
  {| Summarizer.correctness := agent_correctness (Summarizer.correctness_report reports);
     Summarizer.complexity :=
       inject_Z (Summarizer._score_complexity (Summarizer.complexity_report reports));
     Summarizer.readability := agent_readability (Summarizer.readability_report reports);
     Summarizer.robustness := agent_robustness (Summarizer.edge_cases_report reports) |}.

(** *** The feedback history *)

Record Feedback : Type := {
  review_id : string;
  user_id : string;
  rating : Z;
  comments : string;
  timestamp : string
}.

Record SummarizerAgent : Type := {
  feedback_history : list Feedback
}.

Definition SummarizerAgent_init : SummarizerAgent := {| feedback_history := [] |}.

(** Name resolution inside [record_feedback]: the locals of the method,
    then the globals of the module, then the builtins. *)
Definition record_feedback_locals : list string :=
  ["self"; "review_id"; "user_id"; "rating"; "comments"].

Definition module_globals : list string :=
  ["__name__"; "__doc__"; "__package__"; "__loader__"; "__spec__"; "__file__";
   "__cached__"; "__builtins__";
   "HumanMessage"; "SystemMessage"; "ChatGroq"; "Dict"; "List"; "logging"; "logger";
   "SummarizerAgent"].

Definition lookup_name (locals : list string) (name : string) : Py.result Plagiarism.binding :=
  if Py.str_in name locals then Py.Ok Plagiarism.LocalName
  else if Py.str_in name module_globals then Py.Ok Plagiarism.GlobalName
  else if Py.str_in name Plagiarism.builtins then Py.Ok Plagiarism.BuiltinName
  else Py.Raise (Py.NameError ("name '" +:+ name +:+ "' is not defined")).

(** The entry is built key by key before [append] is called; the timestamp
    expression comes last.  [isoformat_now] is the value that expression
    would have once its name is resolved.  The method has no handler. *)
Definition record_feedback (isoformat_now : Py.result string) (self : SummarizerAgent)
    (review user : string) (stars : Z) (text : string) : Py.result SummarizerAgent :=
  _ ← lookup_name record_feedback_locals "import_datetime";
  now ← isoformat_now;
  mret {| feedback_history :=
            feedback_history self ++
              [{| review_id := review; user_id := user; rating := stars;
                  comments := text; timestamp := now |}] |}.

(** The style a user prefers, [None] for the empty dictionary. *)
Definition _get_user_preferences (self : SummarizerAgent) (user : string) : option string :=
  let user_feedback :=
    List.filter (fun f => String.eqb (user_id f) user) (feedback_history self) in
  match user_feedback with
  | [] => None
  | _ =>
      let concise_count :=
        length (List.filter (fun f => (rating f <? 3)%Z) user_feedback) in
      let detailed_count :=
        length (List.filter (fun f => (3 <? rating f)%Z) user_feedback) in
      if (detailed_count <? concise_count)%nat then Some "concise"
      else if (concise_count <? detailed_count)%nat then Some "detailed"
      else None
  end.

End SummarizerReview.

(** ** src/agents/repo_manager.py *)

Module RepoManager.

Record FileInfo : Type := {
  path : string;
  extension : string;
  size : Z;
  language : option string
}.

Record Dependency : Type := {
  dep_type : string;
  dep_file : string;
  dep_content : string
}.

(** One entry of [repo_state]; [languages] is a dict, kept in insertion
    order. *)
Record RepoState : Type := {
  url : string;
  repo_path : string;
  branch : string;
  files : list FileInfo;
  languages : list (string * Z);
  has_tests : bool;
  dependencies : list Dependency
}.

Record RepoManagerAgent : Type := {
  temp_dir : string;
  repo_state : gmap string RepoState
}.

Record Summary : Type := {
  s_url : string;
  s_branch : string;
  total_files : Z;
  code_files : Z;
  s_languages : list (string * Z);
  s_has_tests : bool;
  s_dependencies : list Dependency;
  main_language : option string
}.

Definition ext_map : list (string * string) :=
  [(".py", "Python"); (".js", "JavaScript"); (".jsx", "JavaScript");
   (".ts", "TypeScript"); (".tsx", "TypeScript"); (".java", "Java"); (".cpp", "C++");
   (".c", "C"); (".go", "Go"); (".rs", "Rust"); (".rb", "Ruby"); (".php", "PHP");
   (".swift", "Swift"); (".kt", "Kotlin")].

Definition dep_files : list (string * string) :=
  [("requirements.txt", "python"); ("package.json", "node"); ("pom.xml", "java");
   ("Cargo.toml", "rust"); ("go.mod", "go")].

Fixpoint dict_get {A : Type} (d : list (string * A)) (key : string) : option A :=
  match d with
  | [] => None
  | (k, v) :: rest => if String.eqb k key then Some v else dict_get rest key
  end.

(** [d[lang] = d.get(lang, 0) + 1]. *)
Fixpoint count_language (lang : string) (d : list (string * Z)) : list (string * Z) :=
  match d with
  | [] => [(lang, 1%Z)]
  | (k, v) :: rest =>
      if String.eqb k lang then (k, (v + 1)%Z) :: rest
      else (k, v) :: count_language lang rest
  end.

(** [max(d, key=d.get)]: the first key, in the order of the dict, whose
    value no other value exceeds. *)
Fixpoint max_key (best : string * Z) (rest : list (string * Z)) : string :=
  match rest with
  | [] => best.1
  | (k, v) :: rest' => if (best.2 <? v)%Z then max_key (k, v) rest' else max_key best rest'
  end.

Section WithCollaborators.
(** The file system and the libraries: the files [os.walk] finds below a
    directory, as pairs of the joined path and the file name, in the order
    of the walk; [os.path.relpath]; [os.path.splitext(...)[1]];
    [os.path.getsize]; [str.lower]; [os.path.join]; whether a path exists
    and, if so, the first 500 characters read from it; the first ten
    characters of the md5 digest of a text; and [Repo.clone_from]. *)
Variable walk_files : string -> list (string * string).
Variable relpath : string -> string -> string.
Variable splitext_ext : string -> string.
Variable getsize : string -> Py.result Z.
Variable lower : string -> string.
Variable join_path : string -> string -> string.
Variable read_head : string -> option (Py.result string).
Variable md5_prefix : string -> string.
Variable clone_from : string -> string -> string -> Py.result unit.

Definition _detect_language (filename : string) : option string :=
  dict_get ext_map (lower (splitext_ext filename)).

Definition _generate_repo_id (repo_url : string) : string := md5_prefix repo_url.

Definition is_test_path (rel_path : string) : bool :=
  Py.contains "test" (lower rel_path) || Py.contains "spec" (lower rel_path).

(** One turn of the loop over the files of the walk. *)
Definition analyze_file (state : RepoState) (found : string * string) : Py.result RepoState :=
  let '(file_path, file) := found in
  let rel_path := relpath file_path (repo_path state) in
  bytes ← getsize file_path;
  let file_info :=
    {| path := rel_path; extension := splitext_ext file; size := bytes;
       language := _detect_language file |} in
  mret {| url := url state; repo_path := repo_path state; branch := branch state;
          files := files state ++ [file_info];
          languages :=
            match language file_info with
            | Some lang => count_language lang (languages state)
            | None => languages state
            end;
          has_tests := if is_test_path rel_path then true else has_tests state;
          dependencies := dependencies state |}.

(** The loop stops at the first file whose size cannot be read; the entry
    keeps what the earlier turns wrote. *)
Fixpoint analyze_files (state : RepoState) (found : list (string * string))
    : RepoState * Py.result unit :=
  match found with
  | [] => (state, Py.Ok tt)
  | file :: rest =>
      match analyze_file state file with
      | Py.Ok state' => analyze_files state' rest
      | Py.Raise e => (state, Py.Raise e)
      end
  end.

Fixpoint read_dependencies (root : string) (candidates : list (string * string))
    : Py.result (list Dependency) :=
  match candidates with
  | [] => Py.Ok []
  | (filename, lang) :: rest =>
      match read_head (join_path root filename) with
      | Some content =>
          head ← content;
          others ← read_dependencies root rest;
          mret ({| dep_type := lang; dep_file := filename; dep_content := head |} :: others)
      | None => read_dependencies root rest
      end
  end.

Definition _detect_dependencies (state : RepoState) : RepoState * Py.result unit :=
  match read_dependencies (repo_path state) dep_files with
  | Py.Ok found =>
      ({| url := url state; repo_path := repo_path state; branch := branch state;
          files := files state; languages := languages state;
          has_tests := has_tests state; dependencies := found |}, Py.Ok tt)
  | Py.Raise e => (state, Py.Raise e)
  end.

Definition _analyze_repo_structure (state : RepoState) : RepoState * Py.result unit :=
  match analyze_files state (walk_files (repo_path state)) with
  | (state', Py.Ok _) => _detect_dependencies state'
  | (state', Py.Raise e) => (state', Py.Raise e)
  end.

(** The handler of [clone_repository] logs and raises again: the entry, if
    it was already stored, stays. *)
Definition clone_repository (self : RepoManagerAgent) (repo_url branch_name : string)
    : RepoManagerAgent * Py.result string :=
  let repo_id := _generate_repo_id repo_url in
  let clone_path := join_path (temp_dir self) repo_id in
  match clone_from repo_url clone_path branch_name with
  | Py.Raise e => (self, Py.Raise e)
  | Py.Ok _ =>
      let fresh :=
        {| url := repo_url; repo_path := clone_path; branch := branch_name; files := [];
           languages := []; has_tests := false; dependencies := [] |} in
      let '(analyzed, outcome) := _analyze_repo_structure fresh in
      ({| temp_dir := temp_dir self;
          repo_state := <[repo_id := analyzed]> (repo_state self) |},
       _ ← outcome; mret repo_id)
  end.

Definition get_repo_summary (self : RepoManagerAgent) (repo_id : string) : Py.result Summary :=
  match repo_state self !! repo_id with
  | None => Py.Raise (Py.OtherError ("Repository " +:+ repo_id +:+ " not found"))
  | Some state =>
      Py.Ok {| s_url := url state; s_branch := branch state;
               total_files := Z.of_nat (length (files state));
               code_files :=
                 Z.of_nat (length (List.filter (fun f => bool_decide (is_Some (language f)))
                                     (files state)));
               s_languages := languages state;
               s_has_tests := has_tests state;
               s_dependencies := dependencies state;
               main_language :=
                 match languages state with
                 | [] => None
                 | first :: rest => Some (max_key first rest)
                 end |}
  end.

(** [shutil.rmtree] ignores its errors. *)
Definition cleanup (self : RepoManagerAgent) (repo_id : string) : RepoManagerAgent :=
  {| temp_dir := temp_dir self; repo_state := delete repo_id (repo_state self) |}.

End WithCollaborators.

End RepoManager.

(** * Properties *)

(** ** The tree walk never runs out of fuel *)

Section Walk.
Import PyAst.

Definition total_count (todo : list node) : nat :=
  fold_right (fun k acc => (node_count k + acc)%nat) 0%nat todo.

Lemma total_count_app (xs ys : list node) :
  total_count (xs ++ ys) = (total_count xs + total_count ys)%nat.
Proof. induction xs as [|x xs IH]; simpl; [reflexivity|]. rewrite IH. lia. Qed.

(** Each step takes one node off the queue, so fuel equal to the number of
    nodes pending, children included, yields them all. *)
Lemma walk_queue_complete (fuel : nat) (todo : list node) :
  (total_count todo <= fuel)%nat ->
  length (walk_queue fuel todo) = total_count todo.
Proof.
  revert todo. induction fuel as [|fuel IH]; intros todo Hfuel.
  - destruct todo as [|[c l e ks] rest]; [reflexivity|]. simpl in Hfuel. lia.
  - destruct todo as [|[c l e ks] rest]; [reflexivity|].
    cbn [walk_queue children_of length]. rewrite IH.
    + rewrite total_count_app. simpl. fold (total_count ks). lia.
    + rewrite total_count_app. simpl in Hfuel. fold (total_count ks) in Hfuel. lia.
Qed.

Lemma walk_visits_every_node (tree : node) : length (walk tree) = node_count tree.
Proof.
  unfold walk. rewrite walk_queue_complete; simpl; lia.
Qed.

End Walk.

(** ** Complexity analyzer: loop nesting and the time class *)

Section LoopDepth.
Import PyAst Complexity.
Local Open Scope Z_scope.

Definition below (ks : list node) : Z :=
  fold_right (fun k m => Z.max (loop_nesting_depth k) m) 0 ks.

Lemma below_nonneg ks : 0 <= below ks.
Proof. induction ks as [|k ks IH]; simpl; lia. Qed.

Lemma loop_nesting_depth_nonneg n : 0 <= loop_nesting_depth n.
Proof.
  destruct n as [c l e ks]. simpl. fold (below ks).
  pose proof (below_nonneg ks). destruct c; lia.
Qed.

(** What visiting a subtree does to the two counters, for a visitor whose
    current depth does not exceed the maximum seen so far. *)
Definition tracks (n : node) : Prop :=
  forall v, loop_depth v <= max_depth v ->
    loop_depth (visit n v) = loop_depth v /\
    max_depth (visit n v) = Z.max (max_depth v) (loop_depth v + loop_nesting_depth n).

Lemma visit_children ks :
  Forall tracks ks ->
  forall v, loop_depth v <= max_depth v ->
    loop_depth (fold_left (fun acc k => visit k acc) ks v) = loop_depth v /\
    max_depth (fold_left (fun acc k => visit k acc) ks v)
      = Z.max (max_depth v) (loop_depth v + below ks).
Proof.
  induction 1 as [|k ks Hk _ IH]; intros v Hv; simpl.
  - split; lia.
  - destruct (Hk v Hv) as [Hd Hm].
    destruct (IH (visit k v)) as [Hd' Hm']; [lia|].
    rewrite Hd', Hm', Hd, Hm. split; lia.
Qed.

Lemma visit_loop_tracks factor ks lineno v :
  Forall tracks ks -> loop_depth v <= max_depth v ->
  let v' := visit_loop factor (fun w => fold_left (fun acc k => visit k acc) ks w) lineno v in
  loop_depth v' = loop_depth v /\
  max_depth v' = Z.max (max_depth v) (loop_depth v + (1 + below ks)).
Proof.
  intros Hks Hv. unfold visit_loop. cbn [loop_depth max_depth].
  match goal with |- context [fold_left _ ks ?w] => destruct (visit_children ks Hks w) as [Hd Hm] end.
  - cbn [loop_depth max_depth]. lia.
  - rewrite Hd, Hm. cbn [loop_depth max_depth].
    pose proof (below_nonneg ks). split; lia.
Qed.

Lemma visit_tracks n : tracks n.
Proof.
  induction n as [c l e ks IH] using node_ind'. intros v Hv.
  change (loop_nesting_depth (Node c l e ks))
    with (match c with For | While => 1 + below ks | _ => below ks end).
  destruct c;
    try (apply (visit_children ks IH v Hv));
    apply (visit_loop_tracks _ ks l v IH Hv).
Qed.

(** The depth the visitor reports is the nesting depth of the tree. *)
Lemma max_depth_is_nesting tree :
  max_depth (visit tree LoopComplexityVisitor_init) = loop_nesting_depth tree.
Proof.
  destruct (visit_tracks tree LoopComplexityVisitor_init) as [_ Hm]; [simpl; lia|].
  rewrite Hm. simpl. pose proof (loop_nesting_depth_nonneg tree). lia.
Qed.

End LoopDepth.

Section TimeClass.
Import PyAst Complexity.
Local Open Scope Z_scope.
Variable parse : string -> Py.result node.
Variable cc_visit : string -> Py.result (list Block).
Variable mi_visit : string -> Py.result Q.

Lemma analysis_time code tree :
  parse code = Py.Ok tree ->
  time (_analyze_python parse cc_visit mi_visit code)
    = get_complexity (visit tree LoopComplexityVisitor_init).
Proof.
  intros Hp. unfold _analyze_python. rewrite Hp.
  destruct (cc_visit code) as [[|c cc]|e]; reflexivity.
Qed.

(** The labels the analyzer gives at each nesting depth: the source's
    table, row by row.  The row for depth two holds the label as the source
    spells it. *)
Lemma time_class_by_depth code tree :
  parse code = Py.Ok tree ->
  let d := loop_nesting_depth tree in
  let label := big_o (time (_analyze_python parse cc_visit mi_visit code)) in
  (d = 0 -> label = "O(1)") /\
  (d = 1 -> label = "O(n)") /\
  (d = 2 -> label = big_o_depth_two) /\
  (2 < d -> label = "O(n^" +:+ pretty d +:+ ")").
Proof.
  intros Hp d label. subst label. rewrite (analysis_time code tree Hp).
  unfold get_complexity. rewrite max_depth_is_nesting. fold d.
  repeat split; intros Hd.
  - rewrite Hd. reflexivity.
  - rewrite Hd. reflexivity.
  - rewrite Hd. reflexivity.
  - destruct (Z.eqb_spec d 0); [lia|].
    destruct (Z.eqb_spec d 1); [lia|].
    destruct (Z.eqb_spec d 2); [lia|]. reflexivity.
Qed.

Lemma analysis_hotspots code tree blocks :
  parse code = Py.Ok tree ->
  cc_visit code = Py.Ok blocks ->
  hotspots (_analyze_python parse cc_visit mi_visit code) = hotspots_of blocks.
Proof.
  intros Hp Hc. unfold _analyze_python. rewrite Hp, Hc.
  destruct blocks; reflexivity.
Qed.

End TimeClass.

(** [for a in b:] / [for c in d:] / [pass]: two loops, one inside the
    other. *)
Definition two_nested_loops : PyAst.node :=
  PyAst.Node (PyAst.Module None) 0 0
    [PyAst.Node PyAst.For 1 3
       [PyAst.Node (PyAst.Name "a" PyAst.Store) 1 1 [];
        PyAst.Node (PyAst.Name "b" PyAst.Load) 1 1 [];
        PyAst.Node PyAst.For 2 3
          [PyAst.Node (PyAst.Name "c" PyAst.Store) 2 2 [];
           PyAst.Node (PyAst.Name "d" PyAst.Load) 2 2 [];
           PyAst.Node (PyAst.Other "Pass" []) 3 3 []]]].

Definition two_nested_loops_source : string :=
  String.concat (String "010" "")
    ["for a in b:"; "    for c in d:"; "        pass"; ""].

(** C5, at nesting depth two.  The specification's table gives the class
    quadratic, written O(n followed by a superscript two); the analyzer's
    label for that depth holds two more bytes (the superscript encoded
    twice), so it is not the label of the table, and the summarizer, whose
    score table is keyed by the proper spelling, does not recognise it and
    falls back to its default of 60 instead of the 50 of its quadratic
    row. *)
Theorem quadratic_label_is_garbled :
  let analysis :=
    Complexity._analyze_python (fun _ => Py.Ok two_nested_loops)
      (fun _ => Py.Ok []) (fun _ => Py.Ok 0%Q) two_nested_loops_source in
  let label := Complexity.big_o (Complexity.time analysis) in
  Complexity.loop_nesting_depth two_nested_loops = 2%Z /\
  Complexity.explanation (Complexity.time analysis)
    = "Nested loops detected - quadratic time" /\
  label = Complexity.big_o_depth_two /\
  label <> "O(n" +:+ Summarizer.superscript_two +:+ ")" /\
  String.length label = 8%nat /\
  Summarizer._score_complexity {| Summarizer.big_o := Some label |} = 60%Z /\
  Summarizer._score_complexity
    {| Summarizer.big_o := Some ("O(n" +:+ Summarizer.superscript_two +:+ ")") |} = 50%Z.
Proof.
  cbv zeta. repeat split; try reflexivity.
  intros H. apply (f_equal String.length) in H. vm_compute in H. discriminate H.
Qed.

(** ** Complexity analyzer: hotspots *)

Section Hotspots.
Import PyAst Complexity.
Local Open Scope Z_scope.

Lemma hotspots_of_elem (cc : list Block) (h : Hotspot) :
  h ∈ hotspots_of cc <-> exists c, c ∈ cc /\ 5 < complexity c /\ h = hotspot_of c.
Proof.
  unfold hotspots_of. rewrite list_elem_of_fmap. split.
  - intros (c & -> & Hc). apply list_elem_of_filter in Hc as [Hgt Hin].
    exists c. repeat split; [done|]. apply Z.ltb_lt. destruct (5 <? complexity c); done.
  - intros (c & Hin & Hgt & ->). exists c. split; [done|].
    apply list_elem_of_filter. split; [|done]. apply Z.ltb_lt in Hgt. rewrite Hgt. done.
Qed.

Lemma hotspots_of_descending (cc : list Block) :
  StronglySorted (fun a b => complexity b <= complexity a) cc ->
  descending (hotspots_of cc).
Proof.
  unfold descending, hotspots_of. induction 1 as [|c cc Hs IH Hall].
  - constructor.
  - rewrite filter_cons. destruct (decide (5 <? complexity c)); [|exact IH].
    simpl. constructor; [exact IH|].
    apply List.Forall_forall. intros h Hin. apply in_map_iff in Hin as (b & <- & Hb).
    apply list_elem_of_In, list_elem_of_filter in Hb as [_ Hb]. simpl.
    rewrite List.Forall_forall in Hall. apply Hall. apply list_elem_of_In. exact Hb.
Qed.

End Hotspots.

Section HotspotList.
Import PyAst Complexity.
Local Open Scope Z_scope.
Variable parse : string -> Py.result node.
Variable cc_visit : string -> Py.result (list Block).
Variable mi_visit : string -> Py.result Q.


End HotspotList.

(** Two functions, the second more complex than the first, as radon lists
    them: in source order. *)
Definition two_hotspots : list Complexity.Block :=
  [{| Complexity.name := "parse_row"; Complexity.complexity := 6; Complexity.lineno := 1 |};
   {| Complexity.name := "merge_rows"; Complexity.complexity := 9; Complexity.lineno := 20 |}].

Definition some_module : PyAst.node := PyAst.Node (PyAst.Module None) 0 0 [].



(** ** Readability analyzer: how the visitors charge violations *)

(** A visitor seen through its issue list and its score.  Going from
    [before] to [after], [ones] violations were charged one point each and
    [halves] violations half a point each, and each of them left one issue;
    [halving] tells whether the visitor charges half points at all. *)
Definition charged (halving : bool) (before after : list string * Q) : Prop :=
  exists ones halves : nat,
    (halving = false -> halves = 0%nat) /\
    length after.1 = (length before.1 + ones + halves)%nat /\
    (after.2 == before.2 - inject_Z (Z.of_nat ones) - inject_Z (Z.of_nat halves) * (1 # 2))%Q.

Lemma charged_refl h b : charged h b b.
Proof.
  exists 0%nat, 0%nat. split; [done|]. split; [lia|]. simpl. ring.
Qed.

Lemma charged_trans h a b c : charged h a b -> charged h b c -> charged h a c.
Proof.
  intros (o1 & h1 & Hh1 & Hl1 & Hs1) (o2 & h2 & Hh2 & Hl2 & Hs2).
  exists (o1 + o2)%nat, (h1 + h2)%nat. split; [|split].
  - intros Hf. rewrite (Hh1 Hf), (Hh2 Hf). done.
  - lia.
  - rewrite Hs2, Hs1, !Nat2Z.inj_add, !inject_Z_plus. ring.
Qed.

Lemma charged_one h (issues : list string) (score : Q) (message : string) :
  charged h (issues, score) (issues ++ [message], (score - 1)%Q).
Proof.
  exists 1%nat, 0%nat. split; [done|]. split.
  - simpl. rewrite length_app. simpl. lia.
  - simpl. ring.
Qed.

Lemma charged_half (issues : list string) (score : Q) (message : string) :
  charged true (issues, score) (issues ++ [message], (score - (1 # 2))%Q).
Proof.
  exists 0%nat, 1%nat. split; [done|]. split.
  - simpl. rewrite length_app. simpl. lia.
  - simpl. ring.
Qed.

Lemma count_nonneg (n : nat) : (0 <= inject_Z (Z.of_nat n))%Q.
Proof. change 0%Q with (inject_Z 0). rewrite <- Zle_Qle. lia. Qed.

(** A charged score never exceeds the score it started from. *)
Lemma charged_le h b a : charged h b a -> (a.2 <= b.2)%Q.
Proof.
  intros (ones & halves & _ & _ & Hs). rewrite Hs.
  pose proof (count_nonneg ones). pose proof (count_nonneg halves). lra.
Qed.

(** A charged score that recorded no new issue is unchanged, and each new
    issue costs at least half a point and at most one. *)
Lemma charged_bounds h b a :
  charged h b a ->
  let added := inject_Z (Z.of_nat (length a.1 - length b.1)) in
  (b.2 - added <= a.2 /\ a.2 <= b.2 - added * (1 # 2))%Q.
Proof.
  intros (ones & halves & _ & Hl & Hs) added. subst added.
  replace (length a.1 - length b.1)%nat with (ones + halves)%nat by lia.
  rewrite Hs, Nat2Z.inj_add, inject_Z_plus.
  pose proof (count_nonneg ones). pose proof (count_nonneg halves). split; lra.
Qed.

Lemma fold_charged {T : Type} (snap : T -> list string * Q)
    (step : PyAst.node -> T -> T) h (ks : list PyAst.node) :
  Forall (fun k => forall v, charged h (snap v) (snap (step k v))) ks ->
  forall v, charged h (snap v) (snap (fold_left (fun acc k => step k acc) ks v)).
Proof.
  induction 1 as [|k ks Hk _ IH]; intros v; simpl.
  - apply charged_refl.
  - eapply charged_trans; [apply Hk|apply IH].
Qed.

Section Visitors.
Import PyAst Readability.

Definition doc_snapshot (v : DocumentationVisitor.t) : list string * Q :=
  (DocumentationVisitor.issues v, DocumentationVisitor.score v).
Definition structure_snapshot (v : StructureVisitor.t) : list string * Q :=
  (StructureVisitor.issues v, StructureVisitor.score v).
Definition naming_snapshot (v : NamingConventionVisitor.t) : list string * Q :=
  (NamingConventionVisitor.issues v, NamingConventionVisitor.score v).

Lemma doc_visit_charged n :
  forall v, charged false (doc_snapshot v) (doc_snapshot (DocumentationVisitor.visit n v)).
Proof.
  induction n as [c l e ks IH] using node_ind'. intros v.
  pose proof (fold_charged doc_snapshot DocumentationVisitor.visit false ks IH) as Hfold.
  destruct c; try apply Hfold.
  - eapply charged_trans; [|apply Hfold].
    unfold DocumentationVisitor.visit_Module.
    destruct (lacks_docstring docstring); [apply charged_one|apply charged_refl].
  - eapply charged_trans; [|apply Hfold].
    unfold DocumentationVisitor.visit_FunctionDef.
    destruct (lacks_docstring docstring); [apply charged_one|apply charged_refl].
  - eapply charged_trans; [|apply Hfold].
    unfold DocumentationVisitor.visit_ClassDef.
    destruct (lacks_docstring docstring); [apply charged_one|apply charged_refl].
Qed.

Lemma structure_visit_charged n :
  forall v, charged true (structure_snapshot v) (structure_snapshot (StructureVisitor.visit n v)).
Proof.
  induction n as [c l e ks IH] using node_ind'. intros v.
  pose proof (fold_charged structure_snapshot StructureVisitor.visit true ks IH) as Hfold.
  destruct c; try apply Hfold.
  - eapply charged_trans; [|apply Hfold].
    unfold StructureVisitor.visit_Module.
    destruct (StructureVisitor.function_lengths v); apply charged_refl.
  - eapply charged_trans; [|apply Hfold].
    unfold StructureVisitor.visit_FunctionDef. cbv zeta.
    destruct (50 <? e - l)%Z; [|destruct (30 <? e - l)%Z];
      destruct (5 <? nargs)%nat;
      repeat first [apply charged_refl | apply charged_one | apply charged_half
                   | eapply charged_trans; [|apply charged_one] ].
Qed.

Lemma naming_fold_raise (ks : list node) e :
  fold_left (fun acc k => match acc with
                          | Py.Ok v' => NamingConventionVisitor.visit k v'
                          | Py.Raise e' => Py.Raise e'
                          end) ks (Py.Raise e) = Py.Raise e.
Proof. induction ks as [|k ks IH]; simpl; [reflexivity|exact IH]. Qed.

Definition naming_charged (k : node) : Prop :=
  forall v v', NamingConventionVisitor.visit k v = Py.Ok v' ->
    charged true (naming_snapshot v) (naming_snapshot v').

Lemma naming_fold_charged (ks : list node) :
  Forall naming_charged ks ->
  forall v v',
    fold_left (fun acc k => match acc with
                            | Py.Ok w => NamingConventionVisitor.visit k w
                            | Py.Raise e => Py.Raise e
                            end) ks (Py.Ok v) = Py.Ok v' ->
    charged true (naming_snapshot v) (naming_snapshot v').
Proof.
  induction 1 as [|k ks Hk _ IH]; intros v v' Hrun; simpl in Hrun.
  - injection Hrun as <-. apply charged_refl.
  - destruct (NamingConventionVisitor.visit k v) as [w|e] eqn:Ek.
    + eapply charged_trans; [apply (Hk v w Ek)|apply (IH w v' Hrun)].
    + rewrite naming_fold_raise in Hrun. discriminate Hrun.
Qed.

Lemma naming_visit_charged n : naming_charged n.
Proof.
  induction n as [c l e ks IH] using node_ind'. intros v v' Hrun.
  pose proof (naming_fold_charged ks IH) as Hfold.
  destruct c; try (apply (Hfold v v' Hrun)).
  - eapply charged_trans; [|apply (Hfold _ v' Hrun)].
    unfold NamingConventionVisitor.visit_FunctionDef.
    destruct (negb (islower name) || negb (has_underscore name));
      [apply charged_one|apply charged_refl].
  - cbn in Hrun. destruct name as [|first rest]; [discriminate Hrun|].
    eapply charged_trans; [|apply (Hfold _ v' Hrun)].
    destruct (negb (is_upper first)); [apply charged_one|apply charged_refl].
  - eapply charged_trans; [|apply (Hfold _ v' Hrun)].
    unfold NamingConventionVisitor.visit_Name.
    destruct ctx; try apply charged_refl.
    destruct ((String.length id =? 1)%nat && negb (Py.str_in id ["i"; "j"; "k"; "x"; "y"]));
      [apply charged_half|apply charged_refl].
Qed.

(** *** Code appended to a body

    Every visitor handles a node by a step of its own followed by the
    visit of the children in order, so the children appended last are
    visited from the state the original children left. *)
Lemma doc_visit_app c l e (body extra : list node) v :
  DocumentationVisitor.visit (Node c l e (body ++ extra)) v
    = fold_left (fun acc k => DocumentationVisitor.visit k acc) extra
        (DocumentationVisitor.visit (Node c l e body) v).
Proof. destruct c; cbn [DocumentationVisitor.visit]; apply fold_left_app. Qed.

Lemma structure_visit_app c l e (body extra : list node) v :
  StructureVisitor.visit (Node c l e (body ++ extra)) v
    = fold_left (fun acc k => StructureVisitor.visit k acc) extra
        (StructureVisitor.visit (Node c l e body) v).
Proof. destruct c; cbn [StructureVisitor.visit]; apply fold_left_app. Qed.

Lemma naming_visit_app c l e (body extra : list node) v :
  NamingConventionVisitor.visit (Node c l e (body ++ extra)) v
    = fold_left (fun acc k => match acc with
                              | Py.Ok w => NamingConventionVisitor.visit k w
                              | Py.Raise e' => Py.Raise e'
                              end) extra
        (NamingConventionVisitor.visit (Node c l e body) v).
Proof.
  destruct c; cbn [NamingConventionVisitor.visit]; try apply fold_left_app.
  destruct (NamingConventionVisitor.visit_ClassDef name l v); [apply fold_left_app|].
  symmetry. apply naming_fold_raise.
Qed.

End Visitors.

Section ReadabilityScores.
Import PyAst Readability.


Variable parse : string -> Py.result node.
Variable pylint_issues : string -> list string.
Variable splitlines : string -> list string.

(** The scores the analysis reports are the visitors' own. *)
Lemma analysis_scores code tree naming_visitor :
  parse code = Py.Ok tree ->
  NamingConventionVisitor.visit tree NamingConventionVisitor.init = Py.Ok naming_visitor ->
  let s := scores (_analyze_python parse pylint_issues splitlines code) in
  naming s = NamingConventionVisitor.score naming_visitor /\
  documentation s
    = DocumentationVisitor.score (DocumentationVisitor.visit tree DocumentationVisitor.init) /\
  structure s = StructureVisitor.score (StructureVisitor.visit tree StructureVisitor.init).
Proof.
  intros Hp Hn. unfold _analyze_python. rewrite Hp, Hn. repeat split.
Qed.

End ReadabilityScores.

(** Eleven one-line functions [def f(a, b, c, d, e, g): pass]: no
    docstring, no underscore in the name, six parameters. *)
Definition careless_function (line : Z) : PyAst.node :=
  PyAst.Node (PyAst.FunctionDef "f" 6 None) line line
    [PyAst.Node (PyAst.Other "arguments" []) 0 0
       (map (fun a => PyAst.Node (PyAst.Other "arg" [a]) line line [])
            ["a"; "b"; "c"; "d"; "e"; "g"]);
     PyAst.Node (PyAst.Other "Pass" []) line line []].

Definition eleven_functions : PyAst.node :=
  PyAst.Node (PyAst.Module None) 0 0
    (map careless_function [1; 2; 3; 4; 5; 6; 7; 8; 9; 10; 11]%Z).

Definition eleven_functions_source : string :=
  String.concat (String "010" "") (repeat "def f(a, b, c, d, e, g): pass" 11).


(** ** Similarity detector: registration *)

(** [import_datetime] is an attribute of the class and is bound in none of
    the scopes a bare name is looked up in. *)
Lemma import_datetime_unbound :
  Py.str_in "import_datetime" Plagiarism.class_attributes = true /\
  Plagiarism.lookup_name Plagiarism.add_to_database_locals "import_datetime"
    = Py.Raise (Py.NameError "name 'import_datetime' is not defined").
Proof. split; vm_compute; reflexivity. Qed.

Section Registration.
Import PyAst Plagiarism.
Variable parse : string -> Py.result node.
Variable str_ast : node -> string.
Variable md5_hexdigest : string -> string.
Variable cosine_similarities : list string -> Py.result (list Q).
Variable isoformat_now : Py.result string.

Local Abbreviation register := (add_to_database parse str_ast md5_hexdigest isoformat_now).
Local Abbreviation check_ast := (_check_ast_similarity parse str_ast md5_hexdigest).
Local Abbreviation check_tfidf := (_check_tfidf_similarity cosine_similarities).
Local Abbreviation check_structure := (_check_structure_similarity parse).
Local Abbreviation run_detect := (detect parse str_ast md5_hexdigest cosine_similarities).

Lemma register_returns_self (self : PlagiarismDetector) (text label : string) :
  register self text label = self.
Proof.
  unfold add_to_database. destruct (parse text) as [tree|e]; [|reflexivity].
  cbn [mbind result_bind Py.bind].
  destruct import_datetime_unbound as [_ Hname]. rewrite Hname. reflexivity.
Qed.

(** C2.  Whatever the text and the label, and whether or not the text
    parses, [add_to_database] returns the detector it was given: resolving
    [import_datetime] raises [NameError] while the entry is being built, so
    nothing is appended, and the handler around the body swallows the
    exception.  The same holds after any number of registrations. *)
Theorem add_to_database_changes_nothing (self : PlagiarismDetector) (text label : string)
    (submissions : list (string * string)) :
  lookup_name add_to_database_locals "import_datetime"
    = Py.Raise (Py.NameError "name 'import_datetime' is not defined") /\
  add_to_database parse str_ast md5_hexdigest isoformat_now self text label = self /\
  known_solutions (add_to_database parse str_ast md5_hexdigest isoformat_now self text label)
    = known_solutions self /\
  fold_left (fun d s => add_to_database parse str_ast md5_hexdigest isoformat_now d s.1 s.2)
    submissions self = self.
Proof.
  split; [apply import_datetime_unbound|].
  split; [apply register_returns_self|].
  split; [rewrite register_returns_self; reflexivity|].
  induction submissions as [|s rest IH]; simpl; [reflexivity|].
  rewrite register_returns_self. exact IH.
Qed.

Lemma check_ast_empty_corpus (self : PlagiarismDetector) (query : string) :
  known_solutions self = [] ->
  score (check_ast self query) = 0%Q /\ matches (check_ast self query) = [].
Proof.
  intros Hempty. unfold _check_ast_similarity. rewrite Hempty.
  destruct (parse query); split; reflexivity.
Qed.

Lemma detect_empty_corpus (self : PlagiarismDetector) (query : string) (threshold : Q) :
  known_solutions self = [] ->
  similarity_score (run_detect self query threshold) = 0%Q /\
  r_matches (run_detect self query threshold) = [].
Proof.
  intros Hempty. unfold detect.
  destruct (check_ast_empty_corpus self query Hempty) as [Hs Hm].
  destruct (Qgtb (score (check_ast self query)) threshold); [split; assumption|].
  unfold _check_tfidf_similarity. rewrite Hempty. cbn [score matches no_match].
  destruct (Qgtb 0 threshold); [split; reflexivity|].
  unfold _check_structure_similarity. rewrite Hempty. split; reflexivity.
Qed.

(** C1, on the code.  A source registered on a fresh detector and then
    queried, text for text, is not found: the corpus is still empty, the
    structural-hash score is 0 and the match list is empty, under every
    method and every threshold. *)
Theorem registered_source_is_not_found (text label : string) (threshold : Q) :
  let self :=
    add_to_database parse str_ast md5_hexdigest isoformat_now
      PlagiarismDetector_init text label in
  let by_hash := _check_ast_similarity parse str_ast md5_hexdigest self text in
  let report := detect parse str_ast md5_hexdigest cosine_similarities self text threshold in
  known_solutions self = [] /\
  score by_hash = 0%Q /\
  matches by_hash = [] /\
  similarity_score report = 0%Q /\
  r_matches report = [].
Proof.
  intros self by_hash report. subst report by_hash self.
  rewrite register_returns_self.
  split; [reflexivity|].
  destruct (check_ast_empty_corpus PlagiarismDetector_init text eq_refl) as [Hs Hm].
  destruct (detect_empty_corpus PlagiarismDetector_init text threshold eq_refl) as [Hd Hr].
  repeat split; assumption.
Qed.

End Registration.

(** [def area(w, h): return w * h] and the same function with every
    identifier renamed, [def size(a, b): return a * b]. *)
Definition binary_function (name x y : string) : PyAst.node :=
  PyAst.Node (PyAst.Module None) 0 0
    [PyAst.Node (PyAst.FunctionDef name 2 None) 1 2
       [PyAst.Node (PyAst.Other "arguments" []) 0 0
          [PyAst.Node (PyAst.Other "arg" [x]) 1 1 [];
           PyAst.Node (PyAst.Other "arg" [y]) 1 1 []];
        PyAst.Node (PyAst.Other "Return" []) 2 2
          [PyAst.Node (PyAst.Other "BinOp" []) 2 2
             [PyAst.Node (PyAst.Name x PyAst.Load) 2 2 [];
              PyAst.Node (PyAst.Other "Mult" []) 0 0 [];
              PyAst.Node (PyAst.Name y PyAst.Load) 2 2 []]]]].

Definition area_function : PyAst.node := binary_function "area" "w" "h".
Definition size_function : PyAst.node := binary_function "size" "a" "b".

(** [total = 1] and [count = 2]: an assignment of a literal to a name. *)
Definition assignment (name : string) (value : Z) : PyAst.node :=
  PyAst.Node (PyAst.Module None) 0 0
    [PyAst.Node (PyAst.Other "Assign" []) 1 1
       [PyAst.Node (PyAst.Name name PyAst.Store) 1 1 [];
        PyAst.Node (PyAst.Constant (PyAst.CInt value)) 1 1 []]].

(** Normalisation erases variable names, function and class names and
    literals; it has no case for parameters, which stay as written. *)
Lemma normalization_reach :
  Plagiarism._normalize_ast (assignment "total" 1)
    = Plagiarism._normalize_ast (assignment "count" 2) /\
  Plagiarism._normalize_ast area_function <> Plagiarism._normalize_ast size_function.
Proof. split; [reflexivity|]. vm_compute. discriminate. Qed.

Section RenamedClone.
Import PyAst Plagiarism.
Variable parse : string -> Py.result node.
Variable str_ast : node -> string.
Variable md5_hexdigest : string -> string.
Variable isoformat_now : Py.result string.

(** C8, on the code.  Registering a source and querying any other one, a
    renamed copy included, finds nothing: registration appended nothing, so
    the structural-hash score is 0.  And were [area_function] registered,
    its renamed copy [size_function] would still normalise to a different
    tree, because parameter names are not replaced. *)
Theorem renamed_clone_is_not_found (original renamed label : string) :
  let self :=
    add_to_database parse str_ast md5_hexdigest isoformat_now
      PlagiarismDetector_init original label in
  let by_hash := _check_ast_similarity parse str_ast md5_hexdigest self renamed in
  known_solutions self = [] /\
  score by_hash = 0%Q /\
  matches by_hash = [] /\
  _normalize_ast area_function <> _normalize_ast size_function.
Proof.
  intros self by_hash. subst by_hash self.
  rewrite register_returns_self. split; [reflexivity|].
  destruct (check_ast_empty_corpus parse str_ast md5_hexdigest
              PlagiarismDetector_init renamed eq_refl) as [Hs Hm].
  repeat split; try assumption. apply normalization_reach.
Qed.

End RenamedClone.

(** ** Similarity detector: the order of the methods *)

Lemma Qgtb_true (a b : Q) : Plagiarism.Qgtb a b = true <-> (b < a)%Q.
Proof.
  unfold Plagiarism.Qgtb. rewrite negb_true_iff. split.
  - intros H. apply Qnot_le_lt. intros Hle. apply Qle_bool_iff in Hle. congruence.
  - intros H. destruct (Qle_bool a b) eqn:E; [|reflexivity].
    apply Qle_bool_iff in E. lra.
Qed.

Lemma Qgtb_false (a b : Q) : Plagiarism.Qgtb a b = false <-> ~ (b < a)%Q.
Proof.
  rewrite <- Qgtb_true. destruct (Plagiarism.Qgtb a b); split; congruence.
Qed.

Lemma Qsum_from (xs : list Q) (seed : Q) :
  Forall (fun q => q == 0)%Q xs -> (fold_left Qplus xs seed == seed)%Q.
Proof.
  intros Hall. revert seed. induction Hall as [|q xs Hq _ IH]; intros seed; simpl.
  - reflexivity.
  - rewrite IH, Hq. ring.
Qed.

Section NothingInCommon.
Import Plagiarism.

(** Against the features of a text that did not parse (all counts zero, no
    import) every term of the comparison is zero. *)
Lemma numeric_score_zero (b : Z) : Forall (fun q => q == 0)%Q (numeric_score 0 b).
Proof.
  unfold numeric_score. destruct (Z.ltb_spec 0 (Z.max 0 b)) as [Hpos|_]; [|constructor].
  constructor; [|constructor].
  replace (Z.abs (0 - b)) with (Z.max 0 b) by lia.
  field. intros H. unfold Qeq in H. simpl in H. lia.
Qed.

Lemma import_score_zero (imports2 : gset (option string)) :
  Forall (fun q => q == 0)%Q (import_score ∅ imports2).
Proof.
  unfold import_score.
  destruct (bool_decide (∅ = ∅) && bool_decide (imports2 = ∅)); [constructor|].
  constructor; [|constructor].
  rewrite intersection_empty_l_L, size_empty. destruct (0 <? _)%Z; [|reflexivity].
  unfold Qdiv. simpl. ring.
Qed.

Lemma default_features_match_nothing (known : Features) :
  Qgtb (_calculate_structural_similarity features_default known) (8 # 10) = false.
Proof.
  apply Qgtb_false. unfold _calculate_structural_similarity.
  cbn [features_default num_functions num_classes num_loops num_conditionals imports].
  change (list_to_set []) with (∅ : gset (option string)).
  set (terms := _ ++ _).
  assert (Hall : Forall (fun q => q == 0)%Q terms).
  { subst terms. repeat (apply Forall_app; split);
      first [apply numeric_score_zero | apply import_score_zero]. }
  destruct terms as [|t terms]; [lra|].
  unfold Qsum. rewrite (Qsum_from _ _ Hall).
  unfold Qdiv. assert (H0 : (0 * / inject_Z (Z.of_nat (length (t :: terms))) == 0)%Q) by ring.
  rewrite H0. lra.
Qed.

End NothingInCommon.

Section Detect.
Import PyAst Plagiarism.
Variable parse : string -> Py.result node.
Variable str_ast : node -> string.
Variable md5_hexdigest : string -> string.
Variable cosine_similarities : list string -> Py.result (list Q).

Lemma structure_score_unparsed (self : PlagiarismDetector) (query : string) e :
  parse query = Py.Raise e ->
  score (_check_structure_similarity parse self query) = 0%Q /\
  matches (_check_structure_similarity parse self query) = [].
Proof.
  intros Hp. unfold _check_structure_similarity, _extract_structural_features.
  rewrite Hp. cbn [score matches].
  assert (Hnone : flat_map
            (fun known =>
               if Qgtb (_calculate_structural_similarity features_default (features known))
                       (8 # 10)
               then [{| m_source := source known;
                        similarity :=
                          _calculate_structural_similarity features_default (features known);
                        m_method := "structural" |}]
               else []) (known_solutions self) = []).
  { induction (known_solutions self) as [|known rest IH]; [reflexivity|].
    simpl. rewrite default_features_match_nothing. exact IH. }
  rewrite Hnone. split; reflexivity.
Qed.

(** C6, as the code has it.  [detect] tries the structural hash, then the
    lexical method, then the structural features, and returns the report of
    the first one whose score strictly exceeds the threshold, or else the
    report of the structural-feature method; it is a total function, every
    exception being handled inside the methods.  On an empty corpus the
    score is 0.  When the query does not parse, the two methods that parse
    it score 0, and the score returned is 0 unless the lexical method, which
    compares the texts without parsing them, exceeds the threshold. *)
Theorem detect_runs_methods_in_order
    (self : PlagiarismDetector) (query : string) (threshold : Q) :
  let by_hash := _check_ast_similarity parse str_ast md5_hexdigest self query in
  let lexical := _check_tfidf_similarity cosine_similarities self query in
  let structural := _check_structure_similarity parse self query in
  let report := detect parse str_ast md5_hexdigest cosine_similarities self query threshold in
  ((threshold < score by_hash)%Q ->
     method report = "ast" /\ similarity_score report = score by_hash /\
     r_matches report = matches by_hash) /\
  (~ (threshold < score by_hash)%Q -> (threshold < score lexical)%Q ->
     method report = "tfidf" /\ similarity_score report = score lexical /\
     r_matches report = matches lexical) /\
  (~ (threshold < score by_hash)%Q -> ~ (threshold < score lexical)%Q ->
     method report = "structure" /\ similarity_score report = score structural /\
     r_matches report = matches structural) /\
  (known_solutions self = [] -> similarity_score report = 0%Q /\ r_matches report = []) /\
  (forall e, parse query = Py.Raise e ->
     score by_hash = 0%Q /\ score structural = 0%Q /\
     (similarity_score report = 0%Q \/
      (method report = "tfidf" /\ similarity_score report = score lexical /\
       (threshold < score lexical)%Q))).
Proof.
  intros by_hash lexical structural report.
  assert (Hcases :
    (Qgtb (score by_hash) threshold = true /\
       report = {| similarity_score := score by_hash; r_matches := matches by_hash;
                   method := "ast"; details := Some by_hash |}) \/
    (Qgtb (score by_hash) threshold = false /\ Qgtb (score lexical) threshold = true /\
       report = {| similarity_score := score lexical; r_matches := matches lexical;
                   method := "tfidf"; details := Some lexical |}) \/
    (Qgtb (score by_hash) threshold = false /\ Qgtb (score lexical) threshold = false /\
       report = {| similarity_score := score structural; r_matches := matches structural;
                   method := "structure"; details := Some structural |})).
  { subst report. unfold detect. fold by_hash.
    destruct (Qgtb (score by_hash) threshold); [left; split; reflexivity|].
    fold lexical. destruct (Qgtb (score lexical) threshold).
    - right; left. repeat split.
    - right; right. repeat split. }
  split; [|split; [|split; [|split]]].
  - intros Hgt. apply Qgtb_true in Hgt.
    destruct Hcases as [[_ ->]|[(Hf & _)|(Hf & _)]]; [repeat split| |]; congruence.
  - intros Hle Hgt. apply Qgtb_false in Hle. apply Qgtb_true in Hgt.
    destruct Hcases as [[Ht _]|[(_ & _ & ->)|(_ & Hf & _)]]; [|repeat split|]; congruence.
  - intros Hle Hle'. apply Qgtb_false in Hle, Hle'.
    destruct Hcases as [[Ht _]|[(_ & Ht & _)|(_ & _ & ->)]]; [| |repeat split]; congruence.
  - intros Hempty. subst report.
    apply (detect_empty_corpus parse str_ast md5_hexdigest cosine_similarities); exact Hempty.
  - intros e Hp.
    assert (Hhash : score by_hash = 0%Q).
    { subst by_hash. unfold _check_ast_similarity. rewrite Hp. reflexivity. }
    destruct (structure_score_unparsed self query e Hp) as [Hstruct _].
    fold structural in Hstruct.
    split; [exact Hhash|]. split; [exact Hstruct|].
    destruct Hcases as [[_ ->]|[(_ & Hgt & ->)|(_ & _ & ->)]]; cbn [similarity_score method].
    + left. exact Hhash.
    + right. apply Qgtb_true in Hgt. repeat split. exact Hgt.
    + left. exact Hstruct.
Qed.

End Detect.

(** A corpus holding [x = 1] under the label alice, and the query
    [x = 1 )], which does not parse and has the same words. *)
Definition alice_entry : Plagiarism.Entry :=
  {| Plagiarism.code := "x = 1"; Plagiarism.source := "alice";
     Plagiarism.ast_hash := "0cc175b9c0f1b6a831c399e269772661";
     Plagiarism.features := Plagiarism.features_default;
     Plagiarism.timestamp := "2024-01-01T00:00:00" |}.

Definition alice_corpus : Plagiarism.PlagiarismDetector :=
  {| Plagiarism.known_solutions := [alice_entry]; Plagiarism.ast_cache := ∅ |}.

Definition parse_unmatched (text : string) : Py.result PyAst.node :=
  if String.eqb text "x = 1 )"
  then Py.Raise (Py.SyntaxError "unmatched ')'")
  else Py.Ok (assignment "x" 1).

(** The word n-grams of the two texts are the same, so their cosine
    similarity is 1. *)
Definition same_words (documents : list string) : Py.result (list Q) :=
  Py.Ok (map (fun _ => 1%Q) (removelast documents)).

(** C6 as stated fails in its last clause: the query does not parse, yet
    the lexical method finds the corpus entry and the score returned is 1. *)
Lemma unparsed_query_scores_by_text :
  let report :=
    Plagiarism.detect parse_unmatched (fun _ => "<ast.Module object>")
      (fun _ => "0cc175b9c0f1b6a831c399e269772661") same_words
      alice_corpus "x = 1 )" Plagiarism.default_threshold in
  Py.is_ok (parse_unmatched "x = 1 )") = false /\
  Plagiarism.method report = "tfidf" /\
  Plagiarism.similarity_score report = 1%Q /\
  map Plagiarism.m_source (Plagiarism.r_matches report) = ["alice"] /\
  ~ (Plagiarism.similarity_score report == 0)%Q.
Proof.
  cbv zeta. repeat split; try reflexivity. intros H. vm_compute in H. discriminate H.
Qed.

(** ** Stage aggregator: the overall score *)

Section OverallScore.
Import Summarizer.

(** [int] drops the fraction: towards zero from either side. *)
Lemma int_of_float_truncates (x : Q) :
  ((0 <= x)%Q ->
     (inject_Z (int_of_float x) <= x)%Q /\ (x < inject_Z (int_of_float x) + 1)%Q) /\
  ((x <= 0)%Q ->
     (x <= inject_Z (int_of_float x))%Q /\ (inject_Z (int_of_float x) - 1 < x)%Q).
Proof.
  destruct x as [n d]. unfold int_of_float. cbn [Qnum Qden]. split; intros Hx.
  - assert (Hn : (0 <= n)%Z) by (unfold Qle in Hx; simpl in Hx; lia).
    rewrite Z.quot_div_nonneg by lia.
    change (n / Z.pos d)%Z with (Qfloor (n # d)).
    split; [apply Qfloor_le|].
    change 1%Q with (inject_Z 1). rewrite <- inject_Z_plus. apply Qlt_floor.
  - assert (Hn : (n <= 0)%Z) by (unfold Qle in Hx; simpl in Hx; lia).
    assert (Hq : Z.quot n (Z.pos d) = Qceiling (n # d)).
    { unfold Qceiling, Qfloor. cbn [Qopp Qnum Qden].
      rewrite <- (Z.opp_involutive n) at 1.
      rewrite Z.quot_opp_l by lia. rewrite Z.quot_div_nonneg by lia. reflexivity. }
    rewrite Hq. split; [apply Qle_ceiling|].
    change 1%Q with (inject_Z 1). unfold Qminus. rewrite <- inject_Z_opp, <- inject_Z_plus.
    apply Qceiling_lt.
Qed.


End OverallScore.

(** Reports with the sub-scores 100, 80, 70 and 70: five tests of five
    passed, linear time, four readability scores of 7, seven priority
    cases. *)
Definition sample_reports : Summarizer.Reports :=
  {| Summarizer.correctness_report :=
       {| Summarizer.tests_passed := Some 5%Z; Summarizer.total_tests := Some 5%Z |};
     Summarizer.complexity_report := {| Summarizer.big_o := Some "O(n)" |};
     Summarizer.readability_report :=
       {| Summarizer.scores :=
            Some (list_to_map [("style", 7%Q); ("documentation", 7%Q);
                               ("naming", 7%Q); ("structure", 7%Q)]) |};
     Summarizer.edge_cases_report :=
       {| Summarizer.priority_cases :=
            Some (repeat {| Summarizer.severity := Some "high" |} 7) |} |}.

(** One test of three passed, constant time, no readability scores and no
    priority cases: the weighted sum is 64 and two thirds. *)
Definition one_third_reports : Summarizer.Reports :=
  {| Summarizer.correctness_report :=
       {| Summarizer.tests_passed := Some 1%Z; Summarizer.total_tests := Some 3%Z |};
     Summarizer.complexity_report := {| Summarizer.big_o := Some "O(1)" |};
     Summarizer.readability_report := {| Summarizer.scores := None |};
     Summarizer.edge_cases_report := {| Summarizer.priority_cases := None |} |}.

(** The sample's weighted sum in binary64 arithmetic, operation by
    operation as the source evaluates it, is 83 as well. *)
Lemma sample_weighted_sum_binary64 :
  let correctness := (5 / 5 * 100)%float in
  let complexity := 80%float in
  let readability := ((7 + 7 + 7 + 7) / 4 * 10)%float in
  let robustness := (7 / 10 * 100)%float in
  (0 + correctness * 0x1.6666666666666p-2 + complexity * 0.25
     + readability * 0x1.999999999999ap-3 + robustness * 0x1.999999999999ap-3 =? 83)%float
    = true.
Proof. reflexivity. Qed.


(** ** Workflow orchestrator *)

(** The nodes from the entry point to [END], with and without the
    similarity stage. *)
Definition pipeline (check : bool) : list Graph.graph_node :=
  [Graph.correctness; Graph.delay_1; Graph.complexity; Graph.delay_2;
   Graph.readability; Graph.delay_3; Graph.edge_cases] ++
  (if check then [Graph.delay_4; Graph.plagiarism] else []) ++
  [Graph.delay_5; Graph.summarizer].

Section Workflow.
Import Graph.
Variable Report : Type.
Variable empty_report : Report.
Variable agents : Agents Report.

Local Abbreviation step := (node_function empty_report agents).
Local Abbreviation call := (invocation empty_report agents).

(** The state [run] hands to the graph. *)
Definition started (clock_start : Q) (initial_state : ReviewState Report) : ReviewState Report :=
  set_errors [] (set_times (Some clock_start) (end_time initial_state)
                   (duration initial_state) initial_state).

(** Running a list of nodes one after the other, and the outcome of the
    agent call each of them made, taken in the state it ran in. *)
Definition run_nodes (path : list graph_node) (state : ReviewState Report) : ReviewState Report :=
  fold_left (fun s n => step n s) path state.

Fixpoint outcome_log (path : list graph_node) (state : ReviewState Report)
    : list (graph_node * option (Py.result Report)) :=
  match path with
  | [] => []
  | n :: rest => (n, call n state) :: outcome_log rest (step n state)
  end.

(** The error record a logged outcome leaves behind. *)
Definition entry_of (outcome : graph_node * option (Py.result Report)) : list string :=
  match outcome with
  | (n, Some (Py.Raise e)) => [error_label n +:+ ": " +:+ Py.str_exn e]
  | _ => []
  end.

Lemma step_errors n s : errors (step n s) = errors s ++ entry_of (n, call n s).
Proof.
  destruct n; cbn [node_function entry_of invocation];
    try (symmetry; apply app_nil_r);
    unfold _run_correctness, _run_complexity, _run_readability, _run_edge_cases,
      _run_plagiarism, _run_summarizer, guarded, get_result; cbv zeta;
    cbn [code language user_id results set_current_agent];
    match goal with |- context [match ?r with Py.Ok _ => _ | Py.Raise _ => _ end] =>
      destruct r end;
    cbn; try reflexivity; symmetry; apply app_nil_r.
Qed.

Lemma step_results n s (key : string) :
  results (step n s) !! key =
    match call n s with
    | Some (Py.Ok report) =>
        if decide (result_key n = key) then Some report else results s !! key
    | _ => results s !! key
    end.
Proof.
  destruct n; cbn [node_function invocation]; try reflexivity;
    unfold _run_correctness, _run_complexity, _run_readability, _run_edge_cases,
      _run_plagiarism, _run_summarizer, guarded, get_result; cbv zeta;
    cbn [code language user_id results set_current_agent];
    match goal with |- context [match ?r with Py.Ok _ => _ | Py.Raise _ => _ end] =>
      destruct r end;
    cbn [results set_result set_current_agent append_error set_errors result_key];
    try reflexivity; apply lookup_insert.
Qed.

(** No node touches the request or the clock readings. *)
Lemma step_request n s :
  code (step n s) = code s /\ language (step n s) = language s /\
  user_id (step n s) = user_id s /\ plagiarism_check (step n s) = plagiarism_check s /\
  start_time (step n s) = start_time s /\ end_time (step n s) = end_time s.
Proof.
  destruct n; cbn [node_function]; try (repeat split; reflexivity);
    unfold _run_correctness, _run_complexity, _run_readability, _run_edge_cases,
      _run_plagiarism, _run_summarizer, guarded, get_result; cbv zeta;
    cbn [code language user_id results set_current_agent];
    match goal with |- context [match ?r with Py.Ok _ => _ | Py.Raise _ => _ end] =>
      destruct r end;
    repeat split; reflexivity.
Qed.

Lemma step_should_check n s :
  _should_check_plagiarism (step n s) = _should_check_plagiarism s.
Proof.
  unfold _should_check_plagiarism.
  destruct (step_request n s) as (_ & _ & _ & -> & _). reflexivity.
Qed.

Lemma run_nodes_request path s :
  plagiarism_check (run_nodes path s) = plagiarism_check s /\
  start_time (run_nodes path s) = start_time s.
Proof.
  revert s. induction path as [|n rest IH]; intros s; [split; reflexivity|].
  change (run_nodes (n :: rest) s) with (run_nodes rest (step n s)).
  destruct (IH (step n s)) as [-> ->].
  destruct (step_request n s) as (_ & _ & _ & -> & -> & _). split; reflexivity.
Qed.

Lemma run_nodes_errors path s :
  errors (run_nodes path s) = errors s ++ flat_map entry_of (outcome_log path s).
Proof.
  revert s. induction path as [|n rest IH]; intros s.
  - simpl. symmetry. apply app_nil_r.
  - change (run_nodes (n :: rest) s) with (run_nodes rest (step n s)).
    rewrite IH, step_errors. cbn [outcome_log flat_map]. rewrite <- app_assoc. reflexivity.
Qed.

(** A key that no logged success writes keeps the value it had. *)
Lemma run_nodes_results path s (key : string) :
  (forall n report, (n, Some (Py.Ok report)) ∈ outcome_log path s -> result_key n <> key) ->
  results (run_nodes path s) !! key = results s !! key.
Proof.
  revert s. induction path as [|n rest IH]; intros s Hlog; [reflexivity|].
  change (run_nodes (n :: rest) s) with (run_nodes rest (step n s)).
  rewrite IH.
  - rewrite step_results. destruct (call n s) as [[report|e]|] eqn:Ecall; try reflexivity.
    destruct (decide (result_key n = key)) as [Hkey|_]; [|reflexivity].
    exfalso. apply (Hlog n report); [|exact Hkey].
    cbn [outcome_log]. rewrite Ecall. apply list_elem_of_here.
  - intros m report Hin. apply (Hlog m report). cbn [outcome_log].
    apply list_elem_of_further. exact Hin.
Qed.

Lemma outcome_log_nodes path s : map fst (outcome_log path s) = path.
Proof.
  revert s. induction path as [|n rest IH]; intros s; [reflexivity|].
  cbn [outcome_log map fst]. rewrite IH. reflexivity.
Qed.

(** The compiled graph runs the pipeline the flag selects, whatever the
    agents do, well within the step limit. *)
Lemma ainvoke_runs_pipeline s :
  ainvoke empty_report agents s
    = Py.Ok (run_nodes (pipeline (_should_check_plagiarism s)) s,
             pipeline (_should_check_plagiarism s)).
Proof.
  unfold ainvoke, recursion_limit, entry_point.
  cbn [execute edge mbind result_bind Py.bind mret result_ret].
  rewrite !step_should_check.
  destruct (_should_check_plagiarism s);
    cbn [execute edge mbind result_bind Py.bind mret result_ret]; reflexivity.
Qed.

End Workflow.

Arguments started {Report} clock_start initial_state.
Arguments run_nodes {Report} empty_report agents path state.
Arguments outcome_log {Report} empty_report agents path state.
Arguments entry_of {Report} outcome.

Section ErrorRecords.
Import Graph.
Variable Report : Type.

Lemma prefix_append (label rest : string) : String.prefix label (label +:+ rest) = true.
Proof.
  induction label as [|c label IH]; simpl; [destruct rest; reflexivity|].
  destruct (ascii_dec c c); [exact IH|congruence].
Qed.

(** The labels tell the stages apart. *)
Lemma label_prefix n m (message : string) :
  is_stage n = true ->
  String.prefix (error_label n +:+ ": ") (error_label m +:+ ": " +:+ message)
    = bool_decide (m = n).
Proof.
  intros Hn. destruct (decide (m = n)) as [->|Hne].
  - rewrite bool_decide_eq_true_2 by reflexivity.
    destruct n; try discriminate Hn;
      match goal with |- String.prefix ?label _ = _ => exact (prefix_append label message) end.
  - rewrite bool_decide_eq_false_2 by exact Hne.
    destruct n; try discriminate Hn; destruct m; try congruence; reflexivity.
Qed.

(** Among the records the stages leave, those of stage [n] are the ones
    logged for [n]. *)
Lemma errors_of_entry n (outcome : graph_node * option (Py.result Report)) :
  is_stage n = true ->
  errors_of n (entry_of outcome) = if decide (outcome.1 = n) then entry_of outcome else [].
Proof.
  intros Hn. destruct outcome as [m [[report|e]|]]; cbn [entry_of fst];
    try (destruct (decide (m = n)); reflexivity).
  unfold errors_of. rewrite filter_cons, filter_nil.
  destruct (decide (Is_true (String.prefix _ _))) as [Hp|Hp];
    rewrite (label_prefix n m (Py.str_exn e) Hn) in Hp;
    destruct (decide (m = n)) as [Heq|Hne]; try reflexivity.
  - apply bool_decide_unpack in Hp. contradiction.
  - exfalso. apply Hp. apply bool_decide_pack. exact Heq.
Qed.

Lemma errors_of_log n (log : list (graph_node * option (Py.result Report))) :
  is_stage n = true ->
  errors_of n (flat_map entry_of log)
    = flat_map entry_of (filter (fun outcome => outcome.1 = n) log).
Proof.
  intros Hn. induction log as [|outcome log IH]; [reflexivity|].
  cbn [flat_map]. unfold errors_of in *. rewrite filter_app, IH.
  fold (errors_of n (entry_of outcome)). rewrite (errors_of_entry n outcome Hn).
  rewrite filter_cons. destruct (decide (outcome.1 = n)); reflexivity.
Qed.

Lemma log_without n (log : list (graph_node * option (Py.result Report))) :
  n ∉ map fst log -> filter (fun o => o.1 = n) log = [].
Proof.
  induction log as [|[m o] log IH]; intros Hfresh; [reflexivity|].
  cbn [map fst] in Hfresh. apply not_elem_of_cons in Hfresh as [Hne Hfresh].
  rewrite filter_cons_False; [apply IH; exact Hfresh|].
  cbn [fst]. congruence.
Qed.

Lemma log_entry_unique n outcome (log : list (graph_node * option (Py.result Report))) :
  NoDup (map fst log) -> (n, outcome) ∈ log ->
  filter (fun o => o.1 = n) log = [(n, outcome)].
Proof.
  induction log as [|[m o] log IH]; intros Hnodup Hin.
  - apply elem_of_nil in Hin. destruct Hin.
  - cbn [map fst] in Hnodup. apply NoDup_cons in Hnodup as [Hfresh Hnodup].
    rewrite filter_cons. cbn [fst]. apply elem_of_cons in Hin as [Heq|Hin].
    + injection Heq as <- <-. destruct (decide (n = n)) as [_|Hne]; [|congruence].
      f_equal. apply log_without. exact Hfresh.
    + destruct (decide (m = n)) as [->|_]; [|apply IH; assumption].
      exfalso. apply Hfresh. apply list_elem_of_fmap. exists (n, outcome). split; [done|exact Hin].
Qed.

Lemma result_key_stage n m :
  is_stage n = true -> is_stage m = true -> result_key m = result_key n -> m = n.
Proof. destruct n; try discriminate; destruct m; try discriminate; intros _ _ H; congruence. Qed.

Variable empty_report : Report.
Variable agents : Agents Report.

Lemma logged_call_is_stage path (s : ReviewState Report) m outcome :
  (m, Some outcome) ∈ outcome_log empty_report agents path s -> is_stage m = true.
Proof.
  revert s. induction path as [|n rest IH]; intros s Hin.
  - apply elem_of_nil in Hin. destruct Hin.
  - cbn [outcome_log] in Hin. apply elem_of_cons in Hin as [Heq|Hin]; [|exact (IH _ Hin)].
    injection Heq as <- Hcall. destruct m; try reflexivity; discriminate Hcall.
Qed.

End ErrorRecords.

Lemma pipeline_nodup check : NoDup (pipeline check).
Proof.
  destruct check; apply (bool_decide_unpack _); vm_compute; exact I.
Qed.

(** The agents with another similarity detector plugged in. *)
Definition with_detector {Report : Type} (detector : string -> Py.result Report)
    (agents : Graph.Agents Report) : Graph.Agents Report :=
  {| Graph.correctness_review := Graph.correctness_review agents;
     Graph.complexity_analyze := Graph.complexity_analyze agents;
     Graph.readability_review := Graph.readability_review agents;
     Graph.edge_cases_generate_cases := Graph.edge_cases_generate_cases agents;
     Graph.plagiarism_detect := detector;
     Graph.summarizer_summarize := Graph.summarizer_summarize agents |}.

Section Orchestrator.
Import Graph.
Variable Report : Type.
Variable empty_report : Report.
Variable agents : Agents Report.

Lemma run_is_pipeline (clock_start clock_end : Q) (initial_state : ReviewState Report) :
  let result :=
    run_nodes empty_report agents (pipeline (_should_check_plagiarism initial_state))
      (started clock_start initial_state) in
  run empty_report agents clock_start clock_end initial_state
    = set_times (Some clock_start) (Some clock_end) (Some (clock_end - clock_start)%Q) result /\
  nodes_run empty_report agents clock_start initial_state
    = pipeline (_should_check_plagiarism initial_state).
Proof.
  intros result. unfold run, nodes_run. fold (started clock_start initial_state).
  rewrite ainvoke_runs_pipeline.
  change (_should_check_plagiarism (started clock_start initial_state))
    with (_should_check_plagiarism initial_state).
  fold result.
  destruct (run_nodes_request Report empty_report agents
              (pipeline (_should_check_plagiarism initial_state))
              (started clock_start initial_state)) as [_ Hstart].
  fold result in Hstart. rewrite Hstart. split; reflexivity.
Qed.

(** A stage that returned has its report under its key at the end. *)
Lemma run_nodes_stores path (s : ReviewState Report) n report :
  NoDup path ->
  (n, Some (Py.Ok report)) ∈ outcome_log empty_report agents path s ->
  results (run_nodes empty_report agents path s) !! result_key n = Some report.
Proof.
  revert s. induction path as [|m rest IH]; intros s Hnodup Hin.
  - apply elem_of_nil in Hin. destruct Hin.
  - apply NoDup_cons in Hnodup as [Hfresh Hnodup].
    change (run_nodes empty_report agents (m :: rest) s)
      with (run_nodes empty_report agents rest (node_function empty_report agents m s)).
    cbn [outcome_log] in Hin. apply elem_of_cons in Hin as [Heq|Hin]; [|exact (IH _ Hnodup Hin)].
    injection Heq as <- Hcall.
    rewrite run_nodes_results.
    + rewrite step_results, <- Hcall.
      destruct (decide (result_key n = result_key n)); [reflexivity|congruence].
    + intros k other Hk Hkey.
      assert (Hn : is_stage n = true) by (destruct n; try reflexivity; discriminate Hcall).
      pose proof (logged_call_is_stage Report empty_report agents _ _ _ _ Hk) as Hstage.
      apply (result_key_stage n k Hn Hstage) in Hkey. subst k. apply Hfresh.
      rewrite <- (outcome_log_nodes Report empty_report agents rest
                    (node_function empty_report agents n s)).
      apply list_elem_of_fmap. exists (n, Some (Py.Ok other)). split; [reflexivity|exact Hk].
Qed.


Lemma step_without_detector detector n (s : ReviewState Report) :
  n <> plagiarism ->
  node_function empty_report (with_detector detector agents) n s
    = node_function empty_report agents n s.
Proof. intros Hn. destruct n; try reflexivity. congruence. Qed.

Lemma run_nodes_without_detector detector path (s : ReviewState Report) :
  plagiarism ∉ path ->
  run_nodes empty_report (with_detector detector agents) path s
    = run_nodes empty_report agents path s.
Proof.
  revert s. induction path as [|n rest IH]; intros s Hfresh; [reflexivity|].
  apply not_elem_of_cons in Hfresh as [Hne Hfresh].
  change (run_nodes empty_report (with_detector detector agents) rest
            (node_function empty_report (with_detector detector agents) n s)
          = run_nodes empty_report agents rest (node_function empty_report agents n s)).
  rewrite step_without_detector by congruence. apply IH. exact Hfresh.
Qed.


End Orchestrator.

(** *** A run with a failing stage

    Every agent returns a report (here a piece of text) except the
    complexity agent, which raises; the request asks for the similarity
    check and carries no report. *)
Definition sample_agents : Graph.Agents string :=
  {| Graph.correctness_review := fun _ _ => Py.Ok "correctness report";
     Graph.complexity_analyze := fun _ _ => Py.Raise (Py.OtherError "rate limit exceeded");
     Graph.readability_review := fun _ _ _ => Py.Ok "readability report";
     Graph.edge_cases_generate_cases := fun _ _ => Py.Ok "edge cases report";
     Graph.plagiarism_detect := fun _ => Py.Ok "similarity report";
     Graph.summarizer_summarize := fun _ _ _ _ _ _ _ => Py.Ok "summary" |}.

Definition sample_request (check : option bool) : Graph.ReviewState string :=
  {| Graph.code := "x = 1"; Graph.language := "python"; Graph.user_id := "alice";
     Graph.review_id := "r1"; Graph.repo_url := ""; Graph.deep_analysis := false;
     Graph.plagiarism_check := check; Graph.results := ∅;
     Graph.current_agent := None; Graph.errors := ["left over from an earlier run"];
     Graph.start_time := None; Graph.end_time := None; Graph.duration := None |}.



(** * Further properties of the analyzers *)

(** ** Complexity analyzer: what the loop visitor records *)

Section LoopRecords.
Import PyAst Complexity.
Local Open Scope Z_scope.

(** The loops of a tree. *)
Fixpoint loops_in (n : node) : nat :=
  match n with
  | Node c _ _ ks =>
      let inside := fold_right (fun k acc => (loops_in k + acc)%nat) 0%nat ks in
      match c with
      | For | While => S inside
      | _ => inside
      end
  end.

Definition loops_in_all (ks : list node) : nat :=
  fold_right (fun k acc => (loops_in k + acc)%nat) 0%nat ks.

(** Visiting a subtree from a visitor at depth [d]: the depth is restored,
    every loop leaves its line, factors are only added, and none is added
    exactly when the subtree has no loop or stays within depth one. *)
Definition records (n : node) : Prop :=
  forall v, 0 <= loop_depth v ->
    loop_depth (visit n v) = loop_depth v /\
    length (loop_lines (visit n v)) = (length (loop_lines v) + loops_in n)%nat /\
    (length (complexity_factors v) <= length (complexity_factors (visit n v))
       <= length (complexity_factors v) + loops_in n)%nat /\
    (length (complexity_factors (visit n v)) = length (complexity_factors v) <->
       loop_nesting_depth n = 0 \/ loop_depth v + loop_nesting_depth n <= 1).

Lemma records_children ks :
  Forall records ks ->
  forall v, 0 <= loop_depth v ->
    let v' := fold_left (fun acc k => visit k acc) ks v in
    loop_depth v' = loop_depth v /\
    length (loop_lines v') = (length (loop_lines v) + loops_in_all ks)%nat /\
    (length (complexity_factors v) <= length (complexity_factors v')
       <= length (complexity_factors v) + loops_in_all ks)%nat /\
    (length (complexity_factors v') = length (complexity_factors v) <->
       below ks = 0 \/ loop_depth v + below ks <= 1).
Proof.
  induction 1 as [|k ks Hk _ IH]; intros v Hv; cbn zeta.
  - simpl. repeat split; lia.
  - cbn [fold_left].
    destruct (Hk v Hv) as (Hd & Hl & Hm & Hs).
    destruct (IH (visit k v)) as (Hd' & Hl' & Hm' & Hs'); [lia|].
    cbn zeta in Hd', Hl', Hm', Hs'.
    pose proof (loop_nesting_depth_nonneg k). pose proof (below_nonneg ks).
    change (below (k :: ks)) with (Z.max (loop_nesting_depth k) (below ks)).
    change (loops_in_all (k :: ks)) with (loops_in k + loops_in_all ks)%nat.
    rewrite Hd in Hs'. rewrite Hd', Hd, Hl', Hl.
    split; [reflexivity|]. split; [lia|]. split; [lia|].
    split.
    + intros Hsame.
      assert (length (complexity_factors (visit k v)) = length (complexity_factors v)) as Hk1
        by lia.
      assert (length (complexity_factors (fold_left (fun acc k0 => visit k0 acc) ks (visit k v)))
              = length (complexity_factors (visit k v))) as Hk2 by lia.
      apply Hs in Hk1. apply Hs' in Hk2. lia.
    + intros Hdepth.
      assert (loop_nesting_depth k = 0 \/ loop_depth v + loop_nesting_depth k <= 1) as Hk1
        by lia.
      assert (below ks = 0 \/ loop_depth v + below ks <= 1) as Hk2 by lia.
      apply Hs in Hk1. apply Hs' in Hk2. lia.
Qed.

Lemma records_loop factor ks lineno v :
  Forall records ks -> 0 <= loop_depth v ->
  let v' := visit_loop factor (fun w => fold_left (fun acc k => visit k acc) ks w) lineno v in
  loop_depth v' = loop_depth v /\
  length (loop_lines v') = (length (loop_lines v) + S (loops_in_all ks))%nat /\
  (length (complexity_factors v) <= length (complexity_factors v')
     <= length (complexity_factors v) + S (loops_in_all ks))%nat /\
  (length (complexity_factors v') = length (complexity_factors v) <->
     1 + below ks = 0 \/ loop_depth v + (1 + below ks) <= 1).
Proof.
  intros Hks Hv. unfold visit_loop. cbn [loop_depth max_depth loop_lines complexity_factors].
  match goal with |- context [fold_left _ ks ?w] =>
    destruct (records_children ks Hks w) as (Hd & Hl & Hm & Hs) end.
  { cbn [loop_depth]. lia. }
  cbn zeta in Hd, Hl, Hm, Hs.
  cbn [loop_depth loop_lines complexity_factors] in Hd, Hl, Hm, Hs.
  pose proof (below_nonneg ks).
  rewrite Hd, Hl, length_app. cbn [length].
  split; [lia|]. split; [lia|].
  destruct (Z.ltb_spec 1 (loop_depth v + 1)) as [Hdeep|Hshallow].
  - rewrite length_app in Hm, Hs. cbn [length] in Hm, Hs. split; [lia|]. split; lia.
  - split; [lia|]. rewrite Hs. lia.
Qed.

Lemma visit_records n : records n.
Proof.
  induction n as [c l e ks IH] using node_ind'. intros v Hv.
  change (loop_nesting_depth (Node c l e ks))
    with (match c with For | While => 1 + below ks | _ => below ks end).
  change (loops_in (Node c l e ks))
    with (match c with For | While => S (loops_in_all ks) | _ => loops_in_all ks end).
  destruct c;
    try (apply (records_children ks IH v Hv));
    apply (records_loop _ ks l v IH Hv).
Qed.

(** X1.  After the visit of a whole tree the visitor is back at depth
    zero, it holds one line per loop, and it has recorded nested-loop
    factors exactly when some loop sits inside another. *)
Theorem nested_loops_leave_factors (tree : node) :
  let v := visit tree LoopComplexityVisitor_init in
  loop_depth v = 0 /\
  length (loop_lines v) = loops_in tree /\
  (length (complexity_factors v) <= length (loop_lines v))%nat /\
  (time_hotspots (get_complexity v) = [] <-> loop_nesting_depth tree <= 1).
Proof.
  intros v.
  destruct (visit_records tree LoopComplexityVisitor_init) as (Hd & Hl & Hm & Hs);
    [simpl; lia|].
  fold v in Hd, Hl, Hm, Hs. cbn in Hd, Hl, Hm, Hs.
  pose proof (loop_nesting_depth_nonneg tree).
  split; [exact Hd|]. split; [exact Hl|]. split; [lia|].
  unfold get_complexity.
  destruct (max_depth v =? 0), (max_depth v =? 1), (max_depth v =? 2);
    cbn [time_hotspots]; rewrite <- length_zero_iff_nil; split; lia.
Qed.

End LoopRecords.

(** ** Complexity analyzer: the space class *)

Section SpaceClass.
Import PyAst Complexity.

(** The nodes the memory visitor counts: a list in store context, and a
    call whose function is the bare name [list], [dict] or [set].  A list or
    dictionary display that is only read is none of them. *)
Definition is_allocation (c : node_class) (ks : list node) : bool :=
  match c with
  | ListNode Store => true
  | Call => is_collection_constructor (head ks)
  | _ => false
  end.

Fixpoint allocation_sites (n : node) : nat :=
  match n with
  | Node c _ _ ks =>
      ((if is_allocation c ks then 1 else 0)
       + fold_right (fun k acc => allocation_sites k + acc) 0 ks)%nat
  end.

Definition allocation_sites_all (ks : list node) : nat :=
  fold_right (fun k acc => (allocation_sites k + acc)%nat) 0%nat ks.

Definition counts_sites (n : node) : Prop :=
  forall v, length (allocations (memory_visit n v))
            = (length (allocations v) + allocation_sites n)%nat.

Lemma memory_visit_children ks :
  Forall counts_sites ks ->
  forall v, length (allocations (fold_left (fun acc k => memory_visit k acc) ks v))
            = (length (allocations v) + allocation_sites_all ks)%nat.
Proof.
  induction 1 as [|k ks Hk _ IH]; intros v; simpl; [lia|].
  rewrite IH, Hk. fold (allocation_sites_all ks). lia.
Qed.

Lemma memory_visit_counts n : counts_sites n.
Proof.
  induction n as [c l e ks IH] using node_ind'. intros v.
  pose proof (memory_visit_children ks IH) as Hfold.
  change (allocation_sites (Node c l e ks))
    with ((if is_allocation c ks then 1 else 0) + allocation_sites_all ks)%nat.
  destruct c; cbn [memory_visit is_allocation]; try (rewrite Hfold; simpl; lia).
  - destruct (is_collection_constructor (head ks)); rewrite Hfold;
      unfold record_allocation; cbn [allocations]; rewrite ?length_app; simpl; lia.
  - destruct ctx; rewrite Hfold;
      unfold record_allocation; cbn [allocations]; rewrite ?length_app; simpl; lia.
Qed.

Variable parse : string -> Py.result node.
Variable cc_visit : string -> Py.result (list Block).
Variable mi_visit : string -> Py.result Q.

Lemma analysis_space code tree :
  parse code = Py.Ok tree ->
  space (_analyze_python parse cc_visit mi_visit code)
    = memory_get_complexity (memory_visit tree MemoryComplexityVisitor_init).
Proof.
  intros Hp. unfold _analyze_python. rewrite Hp.
  destruct (cc_visit code) as [[|c cc]|e]; reflexivity.
Qed.


(** Cyclomatic value and hotspots. *)
Lemma max_complexity_bounds (c : Block) (cc : list Block) :
  (forall b, b ∈ c :: cc -> (complexity b <= max_complexity c cc)%Z) /\
  (exists b, b ∈ c :: cc /\ complexity b = max_complexity c cc).
Proof.
  unfold max_complexity. revert c. induction cc as [|d cc IH]; intros c.
  - simpl. split.
    + intros b Hb. apply list_elem_of_singleton in Hb. subst b. lia.
    + exists c. split; [apply list_elem_of_here|reflexivity].
  - cbn [fold_left].
    destruct (Z.max_spec (complexity c) (complexity d)) as [[Hlt Hmax]|[Hle Hmax]].
    + destruct (IH d) as [Hall [b [Hb Heq]]]. rewrite Hmax. split.
      * intros x Hx. apply elem_of_cons in Hx as [->|Hx]; [|exact (Hall x Hx)].
        pose proof (Hall d (list_elem_of_here _ _)). lia.
      * exists b. split; [apply list_elem_of_further; exact Hb|exact Heq].
    + destruct (IH c) as [Hall [b [Hb Heq]]]. rewrite Hmax. split.
      * intros x Hx. apply elem_of_cons in Hx as [->|Hx]; [apply Hall, list_elem_of_here|].
        apply elem_of_cons in Hx as [->|Hx].
        -- pose proof (Hall c (list_elem_of_here _ _)). lia.
        -- apply Hall. apply list_elem_of_further. exact Hx.
      * exists b. split; [|exact Heq].
        apply elem_of_cons in Hb as [->|Hb]; [apply list_elem_of_here|].
        do 2 apply list_elem_of_further. exact Hb.
Qed.


End SpaceClass.

(** [xs = list()]: one allocation site. *)
Definition list_call : PyAst.node :=
  PyAst.Node (PyAst.Module None) 0 0
    [PyAst.Node (PyAst.Other "Assign" []) 1 1
       [PyAst.Node (PyAst.Name "xs" PyAst.Store) 1 1 [];
        PyAst.Node PyAst.Call 1 1 [PyAst.Node (PyAst.Name "list" PyAst.Load) 1 1 []]]].



(** ** Readability analyzer: when the naming visitor raises, and what it counts *)

Section NamingCounts.
Import PyAst Readability.
Local Open Scope Z_scope.

(** No class of the tree has an empty name. *)
Fixpoint classes_named (n : node) : bool :=
  match n with
  | Node c _ _ ks =>
      match c with
      | ClassDef EmptyString _ => false
      | _ => forallb classes_named ks
      end
  end.

Fixpoint functions_in (n : node) : Z :=
  match n with
  | Node c _ _ ks =>
      let inside := fold_right (fun k acc => functions_in k + acc) 0 ks in
      match c with
      | FunctionDef _ _ _ => 1 + inside
      | _ => inside
      end
  end.

Fixpoint classes_in (n : node) : Z :=
  match n with
  | Node c _ _ ks =>
      let inside := fold_right (fun k acc => classes_in k + acc) 0 ks in
      match c with
      | ClassDef _ _ => 1 + inside
      | _ => inside
      end
  end.

Definition functions_in_all (ks : list node) : Z :=
  fold_right (fun k acc => functions_in k + acc) 0 ks.
Definition classes_in_all (ks : list node) : Z :=
  fold_right (fun k acc => classes_in k + acc) 0 ks.

Definition out_of_range : Py.result NamingConventionVisitor.t :=
  Py.Raise (Py.IndexError "string index out of range").

Definition naming_counts (n : node) : Prop :=
  forall v,
    (classes_named n = true ->
       exists v', NamingConventionVisitor.visit n v = Py.Ok v' /\
         NamingConventionVisitor.function_count v'
           = NamingConventionVisitor.function_count v + functions_in n /\
         NamingConventionVisitor.class_count v'
           = NamingConventionVisitor.class_count v + classes_in n) /\
    (classes_named n = false -> NamingConventionVisitor.visit n v = out_of_range).

Lemma naming_counts_children ks :
  Forall naming_counts ks ->
  forall v,
    (forallb classes_named ks = true ->
       exists v',
         fold_left (fun acc k => match acc with
                                 | Py.Ok w => NamingConventionVisitor.visit k w
                                 | Py.Raise e => Py.Raise e
                                 end) ks (Py.Ok v) = Py.Ok v' /\
         NamingConventionVisitor.function_count v'
           = NamingConventionVisitor.function_count v + functions_in_all ks /\
         NamingConventionVisitor.class_count v'
           = NamingConventionVisitor.class_count v + classes_in_all ks) /\
    (forallb classes_named ks = false ->
       fold_left (fun acc k => match acc with
                               | Py.Ok w => NamingConventionVisitor.visit k w
                               | Py.Raise e => Py.Raise e
                               end) ks (Py.Ok v) = out_of_range).
Proof.
  induction 1 as [|k ks Hk _ IH]; intros v.
  - split; [|discriminate]. intros _. exists v. simpl. repeat split; lia.
  - cbn [forallb fold_left]. destruct (Hk v) as [Hgood Hbad].
    destruct (classes_named k).
    + destruct (Hgood eq_refl) as (w & -> & Hf & Hc).
      destruct (IH w) as [Hgood' Hbad']. split.
      * intros Hall. destruct (Hgood' Hall) as (v' & Hrun & Hf' & Hc').
        exists v'. split; [exact Hrun|].
        change (functions_in_all (k :: ks)) with (functions_in k + functions_in_all ks).
        change (classes_in_all (k :: ks)) with (classes_in k + classes_in_all ks).
        split; lia.
      * exact Hbad'.
    + split; [discriminate|]. intros _. rewrite (Hbad eq_refl).
      apply naming_fold_raise.
Qed.

Lemma naming_visit_counts n : naming_counts n.
Proof.
  induction n as [c l e ks IH] using node_ind'. intros v.
  pose proof (naming_counts_children ks IH) as Hfold.
  change (functions_in (Node c l e ks))
    with (match c with FunctionDef _ _ _ => 1 + functions_in_all ks | _ => functions_in_all ks end).
  change (classes_in (Node c l e ks))
    with (match c with ClassDef _ _ => 1 + classes_in_all ks | _ => classes_in_all ks end).
  destruct c; try exact (Hfold v).
  - (* FunctionDef *)
    change (classes_named (Node (FunctionDef name nargs docstring) l e ks))
      with (forallb classes_named ks).
    cbn [NamingConventionVisitor.visit].
    destruct (Hfold (NamingConventionVisitor.visit_FunctionDef name l v)) as [Hgood Hbad].
    split; [|exact Hbad].
    intros Hall. destruct (Hgood Hall) as (v' & Hrun & Hf & Hc).
    exists v'. split; [exact Hrun|].
    unfold NamingConventionVisitor.visit_FunctionDef in Hf, Hc.
    destruct (negb (islower name) || negb (has_underscore name));
      cbn in Hf, Hc; split; lia.
  - (* ClassDef *)
    destruct name as [|first rest].
    + split; [discriminate|]. intros _. reflexivity.
    + change (classes_named (Node (ClassDef (String first rest) docstring) l e ks))
        with (forallb classes_named ks).
      cbn [NamingConventionVisitor.visit NamingConventionVisitor.visit_ClassDef
             first_isupper mbind result_bind Py.bind mret result_ret].
      match goal with |- context [fold_left _ ks (Py.Ok ?w)] =>
        destruct (Hfold w) as [Hgood Hbad] end.
      split; [|exact Hbad].
      intros Hall. destruct (Hgood Hall) as (v' & Hrun & Hf & Hc).
      exists v'. split; [exact Hrun|].
      destruct (negb (is_upper first)); cbn in Hf, Hc; split; lia.
  - (* Name *)
    change (classes_named (Node (Name id ctx) l e ks)) with (forallb classes_named ks).
    cbn [NamingConventionVisitor.visit].
    destruct (Hfold (NamingConventionVisitor.visit_Name id ctx l v)) as [Hgood Hbad].
    split; [|exact Hbad].
    intros Hall. destruct (Hgood Hall) as (v' & Hrun & Hf & Hc).
    exists v'. split; [exact Hrun|].
    unfold NamingConventionVisitor.visit_Name in Hf, Hc.
    destruct ctx; try (split; lia).
    destruct ((String.length id =? 1)%nat && negb (Py.str_in id ["i"; "j"; "k"; "x"; "y"]));
      cbn in Hf, Hc; split; lia.
Qed.

(** X4.  The naming visitor raises exactly when the tree holds a class
    with an empty name, which no parsed source has; otherwise it returns,
    having counted every function and every class of the tree. *)
Theorem naming_visitor_counts_or_raises (tree : node) :
  (classes_named tree = true ->
     exists v, NamingConventionVisitor.visit tree NamingConventionVisitor.init = Py.Ok v /\
       NamingConventionVisitor.function_count v = functions_in tree /\
       NamingConventionVisitor.class_count v = classes_in tree) /\
  (classes_named tree = false ->
     NamingConventionVisitor.visit tree NamingConventionVisitor.init
       = Py.Raise (Py.IndexError "string index out of range")).
Proof.
  destruct (naming_visit_counts tree NamingConventionVisitor.init) as [Hgood Hbad].
  split; [|exact Hbad].
  intros Hall. destruct (Hgood Hall) as (v & Hrun & Hf & Hc).
  exists v. cbn in Hf, Hc. repeat split; [exact Hrun|lia|lia].
Qed.

End NamingCounts.

(** ** Readability analyzer: the mean function length *)

Section MeanLength.
Import PyAst Readability.
Local Open Scope Z_scope.

(** A subtree without a [Module] node. *)
Fixpoint module_free (n : node) : bool :=
  match n with
  | Node c _ _ ks =>
      match c with
      | Module _ => false
      | _ => forallb module_free ks
      end
  end.

Definition keeps_mean (n : node) : Prop :=
  module_free n = true ->
  forall v,
    StructureVisitor.avg_function_length (StructureVisitor.visit n v)
      = StructureVisitor.avg_function_length v /\
    Z.of_nat (length (StructureVisitor.function_lengths (StructureVisitor.visit n v)))
      = Z.of_nat (length (StructureVisitor.function_lengths v)) + functions_in n.

Lemma keeps_mean_children ks :
  Forall keeps_mean ks -> forallb module_free ks = true ->
  forall v,
    StructureVisitor.avg_function_length
      (fold_left (fun acc k => StructureVisitor.visit k acc) ks v)
      = StructureVisitor.avg_function_length v /\
    Z.of_nat (length (StructureVisitor.function_lengths
                        (fold_left (fun acc k => StructureVisitor.visit k acc) ks v)))
      = Z.of_nat (length (StructureVisitor.function_lengths v)) + functions_in_all ks.
Proof.
  induction 1 as [|k ks Hk _ IH]; intros Hfree v.
  - simpl. split; [reflexivity|lia].
  - cbn [forallb] in Hfree. apply andb_true_iff in Hfree as [Hfk Hfks].
    cbn [fold_left]. destruct (IH Hfks (StructureVisitor.visit k v)) as [-> ->].
    destruct (Hk Hfk v) as [-> ->].
    change (functions_in_all (k :: ks)) with (functions_in k + functions_in_all ks).
    split; [reflexivity|lia].
Qed.

Lemma structure_visit_keeps_mean n : keeps_mean n.
Proof.
  induction n as [c l e ks IH] using node_ind'. intros Hfree v.
  change (functions_in (Node c l e ks))
    with (match c with FunctionDef _ _ _ => 1 + functions_in_all ks | _ => functions_in_all ks end).
  destruct c; try discriminate Hfree;
    try exact (keeps_mean_children ks IH Hfree v).
  cbn [StructureVisitor.visit].
  destruct (keeps_mean_children ks IH Hfree
              (StructureVisitor.visit_FunctionDef name nargs l e v)) as [-> ->].
  unfold StructureVisitor.visit_FunctionDef. cbv zeta.
  destruct (50 <? e - l); [|destruct (30 <? e - l)]; destruct (5 <? nargs)%nat;
    cbn [StructureVisitor.avg_function_length StructureVisitor.function_lengths
           StructureVisitor.penalise];
    rewrite length_app; cbn [length]; split; try reflexivity; lia.
Qed.

Variable parse : string -> Py.result node.
Variable pylint_issues : string -> list string.
Variable splitlines : string -> list string.

(** X5.  For a parsed source (a [Module] with no module below it) the
    structure visitor measures every function, yet the mean function length
    it reports is 0: the mean is taken in [visit_Module], before any
    function has been visited.  The metrics of the analysis carry that 0. *)
Theorem mean_function_length_is_zero code docstring l e (body : list node) :
  parse code = Py.Ok (Node (Module docstring) l e body) ->
  forallb module_free body = true ->
  let visitor :=
    StructureVisitor.visit (Node (Module docstring) l e body) StructureVisitor.init in
  Z.of_nat (length (StructureVisitor.function_lengths visitor)) = functions_in_all body /\
  StructureVisitor.avg_function_length visitor = 0%Q /\
  (forall m, metrics (_analyze_python parse pylint_issues splitlines code) = Some m ->
     avg_function_length m = 0%Q).
Proof.
  intros Hp Hfree visitor.
  assert (Hv : StructureVisitor.avg_function_length visitor = 0%Q /\
               Z.of_nat (length (StructureVisitor.function_lengths visitor))
                 = functions_in_all body).
  { assert (E : visitor = fold_left (fun acc k => StructureVisitor.visit k acc) body
                            StructureVisitor.init) by reflexivity.
    rewrite E.
    destruct (keeps_mean_children body
                (proj2 (List.Forall_forall keeps_mean body)
                   (fun k _ => structure_visit_keeps_mean k))
                Hfree StructureVisitor.init) as [Ha Hl].
    rewrite Ha, Hl. simpl. split; [reflexivity|lia]. }
  destruct Hv as [Hmean Hlen]. split; [exact Hlen|]. split; [exact Hmean|].
  intros m. unfold _analyze_python. rewrite Hp.
  destruct (NamingConventionVisitor.visit _ _); [|discriminate].
  intros Hm. injection Hm as <-. exact Hmean.
Qed.


End MeanLength.

Lemma mean_function_length_witness :
  let visitor :=
    Readability.StructureVisitor.visit eleven_functions Readability.StructureVisitor.init in
  length (Readability.StructureVisitor.function_lengths visitor) = 11%nat /\
  Readability.StructureVisitor.avg_function_length visitor = 0%Q.
Proof.
  destruct (mean_function_length_is_zero (fun _ => Py.Ok eleven_functions)
              (fun _ => []) (fun _ => []) eleven_functions_source None 0 0
              (map careless_function [1; 2; 3; 4; 5; 6; 7; 8; 9; 10; 11]%Z)
              eq_refl eq_refl) as (Hlen & Hmean & _).
  cbv zeta. split; [|exact Hmean]. apply Nat2Z.inj.
  etransitivity; [exact Hlen|reflexivity].
Defined.

(** ** Similarity detector: normalisation *)

Section Normalisation.
Import PyAst Plagiarism.

Lemma map_normalize_twice (ks : list node) :
  Forall (fun k => _normalize_ast (_normalize_ast k) = _normalize_ast k) ks ->
  map _normalize_ast (map _normalize_ast ks) = map _normalize_ast ks.
Proof.
  induction 1 as [|k ks Hk _ IH]; simpl; [reflexivity|]. rewrite Hk, IH. reflexivity.
Qed.

Lemma normalize_idempotent (tree : node) :
  _normalize_ast (_normalize_ast tree) = _normalize_ast tree.
Proof.
  induction tree as [c l e ks IH] using node_ind'.
  destruct c; cbn [_normalize_ast]; try reflexivity;
    rewrite (map_normalize_twice ks IH); reflexivity.
Qed.

Lemma normalize_children_count (ks : list node) :
  Forall (fun k => node_count (_normalize_ast k) = node_count k) ks ->
  total_count (map _normalize_ast ks) = total_count ks.
Proof.
  induction 1 as [|k ks Hk _ IH]; simpl; [reflexivity|].
  fold (total_count (map _normalize_ast ks)). fold (total_count ks). rewrite Hk, IH.
  reflexivity.
Qed.

Lemma normalize_node_count (tree : node) :
  node_count (_normalize_ast tree) = node_count tree.
Proof.
  induction tree as [c l e ks IH] using node_ind'.
  pose proof (normalize_children_count ks IH) as Hks.
  destruct c; cbn [_normalize_ast]; try reflexivity;
    change (S (total_count (map _normalize_ast ks)) = S (total_count ks));
    rewrite Hks; reflexivity.
Qed.

Lemma normalize_children_depth (ks : list node) :
  Forall (fun k => Complexity.loop_nesting_depth (_normalize_ast k)
                   = Complexity.loop_nesting_depth k) ks ->
  below (map _normalize_ast ks) = below ks.
Proof.
  induction 1 as [|k ks Hk _ IH]; simpl; [reflexivity|].
  fold (below (map _normalize_ast ks)). fold (below ks). rewrite Hk, IH. reflexivity.
Qed.

Lemma normalize_nesting_depth (tree : node) :
  Complexity.loop_nesting_depth (_normalize_ast tree) = Complexity.loop_nesting_depth tree.
Proof.
  induction tree as [c l e ks IH] using node_ind'.
  pose proof (normalize_children_depth ks IH) as Hks.
  destruct c; cbn [_normalize_ast]; try reflexivity;
    cbn [Complexity.loop_nesting_depth]; fold (below (map _normalize_ast ks));
    fold (below ks); rewrite Hks; reflexivity.
Qed.

(** X7.  Normalising a tree that is already normalised changes nothing,
    and normalising keeps the shape: the number of nodes, the position of
    the root and the nesting depth of the loops stay as they were. *)
Theorem normalisation_keeps_shape (tree : node) :
  _normalize_ast (_normalize_ast tree) = _normalize_ast tree /\
  node_count (_normalize_ast tree) = node_count tree /\
  lineno_of (_normalize_ast tree) = lineno_of tree /\
  Complexity.loop_nesting_depth (_normalize_ast tree) = Complexity.loop_nesting_depth tree.
Proof.
  split; [apply normalize_idempotent|]. split; [apply normalize_node_count|].
  split; [|apply normalize_nesting_depth].
  destruct tree as [c l e ks]. destruct c; reflexivity.
Qed.

(** Two trees that differ in nothing but the text of variable names, of
    function and class names, of literals and of docstrings.  Below a name
    or a literal the transformer does not descend, so there the children
    are the same. *)
Definition descends (c : node_class) : bool :=
  match c with
  | Name _ _ | Constant _ => false
  | _ => true
  end.

#[warnings="-register-all"]
Inductive renamed : node -> node -> Prop :=
| renamed_name id1 id2 ctx l e ks :
    renamed (Node (Name id1 ctx) l e ks) (Node (Name id2 ctx) l e ks)
| renamed_constant v1 v2 l e ks :
    renamed (Node (Constant v1) l e ks) (Node (Constant v2) l e ks)
| renamed_function n1 n2 nargs d1 d2 l e ks1 ks2 :
    Forall2 renamed ks1 ks2 ->
    renamed (Node (FunctionDef n1 nargs d1) l e ks1) (Node (FunctionDef n2 nargs d2) l e ks2)
| renamed_class n1 n2 d1 d2 l e ks1 ks2 :
    Forall2 renamed ks1 ks2 ->
    renamed (Node (ClassDef n1 d1) l e ks1) (Node (ClassDef n2 d2) l e ks2)
| renamed_module d1 d2 l e ks1 ks2 :
    Forall2 renamed ks1 ks2 ->
    renamed (Node (Module d1) l e ks1) (Node (Module d2) l e ks2)
| renamed_other c l e ks1 ks2 :
    descends c = true ->
    Forall2 renamed ks1 ks2 ->
    renamed (Node c l e ks1) (Node c l e ks2).

Lemma map_normalize_renamed (ks1 ks2 : list node) :
  Forall (fun k => forall k', renamed k k' -> _normalize_ast k = _normalize_ast k') ks1 ->
  Forall2 renamed ks1 ks2 ->
  map _normalize_ast ks1 = map _normalize_ast ks2.
Proof.
  intros IH Hks. induction Hks as [|k k' ks ks' Hk _ IHks]; [reflexivity|].
  apply Forall_cons in IH as [Hhead Htail].
  simpl. rewrite (Hhead k' Hk), (IHks Htail). reflexivity.
Qed.

(** X8.  A copy in which only variable names, function and class names,
    literals and docstrings were changed normalises to the same tree as the
    original. *)
Theorem renamed_copy_normalises_alike (original : node) :
  forall copy, renamed original copy -> _normalize_ast original = _normalize_ast copy.
Proof.
  induction original as [c l e ks IH] using node_ind'. intros copy Hcopy.
  inversion Hcopy; subst; cbn [_normalize_ast]; try reflexivity;
    try (f_equal; eapply map_normalize_renamed; eassumption).
  match goal with Hd : descends ?c' = true |- _ =>
    destruct c'; try discriminate Hd; cbn [_normalize_ast] end;
    f_equal; eapply map_normalize_renamed; eassumption.
Qed.

End Normalisation.

Lemma renamed_copy_witness :
  Plagiarism._normalize_ast (assignment "total" 1)
    = Plagiarism._normalize_ast (assignment "count" 2).
Proof.
  apply renamed_copy_normalises_alike.
  apply renamed_module. constructor; [|constructor].
  apply renamed_other; [reflexivity|].
  constructor; [apply renamed_name|]. constructor; [apply renamed_constant|constructor].
Defined.

(** ** Similarity detector: the structural-hash method *)

Section HashMethod.
Import PyAst Plagiarism.
Variable parse : string -> Py.result node.
Variable str_ast : node -> string.
Variable md5_hexdigest : string -> string.


End HashMethod.

(** ** Similarity detector: the structural features *)

Section FeatureCounts.
Import PyAst Plagiarism.

(** The nodes of a tree, and of a list of nodes, whose class satisfies [p]. *)
Fixpoint nodes_where (p : node_class -> bool) (n : node) : nat :=
  match n with
  | Node c _ _ ks =>
      ((if p c then 1 else 0) + fold_right (fun k acc => nodes_where p k + acc) 0 ks)%nat
  end.

Definition nodes_where_all (p : node_class -> bool) (ks : list node) : nat :=
  fold_right (fun k acc => (nodes_where p k + acc)%nat) 0%nat ks.

Definition count_where (p : node_class -> bool) (l : list node) : nat :=
  fold_right (fun n acc => ((if p (class_of n) then 1 else 0) + acc)%nat) 0%nat l.

Lemma nodes_where_all_app p (xs ys : list node) :
  nodes_where_all p (xs ++ ys) = (nodes_where_all p xs + nodes_where_all p ys)%nat.
Proof. induction xs as [|x xs IH]; simpl; [reflexivity|]. rewrite IH. lia. Qed.

(** The breadth-first walk meets every node once: it counts what a
    recursive descent counts. *)
Lemma walk_queue_where p (fuel : nat) (todo : list node) :
  (total_count todo <= fuel)%nat ->
  count_where p (walk_queue fuel todo) = nodes_where_all p todo.
Proof.
  revert todo. induction fuel as [|fuel IH]; intros todo Hfuel.
  - destruct todo as [|[c l e ks] rest]; [reflexivity|]. simpl in Hfuel. lia.
  - destruct todo as [|[c l e ks] rest]; [reflexivity|].
    cbn [walk_queue children_of count_where fold_right class_of].
    fold (count_where p (walk_queue fuel (rest ++ ks))). rewrite IH.
    + rewrite nodes_where_all_app. simpl. fold (nodes_where_all p ks).
      fold (nodes_where_all p rest). lia.
    + rewrite total_count_app. simpl in Hfuel. fold (total_count ks) in Hfuel.
      fold (total_count rest) in Hfuel. lia.
Qed.

Lemma walk_where p (tree : node) : count_where p (walk tree) = nodes_where p tree.
Proof.
  unfold walk. rewrite walk_queue_where; [simpl; lia|]. simpl. lia.
Qed.

Definition is_function (c : node_class) : bool :=
  match c with FunctionDef _ _ _ => true | _ => false end.
Definition is_class (c : node_class) : bool :=
  match c with ClassDef _ _ => true | _ => false end.
Definition is_loop (c : node_class) : bool :=
  match c with For | While => true | _ => false end.
Definition is_conditional (c : node_class) : bool :=
  match c with If | IfExp => true | _ => false end.

(** The names one node adds to the import list. *)
Definition imports_of (n : node) : list (option string) :=
  match class_of n with
  | Import names => map Some names
  | ImportFrom module => [module]
  | _ => []
  end.

Lemma count_nodes (l : list node) (f : Features) :
  let g := fold_left count_node l f in
  num_functions g = (num_functions f + Z.of_nat (count_where is_function l))%Z /\
  num_classes g = (num_classes f + Z.of_nat (count_where is_class l))%Z /\
  num_loops g = (num_loops f + Z.of_nat (count_where is_loop l))%Z /\
  num_conditionals g = (num_conditionals f + Z.of_nat (count_where is_conditional l))%Z /\
  avg_function_length g = avg_function_length f /\
  max_nesting_depth g = max_nesting_depth f /\
  imports g = imports f ++ flat_map imports_of l.
Proof.
  revert f. induction l as [|n l IH]; intros f; cbn zeta.
  - simpl. rewrite app_nil_r. repeat split; lia.
  - cbn [fold_left]. destruct (IH (count_node f n)) as (H1 & H2 & H3 & H4 & H5 & H6 & H7).
    cbn zeta in H1, H2, H3, H4, H5, H6, H7.
    rewrite H1, H2, H3, H4, H5, H6, H7.
    cbn [count_where fold_right flat_map].
    fold (count_where is_function l). fold (count_where is_class l).
    fold (count_where is_loop l). fold (count_where is_conditional l).
    unfold count_node, imports_of. destruct n as [c ln e ks]. cbn [class_of].
    destruct c; cbn; rewrite ?app_nil_r, <- ?app_assoc; repeat split; lia.
Qed.

Variable parse : string -> Py.result node.

(** X10.  The features of a parsed source count the functions, classes,
    loops and conditionals of the whole tree, and list its imports in the
    order of the walk; the mean function length and the nesting depth are
    never filled in and stay 0.  A source that does not parse has the
    all-zero features. *)
Theorem features_count_the_tree (text : string) :
  let found := _extract_structural_features parse text in
  (forall tree, parse text = Py.Ok tree ->
     num_functions found = Z.of_nat (nodes_where is_function tree) /\
     num_classes found = Z.of_nat (nodes_where is_class tree) /\
     num_loops found = Z.of_nat (nodes_where is_loop tree) /\
     num_conditionals found = Z.of_nat (nodes_where is_conditional tree) /\
     imports found = flat_map imports_of (walk tree)) /\
  (Py.is_ok (parse text) = false -> found = features_default) /\
  avg_function_length found = 0%Z /\ max_nesting_depth found = 0%Z /\
  (0 <= num_functions found)%Z /\ (0 <= num_classes found)%Z /\
  (0 <= num_loops found)%Z /\ (0 <= num_conditionals found)%Z.
Proof.
  intros found. subst found. unfold _extract_structural_features.
  destruct (parse text) as [tree|err].
  - destruct (count_nodes (walk tree) features_default) as (H1 & H2 & H3 & H4 & H5 & H6 & H7).
    cbn zeta in H1, H2, H3, H4, H5, H6, H7.
    rewrite H1, H2, H3, H4, H5, H6, H7, !walk_where. cbn.
    split; [|repeat split; try discriminate; lia].
    intros tree' Ht. injection Ht as <-. repeat split.
  - cbn. split; [discriminate|]. repeat split; lia.
Qed.

End FeatureCounts.

(** ** Similarity detector: comparing two feature records *)

Section FeatureSimilarity.
Import Plagiarism.

(** A term of the comparison lies between 0 and 1. *)
Definition unit_interval (q : Q) : Prop := (0 <= q <= 1)%Q.

Lemma ratio_in_unit_interval (x m : Z) :
  (0 <= x <= m)%Z -> (0 < m)%Z -> unit_interval (inject_Z x / inject_Z m).
Proof.
  intros Hx Hm.
  assert (Hpos : (0 < inject_Z m)%Q) by (change 0%Q with (inject_Z 0); rewrite <- Zlt_Qlt; lia).
  assert (H0 : (0 <= inject_Z x)%Q) by (change 0%Q with (inject_Z 0); rewrite <- Zle_Qle; lia).
  assert (H1 : (inject_Z x <= inject_Z m)%Q) by (rewrite <- Zle_Qle; lia).
  split.
  - apply Qle_shift_div_l; [exact Hpos|]. lra.
  - apply Qle_shift_div_r; [exact Hpos|]. lra.
Qed.

Lemma numeric_score_range (a b : Z) :
  (0 <= a)%Z -> (0 <= b)%Z -> Forall unit_interval (numeric_score a b).
Proof.
  intros Ha Hb. unfold numeric_score.
  destruct (Z.ltb_spec 0 (Z.max a b)) as [Hpos|_]; [|constructor].
  constructor; [|constructor].
  destruct (ratio_in_unit_interval (Z.abs (a - b)) (Z.max a b)) as [H0 H1]; [lia|lia|].
  unfold unit_interval. split; lra.
Qed.

Lemma import_score_range (imports1 imports2 : gset (option string)) :
  Forall unit_interval (import_score imports1 imports2).
Proof.
  unfold import_score.
  destruct (bool_decide (imports1 = ∅) && bool_decide (imports2 = ∅)); [constructor|].
  constructor; [|constructor].
  destruct (Z.ltb_spec 0 (Z.of_nat (size (imports1 ∪ imports2)))) as [Hpos|_].
  - apply ratio_in_unit_interval; [|exact Hpos].
    split; [lia|]. apply Nat2Z.inj_le. apply subseteq_size.
    transitivity imports1; [apply intersection_subseteq_l | apply union_subseteq_l].
  - split; unfold Qle; simpl; lia.
Qed.

Lemma Qsum_range (xs : list Q) (seed : Q) :
  Forall unit_interval xs ->
  (seed <= fold_left Qplus xs seed <= seed + inject_Z (Z.of_nat (length xs)))%Q.
Proof.
  intros Hall. revert seed. induction Hall as [|q xs [Hq0 Hq1] _ IH]; intros seed.
  - change (inject_Z (Z.of_nat (length (@nil Q)))) with 0%Q. simpl. split; lra.
  - cbn [fold_left length]. destruct (IH (seed + q)%Q) as [Hlow Hhigh].
    rewrite Nat2Z.inj_succ, <- Z.add_1_r, inject_Z_plus. change (inject_Z 1) with 1%Q.
    split; lra.
Qed.

Definition counted (f : Features) : Prop :=
  (0 <= num_functions f)%Z /\ (0 <= num_classes f)%Z /\
  (0 <= num_loops f)%Z /\ (0 <= num_conditionals f)%Z.

Lemma similarity_range (features1 features2 : Features) :
  counted features1 -> counted features2 ->
  unit_interval (_calculate_structural_similarity features1 features2).
Proof.
  intros (H1 & H2 & H3 & H4) (G1 & G2 & G3 & G4).
  unfold _calculate_structural_similarity.
  set (terms := _ ++ _).
  assert (Hall : Forall unit_interval terms).
  { subst terms. repeat (apply Forall_app; split);
      first [apply numeric_score_range; assumption | apply import_score_range]. }
  destruct terms as [|t terms]; [split; unfold Qle; simpl; lia|].
  destruct (Qsum_range (t :: terms) 0 Hall) as [Hlow Hhigh].
  unfold Qsum.
  assert (Hpos : (0 < inject_Z (Z.of_nat (length (t :: terms))))%Q).
  { change 0%Q with (inject_Z 0). rewrite <- Zlt_Qlt. simpl. lia. }
  split.
  - apply Qle_shift_div_l; [exact Hpos|]. lra.
  - apply Qle_shift_div_r; [exact Hpos|]. lra.
Qed.

Lemma numeric_score_comm (a b : Z) : numeric_score a b = numeric_score b a.
Proof.
  unfold numeric_score. rewrite (Z.max_comm b a).
  replace (Z.abs (b - a)) with (Z.abs (a - b)) by lia. reflexivity.
Qed.

Lemma import_score_comm (imports1 imports2 : gset (option string)) :
  import_score imports1 imports2 = import_score imports2 imports1.
Proof.
  unfold import_score.
  rewrite (andb_comm (bool_decide (imports2 = ∅))).
  assert (Einter : imports2 ∩ imports1 = imports1 ∩ imports2) by apply (comm_L (∩)).
  assert (Eunion : imports2 ∪ imports1 = imports1 ∪ imports2) by apply (comm_L (∪)).
  rewrite Einter, Eunion. reflexivity.
Qed.

(** X11.  The comparison of two feature records does not depend on their
    order, and for records whose counts are not negative, as the extracted
    ones are, it lies between 0 and 1. *)
Theorem structural_similarity_is_symmetric_and_bounded (features1 features2 : Features) :
  _calculate_structural_similarity features1 features2
    = _calculate_structural_similarity features2 features1 /\
  (counted features1 -> counted features2 ->
   (0 <= _calculate_structural_similarity features1 features2 <= 1)%Q).
Proof.
  split; [|apply similarity_range].
  unfold _calculate_structural_similarity.
  rewrite (numeric_score_comm (num_functions features2)),
    (numeric_score_comm (num_classes features2)),
    (numeric_score_comm (num_loops features2)),
    (numeric_score_comm (num_conditionals features2)),
    (import_score_comm (list_to_set (imports features2))).
  reflexivity.
Qed.

End FeatureSimilarity.

Section SelfSimilarity.
Import PyAst Plagiarism.

(** A record with no function, class, loop, conditional or import. *)
Definition featureless (f : Features) : Prop :=
  num_functions f = 0%Z /\ num_classes f = 0%Z /\ num_loops f = 0%Z /\
  num_conditionals f = 0%Z /\ imports f = [].

(** Two records with the same counts and the same set of imports. *)
Definition same_counts (f g : Features) : Prop :=
  num_functions f = num_functions g /\ num_classes f = num_classes g /\
  num_loops f = num_loops g /\ num_conditionals f = num_conditionals g /\
  (list_to_set (imports f) : gset (option string)) = list_to_set (imports g).

Lemma ratio_of_self (n : Z) : (0 < n)%Z -> (inject_Z n / inject_Z n == 1)%Q.
Proof.
  intros Hn. apply Qmult_inv_r. unfold Qeq. simpl. lia.
Qed.

Lemma numeric_score_self (a : Z) : Forall (fun q => q == 1)%Q (numeric_score a a).
Proof.
  unfold numeric_score. rewrite Z.max_id, Z.sub_diag.
  destruct (0 <? a)%Z; constructor; [|constructor].
  unfold Qdiv. change (inject_Z (Z.abs 0)) with 0%Q. ring.
Qed.

Lemma import_score_self (names : gset (option string)) :
  Forall (fun q => q == 1)%Q (import_score names names).
Proof.
  unfold import_score.
  assert (Einter : names ∩ names = names) by apply (idemp_L (∩)).
  assert (Eunion : names ∪ names = names) by apply (idemp_L (∪)).
  rewrite Einter, Eunion.
  destruct (decide (names = ∅)) as [Hempty|Hsome].
  - rewrite (bool_decide_eq_true_2 _ Hempty). constructor.
  - rewrite (bool_decide_eq_false_2 _ Hsome). simpl. constructor; [|constructor].
    assert (Hsize : (0 < Z.of_nat (size names))%Z).
    { destruct (size names) as [|n] eqn:En; [|lia].
      apply size_empty_iff in En. apply leibniz_equiv in En. contradiction. }
    destruct (Z.ltb_spec 0 (Z.of_nat (size names))) as [_|Hle]; [|lia].
    apply ratio_of_self. exact Hsize.
Qed.

Lemma Qsum_of_ones (xs : list Q) (seed : Q) :
  Forall (fun q => q == 1)%Q xs ->
  (fold_left Qplus xs seed == seed + inject_Z (Z.of_nat (length xs)))%Q.
Proof.
  intros Hall. revert seed. induction Hall as [|q xs Hq _ IH]; intros seed.
  - change (inject_Z (Z.of_nat (length (@nil Q)))) with 0%Q. simpl. ring.
  - cbn [fold_left length]. rewrite IH, Hq.
    rewrite Nat2Z.inj_succ, <- Z.add_1_r, inject_Z_plus. change (inject_Z 1) with 1%Q. ring.
Qed.

Lemma self_similarity (f : Features) :
  counted f ->
  (featureless f -> _calculate_structural_similarity f f = 0%Q) /\
  (~ featureless f -> (_calculate_structural_similarity f f == 1)%Q).
Proof.
  intros (H1 & H2 & H3 & H4). split.
  - intros (E1 & E2 & E3 & E4 & E5). unfold _calculate_structural_similarity.
    rewrite E1, E2, E3, E4, E5. reflexivity.
  - intros Hsome. unfold _calculate_structural_similarity.
    set (terms := _ ++ _).
    assert (Hall : Forall (fun q => q == 1)%Q terms).
    { subst terms. repeat (apply Forall_app; split);
        first [apply numeric_score_self | apply import_score_self]. }
    assert (Hterms : terms <> []).
    { subst terms. intros Hnil.
      repeat (apply app_eq_nil in Hnil as [? Hnil]).
      apply Hsome. unfold featureless.
      repeat match goal with
      | H : numeric_score ?a ?a = [] |- _ =>
          unfold numeric_score in H; rewrite Z.max_id in H;
          destruct (Z.ltb_spec 0 a); [discriminate H|clear H]
      end.
      repeat split; try lia.
      unfold import_score in Hnil.
      destruct (imports f) as [|name rest]; [reflexivity|exfalso].
      rewrite bool_decide_eq_false_2 in Hnil; [discriminate Hnil|].
      intros Hempty. assert (Hin : name ∈ (list_to_set (name :: rest) : gset (option string))).
      { apply elem_of_list_to_set. apply list_elem_of_here. }
      rewrite Hempty in Hin. apply elem_of_empty in Hin. exact Hin. }
    destruct terms as [|t terms]; [contradiction|].
    unfold Qsum. rewrite (Qsum_of_ones (t :: terms) 0 Hall), Qplus_0_l.
    apply ratio_of_self. simpl. lia.
Qed.

Lemma similarity_of_same_counts (f g : Features) :
  same_counts f g ->
  _calculate_structural_similarity f g = _calculate_structural_similarity f f.
Proof.
  intros (E1 & E2 & E3 & E4 & E5). unfold _calculate_structural_similarity.
  rewrite <- E1, <- E2, <- E3, <- E4, <- E5. reflexivity.
Qed.

Variable parse : string -> Py.result node.

Lemma extracted_counted (text : string) : counted (_extract_structural_features parse text).
Proof.
  unfold _extract_structural_features, counted. destruct (parse text) as [tree|err].
  - destruct (count_nodes (walk tree) features_default) as (H1 & H2 & H3 & H4 & _).
    cbn zeta in H1, H2, H3, H4. rewrite H1, H2, H3, H4. cbn. repeat split; lia.
  - cbn. repeat split; lia.
Qed.

(** X12.  The features of a source compared with a record of the same
    counts and the same imports, in particular with themselves, score 1;
    unless the source has no function, class, loop, conditional or import
    at all (also when it does not parse), in which case the comparison with
    its own features scores 0. *)
Theorem same_counts_score_one (text : string) :
  let found := _extract_structural_features parse text in
  (featureless found -> _calculate_structural_similarity found found = 0%Q) /\
  (~ featureless found ->
   forall other, same_counts found other ->
     (_calculate_structural_similarity found other == 1)%Q).
Proof.
  intros found. destruct (self_similarity found (extracted_counted text)) as [Hnone Hsome].
  split; [exact Hnone|].
  intros Hfound other Hsame. rewrite (similarity_of_same_counts found other Hsame).
  apply Hsome. exact Hfound.
Qed.

End SelfSimilarity.

Section StructureMethod.
Import PyAst Plagiarism.

Lemma Qmax_cases (a b : Q) :
  (Py.Qmax a b = a \/ Py.Qmax a b = b) /\ (a <= Py.Qmax a b)%Q /\ (b <= Py.Qmax a b)%Q.
Proof.
  unfold Py.Qmax. destruct (Qle_bool a b) eqn:E.
  - apply Qle_bool_iff in E. repeat split; [right; reflexivity|exact E|apply Qle_refl].
  - repeat split; [left; reflexivity|apply Qle_refl|].
    apply Qlt_le_weak, Qnot_le_lt. intros Hle. apply Qle_bool_iff in Hle. congruence.
Qed.

(** [max] of a non-empty list is one of its elements and bounds them all. *)
Lemma Qmaximum_spec (rest : list Q) (seed : Q) :
  In (Qmaximum seed rest) (seed :: rest) /\
  (forall x, In x (seed :: rest) -> (x <= Qmaximum seed rest)%Q).
Proof.
  revert seed. induction rest as [|y rest IH]; intros seed.
  - simpl. split; [left; reflexivity|]. intros x [<- | []]. apply Qle_refl.
  - cbn [Qmaximum]. destruct (IH (Py.Qmax seed y)) as [Hin Hbound].
    destruct (Qmax_cases seed y) as (Hcase & Hseed & Hy). split.
    + destruct Hin as [Heq|Hin]; [|right; right; exact Hin].
      rewrite <- Heq. destruct Hcase as [-> | ->]; [left|right; left]; reflexivity.
    + intros x [<- | [<- | Hx]].
      * eapply Qle_trans; [exact Hseed|]. apply Hbound. left. reflexivity.
      * eapply Qle_trans; [exact Hy|]. apply Hbound. left. reflexivity.
      * apply Hbound. right. exact Hx.
Qed.

Variable parse : string -> Py.result node.


End StructureMethod.

Section LexicalMethod.
Import PyAst Plagiarism.

(** The entry reported for a corpus entry and its similarity. *)
Definition lexical_match (pair : Entry * Q) : Match :=
  {| m_source := source pair.1; similarity := pair.2; m_method := "tfidf" |}.

Definition above_lexical_threshold (pair : Entry * Q) : bool := Qgtb pair.2 (7 # 10).

(** With no more similarities than entries left, the loop never indexes
    past the corpus. *)
Lemma tfidf_matches_in_range (known : list Entry) (similarities : list Q) (i : nat) :
  (i + length similarities <= length known)%nat ->
  tfidf_matches known i similarities
    = Py.Ok (map lexical_match
               (filter above_lexical_threshold (zip (drop i known) similarities))).
Proof.
  revert i. induction similarities as [|sim rest IH]; intros i Hlen.
  - destruct (drop i known); reflexivity.
  - cbn [length] in Hlen. cbn [tfidf_matches].
    destruct (known !! i) as [k|] eqn:Ek;
      [|apply lookup_ge_None in Ek; lia].
    rewrite (drop_S _ _ _ Ek). cbn [zip zip_with]. rewrite filter_cons.
    rewrite (IH (S i)) by lia.
    destruct (Qgtb sim (7 # 10)) eqn:E.
    + rewrite decide_True
        by (unfold above_lexical_threshold; cbn [snd]; rewrite E; exact I).
      reflexivity.
    + rewrite decide_False
        by (unfold above_lexical_threshold; cbn [snd]; rewrite E; intros []).
      reflexivity.
Qed.

Variable cosine_similarities : list string -> Py.result (list Q).

(** X14.  The lexical method reports nothing on an empty corpus, without
    calling the vectoriser, and nothing when the vectoriser fails.  When the
    vectoriser returns one similarity per stored entry, the method reports,
    in corpus order, the entries whose similarity exceeds 0.7, each with its
    similarity, and scores the greatest of all the similarities, also of
    those it does not report. *)
Theorem lexical_method_scores_greatest_similarity (self : PlagiarismDetector) (query : string) :
  let report := _check_tfidf_similarity cosine_similarities self query in
  let documents := map code (known_solutions self) ++ [query] in
  (known_solutions self = [] -> report = no_match) /\
  (forall err, cosine_similarities documents = Py.Raise err -> report = no_match) /\
  (forall similarities,
     known_solutions self <> [] ->
     cosine_similarities documents = Py.Ok similarities ->
     length similarities = length (known_solutions self) ->
     matches report
       = map lexical_match
           (filter above_lexical_threshold (zip (known_solutions self) similarities)) /\
     In (score report) similarities /\
     (forall sim, In sim similarities -> (sim <= score report)%Q) /\
     (matches report = [] <-> (score report <= 7 # 10)%Q)).
Proof.
  intros report documents. subst report. unfold _check_tfidf_similarity. fold documents.
  destruct (known_solutions self) as [|k0 known] eqn:Eknown.
  - split; [reflexivity|]. split; [reflexivity|]. intros similarities Hne. contradiction.
  - rewrite <- Eknown in *. split; [rewrite Eknown; discriminate|]. split.
    + intros err ->. reflexivity.
    + intros similarities _ -> Hlen.
      cbn [mbind result_bind Py.bind].
      rewrite (tfidf_matches_in_range (known_solutions self) similarities 0) by (simpl; lia).
      rewrite drop_0. cbn [mbind result_bind Py.bind mret result_ret score matches].
      split; [reflexivity|].
      destruct similarities as [|s rest] eqn:Esims;
        [rewrite Eknown in Hlen; discriminate Hlen|].
      rewrite <- Esims in *.
      assert (Hspec := Qmaximum_spec rest s). rewrite <- Esims in Hspec.
      destruct Hspec as [Hin Hbound].
      split; [exact Hin|]. split; [exact Hbound|].
      split.
      * intros Hnone. apply Qnot_lt_le. intros Hgt.
        apply in_split in Hin as (before & after & Hsplit).
        assert (Hi : similarities !! length before = Some (Qmaximum s rest)).
        { rewrite Hsplit. apply list_lookup_middle. reflexivity. }
        destruct (lookup_lt_is_Some_2 (known_solutions self) (length before)) as [k Hk].
        { rewrite <- Hlen. apply lookup_lt_Some in Hi. exact Hi. }
        assert (Hpair : (k, Qmaximum s rest) ∈ zip (known_solutions self) similarities).
        { apply (list_elem_of_lookup_2 _ (length before)).
          apply lookup_zip_with_Some. exists k, (Qmaximum s rest). repeat split; assumption. }
        assert (Hkept : (k, Qmaximum s rest)
                          ∈ filter above_lexical_threshold
                              (zip (known_solutions self) similarities)).
        { apply list_elem_of_filter. split; [|exact Hpair].
          unfold above_lexical_threshold. cbn [snd].
          apply Qgtb_true in Hgt. rewrite Hgt. exact I. }
        apply (list_elem_of_fmap_2 lexical_match) in Hkept.
        change (fmap lexical_match) with (map lexical_match) in Hkept.
        rewrite Hnone in Hkept. apply elem_of_nil in Hkept. exact Hkept.
      * intros Hle.
        destruct (filter above_lexical_threshold (zip (known_solutions self) similarities))
          as [|[k sim] kept] eqn:Ekept; [reflexivity|exfalso].
        assert (Hkept : (k, sim) ∈ filter above_lexical_threshold
                                     (zip (known_solutions self) similarities))
          by (rewrite Ekept; apply list_elem_of_here).
        apply list_elem_of_filter in Hkept as [Habove Hpair].
        unfold above_lexical_threshold in Habove. cbn [snd] in Habove.
        apply Is_true_true in Habove. apply Qgtb_true in Habove.
        apply elem_of_zip_r in Hpair. apply list_elem_of_In in Hpair.
        apply Hbound in Hpair. apply (Qlt_irrefl sim).
        eapply Qle_lt_trans; [exact Hpair|]. eapply Qle_lt_trans; [exact Hle|exact Habove].
Qed.

End LexicalMethod.

(** ** Summarizer: scoring the analyzer's time label *)

Section ComplexityPoints.
Import PyAst.

(** No character of the string is [a]. *)
Fixpoint free_of (a : ascii) (s : string) : bool :=
  match s with
  | EmptyString => true
  | String c rest => negb (Ascii.eqb a c) && free_of a rest
  end.

Lemma free_of_app (a : ascii) (s1 s2 : string) :
  free_of a (s1 +:+ s2) = free_of a s1 && free_of a s2.
Proof.
  induction s1 as [|c s1 IH]; [reflexivity|].
  change (String c s1 +:+ s2) with (String c (s1 +:+ s2)). cbn [free_of].
  rewrite IH, andb_assoc. reflexivity.
Qed.

Lemma contains_cons (pattern : string) (c : ascii) (rest : string) :
  Py.contains pattern (String c rest)
    = if String.prefix pattern (String c rest) then true else Py.contains pattern rest.
Proof. reflexivity. Qed.

(** A pattern is not found in a text that lacks the pattern's first
    character. *)
Lemma contains_needs_first (a : ascii) (pattern text : string) :
  free_of a text = true -> Py.contains (String a pattern) text = false.
Proof.
  induction text as [|c rest IH]; intros Hfree; [reflexivity|].
  cbn [free_of] in Hfree. apply andb_true_iff in Hfree as [Hc Hrest].
  rewrite contains_cons, (IH Hrest). cbn [String.prefix].
  destruct (ascii_dec a c) as [->|_]; [|reflexivity].
  rewrite Ascii.eqb_refl in Hc. discriminate Hc.
Qed.

Lemma pretty_N_go_digits (x : N) (s : string) :
  free_of "O" s = true -> free_of "O" (pretty_N_go x s) = true.
Proof.
  revert s. induction (N.lt_wf_0 x) as [x _ IH]. intros s Hs.
  destruct (N.eq_dec x 0%N) as [->|Hx]; [rewrite pretty_N_go_0; exact Hs|].
  rewrite pretty_N_go_step by lia. apply IH.
  - apply N.div_lt; lia.
  - cbn [free_of]. rewrite Hs, andb_true_r.
    unfold pretty_N_char. repeat case_match; reflexivity.
Qed.

Lemma pretty_Z_digits (d : Z) : (0 <= d)%Z -> free_of "O" (pretty d) = true.
Proof.
  intros Hd. destruct d as [|p|p]; [reflexivity| |lia].
  unfold pretty, pretty_Z, pretty, pretty_positive, pretty, pretty_N.
  destruct (decide (N.pos p = 0%N)); [reflexivity|].
  apply pretty_N_go_digits. reflexivity.
Qed.

(** No row of the score table matches a label of the form O(n^...). *)
Lemma polynomial_label_unlisted (tail : string) :
  free_of "O" tail = true ->
  Summarizer.first_pattern Summarizer.complexity_scores ("O(n^" +:+ tail) = None.
Proof.
  intros Hfree.
  change ("O(n^" +:+ tail) with (String "O" (String "(" (String "n" (String "^" tail)))).
  unfold Summarizer.complexity_scores, Summarizer.superscript_two,
    Summarizer.superscript_three.
  cbn [Summarizer.first_pattern append].
  rewrite !contains_cons.
  repeat match goal with
  | |- context [String.prefix ?p (String ?c ?t)] =>
      let b := eval vm_compute in (String.prefix p (String c t)) in
      change (String.prefix p (String c t)) with b
  end.
  repeat match goal with
  | |- context [Py.contains (?a +:+ ?b) tail] =>
      let s := eval vm_compute in (a +:+ b) in change (a +:+ b) with s
  end.
  rewrite !(contains_needs_first _ _ tail Hfree). reflexivity.
Qed.

Variable parse : string -> Py.result node.
Variable cc_visit : string -> Py.result (list Complexity.Block).
Variable mi_visit : string -> Py.result Q.


End ComplexityPoints.

(** ** Edge cases: the priority list *)

Section Priorities.
Import Json EdgeCases.
Local Open Scope Z_scope.

(** The cases of the category lists, each with its category, in the order
    of the dictionary. *)
Definition cases_of (all_cases : list (string * json)) : list (string * json) :=
  flat_map (fun item =>
              match item.2 with
              | JArray cases => map (pair item.1) cases
              | _ => []
              end) all_cases.

Definition is_object (x : json) : bool :=
  match x with JObject _ => true | _ => false end.

Definition severity_of (x : json) : json :=
  match x with
  | JObject fields => default (JString "medium") (lookup "severity" fields)
  | _ => JString "medium"
  end.

(** A case the method can handle: a dict whose severity can be looked up. *)
Definition well_formed (x : json) : bool := is_object x && hashable (severity_of x).

(** The case with its category written into it. *)
Definition tagged (item : string * json) : json :=
  match item.2 with
  | JObject fields => JObject (set_key "category" (JString item.1) fields)
  | other => other
  end.

(** 0 for critical, 1 for high, 3 for low, and 2 for medium, for a missing
    severity and for any other value. *)
Definition rank (x : json) : Z :=
  match severity_of x with
  | JString s => default 2 (order_get severity_order s)
  | _ => 2
  end.

Definition group (r : Z) (xs : list json) : list json :=
  List.filter (fun x => rank x =? r) xs.

Lemma lookup_set_other (key other : string) (v : json) (fields : list (string * json)) :
  String.eqb key other = false ->
  lookup other (set_key key v fields) = lookup other fields.
Proof.
  intros Hne. induction fields as [|[k w] rest IH]; simpl.
  - rewrite Hne. reflexivity.
  - destruct (String.eqb k key) eqn:Ek; simpl.
    + apply String.eqb_eq in Ek. subst k. rewrite Hne. reflexivity.
    + rewrite IH. reflexivity.
Qed.

Lemma severity_of_tagged (item : string * json) : severity_of (tagged item) = severity_of item.2.
Proof.
  destruct item as [category [| | | | | |fields]]; try reflexivity.
  unfold tagged, severity_of. cbn [snd fst]. rewrite lookup_set_other; reflexivity.
Qed.

Lemma rank_range (x : json) : 0 <= rank x <= 3.
Proof.
  unfold rank. destruct (severity_of x) as [| | | |s| |]; try lia.
  unfold severity_order. cbn [order_get].
  repeat (destruct (String.eqb _ s); [simpl; lia|]). simpl. lia.
Qed.

Lemma tag_cases_spec (category : string) (cases all_tests : list json) :
  (forallb is_object cases = true ->
   tag_cases category cases all_tests
     = Py.Ok (all_tests ++ map (fun x => tagged (category, x)) cases)) /\
  (forallb is_object cases = false ->
   Py.is_ok (tag_cases category cases all_tests) = false).
Proof.
  revert all_tests. induction cases as [|x rest IH]; intros all_tests.
  - split; [intros _; simpl; rewrite app_nil_r; reflexivity|discriminate].
  - cbn [forallb tag_cases map]. destruct x as [| | | | | |fields];
      try (split; [discriminate|reflexivity]).
    cbn [is_object andb set_item mbind result_bind Py.bind].
    destruct (IH (all_tests ++ [JObject (set_key "category" (JString category) fields)]))
      as [Hok Hraise].
    split; [|exact Hraise].
    intros Hall. rewrite (Hok Hall), <- app_assoc. reflexivity.
Qed.

Lemma collect_spec (items : list (string * json)) (all_tests : list json) :
  (forallb is_object (map snd (cases_of items)) = true ->
   collect items all_tests = Py.Ok (all_tests ++ map tagged (cases_of items))) /\
  (forallb is_object (map snd (cases_of items)) = false ->
   Py.is_ok (collect items all_tests) = false).
Proof.
  revert all_tests. induction items as [|[category v] rest IH]; intros all_tests.
  - split; [intros _; simpl; rewrite app_nil_r; reflexivity|discriminate].
  - unfold cases_of. cbn [flat_map fst snd]. fold (cases_of rest).
    destruct v as [| | | | |cases|]; cbn [collect app]; try apply IH.
    rewrite map_app, forallb_app, map_map. cbn [snd]. rewrite map_id.
    destruct (tag_cases_spec category cases all_tests) as [Hok Hraise].
    destruct (forallb is_object cases) eqn:Hcases.
    + rewrite (Hok eq_refl). cbn [mbind result_bind Py.bind andb].
      destruct (IH (all_tests ++ map (fun x => tagged (category, x)) cases))
        as [Hok' Hraise'].
      split; [|exact Hraise'].
      intros Hall. rewrite (Hok' Hall), map_app, map_map, <- app_assoc. reflexivity.
    + split; [discriminate|]. intros _.
      specialize (Hraise eq_refl).
      destruct (tag_cases category cases all_tests); [discriminate Hraise|reflexivity].
Qed.

Lemma sort_key_spec (x : json) :
  is_object x = true ->
  (hashable (severity_of x) = true -> sort_key x = Py.Ok (rank x)) /\
  (hashable (severity_of x) = false -> Py.is_ok (sort_key x) = false).
Proof.
  destruct x as [| | | | | |fields]; try discriminate. intros _.
  unfold sort_key, rank, severity_of. cbn [get mbind result_bind Py.bind].
  destruct (default (JString "medium") (lookup "severity" fields));
    split; first [reflexivity | discriminate].
Qed.

Lemma keyed_spec (xs : list json) :
  forallb is_object xs = true ->
  (forallb (fun x => hashable (severity_of x)) xs = true ->
   keyed xs = Py.Ok (map (fun x => (rank x, x)) xs)) /\
  (forallb (fun x => hashable (severity_of x)) xs = false ->
   Py.is_ok (keyed xs) = false).
Proof.
  induction xs as [|x rest IH]; intros Hobjects.
  - split; [reflexivity|discriminate].
  - cbn [forallb] in Hobjects. apply andb_true_iff in Hobjects as [Hx Hrest].
    destruct (sort_key_spec x Hx) as [Hok Hraise]. destruct (IH Hrest) as [Hok' Hraise'].
    cbn [forallb keyed map]. destruct (hashable (severity_of x)).
    + rewrite (Hok eq_refl). cbn [mbind result_bind Py.bind andb]. split.
      * intros Hall. rewrite (Hok' Hall). reflexivity.
      * intros Hall. specialize (Hraise' Hall).
        destruct (keyed rest); [discriminate Hraise'|reflexivity].
    + split; [discriminate|]. intros _. specialize (Hraise eq_refl).
      destruct (sort_key x); [discriminate Hraise|reflexivity].
Qed.

(** *** The stable sort, by groups *)

Definition bucket (r : Z) (xs : list (Z * json)) : list (Z * json) :=
  List.filter (fun p => p.1 =? r) xs.

Lemma insert_between (k : Z) (x : json) (before after : list (Z * json)) :
  Forall (fun p => p.1 < k) before ->
  Forall (fun p => k <= p.1) after ->
  insert_by_key k x (before ++ after) = before ++ (k, x) :: after.
Proof.
  intros Hbefore Hafter. induction Hbefore as [|[k' x'] before Hlt _ IH].
  - destruct Hafter as [|[k' x'] after Hle _]; [reflexivity|].
    cbn [app insert_by_key]. cbn [fst] in Hle.
    destruct (Z.leb_spec k k'); [reflexivity|lia].
  - cbn [app insert_by_key]. cbn [fst] in Hlt.
    destruct (Z.leb_spec k k'); [lia|]. rewrite IH. reflexivity.
Qed.

Lemma bucket_keys (r : Z) (xs : list (Z * json)) : Forall (fun p => p.1 = r) (bucket r xs).
Proof.
  apply List.Forall_forall. intros p Hp. apply filter_In in Hp as [_ Hp].
  apply Z.eqb_eq. exact Hp.
Qed.

Lemma bucket_below (r k : Z) (xs : list (Z * json)) :
  r < k -> Forall (fun p => p.1 < k) (bucket r xs).
Proof.
  intros Hr. eapply List.Forall_impl; [|apply bucket_keys]. simpl. intros p ->. exact Hr.
Qed.

Lemma bucket_above (r k : Z) (xs : list (Z * json)) :
  k <= r -> Forall (fun p => k <= p.1) (bucket r xs).
Proof.
  intros Hr. eapply List.Forall_impl; [|apply bucket_keys]. simpl. intros p ->. exact Hr.
Qed.

Lemma sort_by_key_buckets (xs : list (Z * json)) :
  Forall (fun p => 0 <= p.1 <= 3) xs ->
  sort_by_key xs = bucket 0 xs ++ bucket 1 xs ++ bucket 2 xs ++ bucket 3 xs.
Proof.
  induction 1 as [|[k x] xs Hk _ IH]; [reflexivity|].
  cbn [sort_by_key fold_right fst snd]. fold (sort_by_key xs). rewrite IH.
  cbn [fst] in Hk.
  assert (Hcases : k = 0 \/ k = 1 \/ k = 2 \/ k = 3) by lia.
  destruct Hcases as [-> | [-> | [-> | ->]]]; unfold bucket at 5 6 7 8;
    cbn [List.filter fst Z.eqb Pos.eqb];
    fold (bucket 0 xs); fold (bucket 1 xs); fold (bucket 2 xs); fold (bucket 3 xs).
  - apply (insert_between 0 x []); [constructor|].
    repeat (apply Forall_app; split); apply bucket_above; lia.
  - apply (insert_between 1 x (bucket 0 xs)); [apply bucket_below; lia|].
    repeat (apply Forall_app; split); apply bucket_above; lia.
  - rewrite !app_assoc. rewrite <- (app_assoc _ (bucket 2 xs)).
    rewrite <- (app_assoc _ ((2, x) :: bucket 2 xs)).
    apply (insert_between 2 x (bucket 0 xs ++ bucket 1 xs)).
    + apply Forall_app; split; apply bucket_below; lia.
    + apply Forall_app; split; apply bucket_above; lia.
  - rewrite !app_assoc.
    apply (insert_between 3 x ((bucket 0 xs ++ bucket 1 xs) ++ bucket 2 xs)).
    + repeat (apply Forall_app; split); apply bucket_below; lia.
    + apply bucket_above; lia.
Qed.

Lemma bucket_of_ranked (r : Z) (xs : list json) :
  map snd (bucket r (map (fun x => (rank x, x)) xs)) = group r xs.
Proof.
  induction xs as [|x xs IH]; [reflexivity|].
  unfold bucket, group in *. cbn [map List.filter fst].
  destruct (rank x =? r); cbn [map snd]; rewrite IH; reflexivity.
Qed.

Lemma sort_by_key_length (xs : list (Z * json)) : length (sort_by_key xs) = length xs.
Proof.
  assert (Hinsert : forall k x sorted,
            length (insert_by_key k x sorted) = S (length sorted)).
  { intros k x sorted. induction sorted as [|[k' x'] rest IH]; [reflexivity|].
    cbn [insert_by_key]. destruct (k <=? k'); cbn [length]; [reflexivity|].
    rewrite IH. reflexivity. }
  induction xs as [|[k x] xs IH]; [reflexivity|].
  cbn [sort_by_key fold_right]. fold (sort_by_key xs). rewrite Hinsert, IH. reflexivity.
Qed.

Lemma well_formed_split (xs : list json) :
  forallb well_formed xs
    = forallb is_object xs && forallb (fun x => hashable (severity_of x)) xs.
Proof.
  induction xs as [|x xs IH]; [reflexivity|].
  cbn [forallb]. rewrite IH. unfold well_formed.
  destruct (is_object x), (hashable (severity_of x)), (forallb is_object xs); reflexivity.
Qed.

Lemma hashable_tagged (items : list (string * json)) :
  forallb (fun x => hashable (severity_of x)) (map tagged items)
    = forallb (fun x => hashable (severity_of x)) (map snd items).
Proof.
  induction items as [|item items IH]; [reflexivity|].
  cbn [map forallb]. rewrite IH, severity_of_tagged. reflexivity.
Qed.

Lemma prioritize_cases_spec (all_cases : list (string * json)) :
  let cases := map tagged (cases_of all_cases) in
  (forallb well_formed (map snd (cases_of all_cases)) = true ->
   _prioritize_cases all_cases
     = Py.Ok (take 10 (group 0 cases ++ group 1 cases ++ group 2 cases ++ group 3 cases)) /\
   (length (take 10 (group 0 cases ++ group 1 cases ++ group 2 cases ++ group 3 cases))
      = Nat.min 10 (length (cases_of all_cases)))%nat) /\
  (forallb well_formed (map snd (cases_of all_cases)) = false ->
   Py.is_ok (_prioritize_cases all_cases) = false).
Proof.
  intros cases. rewrite well_formed_split. unfold _prioritize_cases.
  destruct (collect_spec all_cases []) as [Hok Hraise].
  destruct (forallb is_object (map snd (cases_of all_cases))) eqn:Hobjects.
  - rewrite (Hok eq_refl). cbn [app mbind result_bind Py.bind andb]. fold cases.
    assert (Hcases : forallb is_object cases = true).
    { subst cases. apply forallb_forall. intros x Hx.
      apply in_map_iff in Hx as ([category y] & <- & Hy).
      rewrite forallb_forall in Hobjects.
      specialize (Hobjects y (in_map snd _ _ Hy)).
      destruct y; try discriminate Hobjects. reflexivity. }
    assert (Hsame : forallb (fun x => hashable (severity_of x)) cases
                    = forallb (fun x => hashable (severity_of x)) (map snd (cases_of all_cases))).
    { subst cases. apply hashable_tagged. }
    destruct (keyed_spec cases Hcases) as [Hok' Hraise']. rewrite <- Hsame.
    destruct (forallb (fun x => hashable (severity_of x)) cases).
    + split; [|discriminate]. intros _. rewrite (Hok' eq_refl).
      cbn [mbind result_bind Py.bind mret result_ret].
      assert (Esorted : map snd (sort_by_key (map (fun x => (rank x, x)) cases))
                        = group 0 cases ++ group 1 cases ++ group 2 cases ++ group 3 cases).
      { rewrite sort_by_key_buckets.
        - rewrite !map_app, !bucket_of_ranked. reflexivity.
        - apply List.Forall_forall. intros p Hp. apply in_map_iff in Hp as (x & <- & _).
          apply rank_range. }
      rewrite <- Esorted. split; [reflexivity|].
      rewrite length_take, length_map, sort_by_key_length, length_map.
      subst cases. rewrite length_map. lia.
    + split; [discriminate|]. intros _. specialize (Hraise' eq_refl).
      destruct (keyed cases); [discriminate Hraise'|reflexivity].
  - split; [discriminate|]. intros _. specialize (Hraise eq_refl).
    destruct (collect all_cases []); [discriminate Hraise|reflexivity].
Qed.

(** X16.  The priority list holds the generated cases, each tagged with the
    category it came from: first the critical ones, then the high ones, then
    those of medium, missing or unknown severity, then the low ones, each
    group in the order of generation, cut after the tenth case.  The method
    fails exactly when some generated case is not a dict or has a list or a
    dict as severity. *)
Theorem priority_cases_grouped_by_severity (all_cases : list (string * json)) :
  let cases := map tagged (cases_of all_cases) in
  (forallb well_formed (map snd (cases_of all_cases)) = true ->
   _prioritize_cases all_cases
     = Py.Ok (take 10 (group 0 cases ++ group 1 cases ++ group 2 cases ++ group 3 cases))) /\
  (forallb well_formed (map snd (cases_of all_cases)) = false ->
   Py.is_ok (_prioritize_cases all_cases) = false) /\
  (forall priority, _prioritize_cases all_cases = Py.Ok priority ->
     length priority = Nat.min 10 (length (cases_of all_cases))).
Proof.
  intros cases. destruct (prioritize_cases_spec all_cases) as [Hok Hraise].
  fold cases in Hok. split; [apply Hok|]. split; [exact Hraise|].
  intros priority Hp.
  destruct (forallb well_formed (map snd (cases_of all_cases))).
  - destruct (Hok eq_refl) as [Hresult Hlength]. rewrite Hresult in Hp.
    injection Hp as <-. exact Hlength.
  - specialize (Hraise eq_refl). rewrite Hp in Hraise. discriminate Hraise.
Qed.

End Priorities.

(** ** Correctness agent: the tallies of a test run *)

Section TestTallies.
Import Json Correctness.
Local Open Scope Z_scope.

(** The entries recorded as passed. *)
Definition passes (entries : list TestResult) : Z :=
  Z.of_nat (length (List.filter (fun entry => truthy (passed entry)) entries)).

(** The counter of passed tests agrees with the entries, and every test
    handled so far left one entry or one error. *)
Definition tallied (handled : nat) (results : Results) : Prop :=
  tests_passed results = passes (test_results results) /\
  (length (test_results results) + length (errors results) = handled)%nat.

Lemma passes_snoc (entries : list TestResult) (entry : TestResult) :
  passes (entries ++ [entry])
    = passes entries + (if truthy (passed entry) then 1 else 0).
Proof.
  unfold passes. rewrite List.filter_app, length_app. cbn [List.filter].
  destruct (truthy (passed entry)); simpl; lia.
Qed.

Lemma passes_bounds (entries : list TestResult) :
  0 <= passes entries <= Z.of_nat (length entries).
Proof.
  unfold passes. pose proof (List.filter_length_le (fun entry => truthy (passed entry)) entries).
  lia.
Qed.

Lemma add_result_tallied handled entry counted results :
  counted = truthy (passed entry) ->
  tallied handled results ->
  tallied (S handled) (add_result entry counted results) /\
  total_tests (add_result entry counted results) = total_tests results.
Proof.
  intros -> [Hpassed Hhandled]. unfold tallied, add_result.
  cbn [tests_passed test_results errors total_tests].
  rewrite passes_snoc, length_app. simpl.
  repeat split; [destruct (truthy (passed entry)); lia|lia].
Qed.

Lemma add_error_tallied handled message results :
  tallied handled results ->
  tallied (S handled) (add_error message results) /\
  total_tests (add_error message results) = total_tests results.
Proof.
  intros [Hpassed Hhandled]. unfold tallied, add_error.
  cbn [tests_passed test_results errors total_tests]. rewrite length_app. simpl.
  repeat split; [exact Hpassed|lia].
Qed.

Lemma get_default_object (fields : list (string * json)) (key : string) (d : json) :
  get_default (JObject fields) key d = Py.Ok (default d (lookup key fields)).
Proof. reflexivity. Qed.

Lemma get_default_other (x : json) (key : string) (d : json) :
  is_object x = false -> Py.is_ok (get_default x key d) = false.
Proof. destruct x; try reflexivity. discriminate. Qed.

Variable subprocess_run : string -> json -> json -> json -> process.
Variable json_loads : string -> Py.result json.

Lemma completed_tallied handled test returncode stdout stderr results :
  tallied handled results ->
  match completed json_loads test returncode stdout stderr results with
  | Py.Ok results' =>
      tallied (S handled) results' /\ total_tests results' = total_tests results
  | Py.Raise _ => True
  end.
Proof.
  intros Htally. unfold completed.
  destruct (returncode =? 0).
  - destruct (json_loads stdout) as [output|e]; [|exact I].
    cbn [mbind result_bind Py.bind].
    destruct test as [| | | | | |fields]; try exact I.
    rewrite get_default_object. cbn [mbind result_bind Py.bind].
    destruct output as [| | | | | |answer]; try exact I.
    rewrite !get_default_object. cbn [mbind result_bind Py.bind mret result_ret].
    apply add_result_tallied; [|exact Htally]. cbn [passed].
    destruct (lookup "passed" answer); reflexivity.
  - destruct test as [| | | | | |fields]; try exact I.
    rewrite get_default_object. cbn [mbind result_bind Py.bind mret result_ret].
    apply add_result_tallied; [reflexivity|exact Htally].
Qed.

Lemma run_test_tallied handled filename results test :
  tallied handled results ->
  tallied (S handled) (run_test subprocess_run json_loads filename results test) /\
  total_tests (run_test subprocess_run json_loads filename results test) = total_tests results.
Proof.
  intros Htally. unfold run_test.
  destruct test as [| | | | | |fields];
    try (apply add_error_tallied; exact Htally).
  rewrite !get_default_object. cbn [mbind result_bind Py.bind mret result_ret].
  destruct (subprocess_run _ _ _ _) as [returncode stdout stderr| |e].
  - pose proof (completed_tallied handled (JObject fields) returncode stdout stderr
                  results Htally) as Hcompleted.
    destruct (completed _ _ _ _ _ _) as [results'|e]; [exact Hcompleted|].
    apply add_error_tallied; exact Htally.
  - apply add_result_tallied; [reflexivity|exact Htally].
  - apply add_error_tallied; exact Htally.
Qed.

Lemma run_tests_tallied handled filename (tests : list json) results :
  tallied handled results ->
  let results' := fold_left (run_test subprocess_run json_loads filename) tests results in
  tallied (length tests + handled) results' /\ total_tests results' = total_tests results.
Proof.
  revert handled results. induction tests as [|test rest IH]; intros handled results Htally.
  - split; [exact Htally|reflexivity].
  - cbn [fold_left length].
    destruct (run_test_tallied handled filename results test Htally) as [Hstep Htotal].
    destruct (IH (S handled) _ Hstep) as [Hrest Htotal']. cbv zeta in Hrest, Htotal'.
    split; [|rewrite Htotal', Htotal; reflexivity].
    replace (S (length rest) + handled)%nat with (length rest + S handled)%nat by lia.
    exact Hrest.
Qed.

Variable write_module : string -> Py.result string.
Variable unlink : string -> Py.result unit.

Lemma python_tests_tallied (code : string) (tests : list json) (results : Results) :
  _run_python_tests write_module subprocess_run json_loads unlink code tests = Py.Ok results ->
  tallied (length tests) results /\ total_tests results = Z.of_nat (length tests).
Proof.
  unfold _run_python_tests. destruct (write_module code) as [filename|e]; [|discriminate].
  cbn [mbind result_bind Py.bind]. destruct (unlink filename) as [[]|e]; [|discriminate].
  cbn [mbind result_bind Py.bind mret result_ret]. intros Hresults. injection Hresults as <-.
  destruct (run_tests_tallied 0 filename tests (results_init tests)) as [Htally Htotal].
  { split; reflexivity. }
  cbv zeta in Htally, Htotal. rewrite Nat.add_0_r in Htally.
  split; [exact Htally|]. rewrite Htotal. reflexivity.
Qed.

(** X17.  When a Python test run returns, its report is consistent: the
    total is the number of test cases, every test case left either one
    entry or one error message, and the counter of passed tests is the
    number of entries recorded as passed, so it lies between 0 and the
    total. *)
Theorem python_test_report_is_consistent (code : string) (tests : list json)
    (results : Results) :
  _run_python_tests write_module subprocess_run json_loads unlink code tests = Py.Ok results ->
  total_tests results = Z.of_nat (length tests) /\
  (length (test_results results) + length (errors results) = length tests)%nat /\
  tests_passed results = passes (test_results results) /\
  0 <= tests_passed results <= total_tests results.
Proof.
  intros Hrun. destruct (python_tests_tallied code tests results Hrun) as [[Hpassed Hhandled] Htotal].
  pose proof (passes_bounds (test_results results)).
  repeat split; try assumption; lia.
Qed.

End TestTallies.

(** A run of two test cases: the first passes, the second is not a dict. *)
Definition sample_tests : list Json.json :=
  [Json.JObject [("input", Json.JInt 1); ("expected", Json.JInt 1)]; Json.JInt 7].

Definition sample_test_run : Py.result Correctness.Results :=
  Correctness._run_python_tests (fun _ => Py.Ok "tmp_module.py")
    (fun _ _ _ _ => Correctness.Completed 0 "{}" "")
    (fun _ => Py.Ok (Json.JObject [("passed", Json.JBool true); ("result", Json.JInt 1)]))
    (fun _ => Py.Ok tt) "def main(x): return x" sample_tests.

Lemma python_test_report_witness :
  exists results,
    sample_test_run = Py.Ok results /\
    Correctness.total_tests results = 2%Z /\
    (length (Correctness.test_results results) + length (Correctness.errors results) = 2)%nat /\
    Correctness.tests_passed results = passes (Correctness.test_results results) /\
    (0 <= Correctness.tests_passed results <= Correctness.total_tests results)%Z.
Proof.
  eexists. split; [reflexivity|].
  apply (python_test_report_is_consistent
           (fun _ _ _ _ => Correctness.Completed 0 "{}" "")
           (fun _ => Py.Ok (Json.JObject [("passed", Json.JBool true); ("result", Json.JInt 1)]))
           (fun _ => Py.Ok "tmp_module.py") (fun _ => Py.Ok tt)
           "def main(x): return x" sample_tests).
  reflexivity.
Defined.

(** ** Correctness agent: the review by language *)

Section Review.
Import Json Correctness.
Local Open Scope Z_scope.
Variable write_module : string -> Py.result string.
Variable subprocess_run : string -> json -> json -> json -> process.
Variable json_loads : string -> Py.result json.
Variable unlink : string -> Py.result unit.
Variable str_of : json -> string.
Variable _generate_test_cases : string -> string -> Py.result (list json).
Variable simulate : string -> string -> json -> json -> json -> Py.result string.
Variable search_object : string -> option string.
Variable _generate_summary : Results -> Py.result string.

Local Abbreviation review_of :=
  (review write_module subprocess_run json_loads unlink str_of _generate_test_cases
     simulate search_object _generate_summary).

(** The test cases a review runs: the ones handed in, or the generated ones
    when none or an empty list is handed in. *)
Definition cases_to_run (code language : string) (test_cases : option (list json))
    : Py.result (list json) :=
  match test_cases with
  | Some (test :: rest) => Py.Ok (test :: rest)
  | _ => _generate_test_cases code language
  end.

(** X18.  A review of JavaScript code never returns a report: once it has
    its test cases it looks up a runner the class does not define, so it
    fails with that attribute error, or earlier with the error of the
    test-case generation. *)
Theorem javascript_review_always_fails (code : string) (test_cases : option (list json)) :
  let outcome := review_of code "javascript" test_cases in
  Py.is_ok outcome = false /\
  (forall tests, cases_to_run code "javascript" test_cases = Py.Ok tests ->
     outcome = Py.Raise (Py.OtherError
                 "'CorrectnessAgent' object has no attribute '_run_javascript_tests'")) /\
  (forall e, cases_to_run code "javascript" test_cases = Py.Raise e -> outcome = Py.Raise e).
Proof.
  cbv zeta. unfold review. fold (cases_to_run code "javascript" test_cases).
  destruct (cases_to_run code "javascript" test_cases) as [tests|e].
  - cbn. split; [reflexivity|]. split; [intros tests' _; reflexivity|discriminate].
  - cbn. split; [reflexivity|]. split; [discriminate|].
    intros e' He. injection He as <-. reflexivity.
Qed.

(** The report of a review as the summarizer reads it. *)
Definition correctness_report_of (results : Results) : Summarizer.CorrectnessReport :=
  {| Summarizer.tests_passed := Some (tests_passed results);
     Summarizer.total_tests := Some (total_tests results) |}.

Lemma review_python_runs_tests (code : string) (test_cases : option (list json))
    (results : Results) :
  review_of code "python" test_cases = Py.Ok results ->
  exists tests run,
    cases_to_run code "python" test_cases = Py.Ok tests /\
    _run_python_tests write_module subprocess_run json_loads unlink code tests = Py.Ok run /\
    tests_passed results = tests_passed run /\ total_tests results = total_tests run /\
    test_results results = test_results run /\ errors results = errors run.
Proof.
  unfold review. fold (cases_to_run code "python" test_cases).
  destruct (cases_to_run code "python" test_cases) as [tests|e]; [|discriminate].
  cbn [mbind result_bind Py.bind String.eqb Ascii.eqb Bool.eqb].
  destruct (_run_python_tests _ _ _ _ code tests) as [run|e] eqn:Hrun; [|discriminate].
  cbn [mbind result_bind Py.bind]. destruct (_generate_summary run) as [text|e]; [|discriminate].
  cbn [mbind result_bind Py.bind mret result_ret]. intros Hresults. injection Hresults as <-.
  exists tests, run. repeat split. exact Hrun.
Qed.

(** X19.  The correctness points the summarizer gives to a Python review
    lie between 0 and 100: 70 when the review ran no test case, and
    otherwise the percentage of test cases recorded as passed, so that a
    review whose tests all failed gets fewer points than one that ran no
    test at all. *)
Theorem correctness_points_of_python_review (code : string)
    (test_cases : option (list json)) (results : Results) :
  review_of code "python" test_cases = Py.Ok results ->
  let points := Summarizer.correctness_score (correctness_report_of results) in
  (0 <= points <= 100)%Q /\
  (total_tests results = 0 -> points = 70%Q) /\
  (0 < total_tests results ->
   (points == inject_Z (100 * tests_passed results) / inject_Z (total_tests results))%Q /\
   (tests_passed results = 0 -> (points == 0)%Q)).
Proof.
  intros Hreview points. subst points.
  destruct (review_python_runs_tests code test_cases results Hreview)
    as (tests & run & _ & Hrun & Hpassed & Htotal & _ & _).
  destruct (python_tests_tallied subprocess_run json_loads write_module unlink code tests run Hrun)
    as [[Htally Hhandled] Hlength].
  pose proof (passes_bounds (test_results run)) as Hbounds.
  assert (Hrange : 0 <= tests_passed results <= total_tests results) by lia.
  unfold Summarizer.correctness_score, correctness_report_of.
  cbn [Summarizer.total_tests Summarizer.tests_passed default].
  destruct (Z.eqb_spec (total_tests results) 0) as [Hzero|Hsome].
  - split; [split; unfold Qle; simpl; lia|]. split; [reflexivity|]. lia.
  - assert (Hpos : 0 < total_tests results) by lia.
    rewrite Z.max_l by lia.
    assert (Hq : (0 < inject_Z (total_tests results))%Q).
    { change 0%Q with (inject_Z 0). rewrite <- Zlt_Qlt. exact Hpos. }
    assert (Hvalue : (inject_Z (tests_passed results) / inject_Z (total_tests results) * 100
                      == inject_Z (100 * tests_passed results)
                           / inject_Z (total_tests results))%Q).
    { rewrite inject_Z_mult. change (inject_Z 100) with 100%Q. field.
      intros Heq. rewrite Heq in Hq. apply (Qlt_irrefl 0). exact Hq. }
    destruct (ratio_in_unit_interval (tests_passed results) (total_tests results))
      as [Hlow Hhigh]; [lia|lia|].
    unfold id. split.
    { set (ratio := (inject_Z (tests_passed results) / inject_Z (total_tests results))%Q) in *.
      split; lra. }
    split; [intros Hzero; contradiction|].
    intros _. split; [exact Hvalue|].
    intros Hnone. rewrite Hnone. unfold Qdiv. change (inject_Z 0) with 0%Q. ring.
Qed.

End Review.

Lemma correctness_points_witness :
  let results :=
    {| Correctness.tests_passed := 1; Correctness.total_tests := 2;
       Correctness.test_results :=
         [{| Correctness.name := Json.JString "Test"; Correctness.passed := Json.JBool true;
             Correctness.input := Some (Json.JInt 1);
             Correctness.expected := Some (Json.JInt 1);
             Correctness.actual := Some (Json.JInt 1); Correctness.reason := None;
             Correctness.error := None |}];
       Correctness.errors := ["'int' object has no attribute 'get'"];
       Correctness.summary := "one of two" |} in
  (0 <= Summarizer.correctness_score (correctness_report_of results) <= 100)%Q.
Proof.
  cbv zeta.
  apply (correctness_points_of_python_review
           (fun _ => Py.Ok "tmp_module.py")
           (fun _ _ _ _ => Correctness.Completed 0 "{}" "")
           (fun _ => Py.Ok (Json.JObject [("passed", Json.JBool true); ("result", Json.JInt 1)]))
           (fun _ => Py.Ok tt) (fun _ => "None") (fun _ _ => Py.Ok [])
           (fun _ _ _ _ _ => Py.Ok "") (fun _ => None) (fun _ => Py.Ok "one of two")
           "def main(x): return x" (Some sample_tests)).
  reflexivity.
Defined.

(** ** Summarizer: the robustness points of a priority list *)

Section RobustnessPoints.
Import Json EdgeCases.

(** A case as the summarizer reads it: its severity when that is a text. *)
Definition summary_case (x : json) : Summarizer.EdgeCase :=
  {| Summarizer.severity :=
       match x with
       | JObject fields =>
           match lookup "severity" fields with
           | Some (JString s) => Some s
           | _ => None
           end
       | _ => None
       end |}.

Definition edge_cases_report_of (priority : list json) : Summarizer.EdgeCasesReport :=
  {| Summarizer.priority_cases := Some (map summary_case priority) |}.

(** X20.  The robustness points of the summarizer only count the priority
    cases: 70 when no case was generated, and otherwise ten points per case
    up to 100, whatever the severities are; more generated cases never
    give fewer points once there is one. *)
Theorem robustness_points_count_cases (all_cases : list (string * json))
    (priority : list json) :
  _prioritize_cases all_cases = Py.Ok priority ->
  let generated := length (cases_of all_cases) in
  let points := Summarizer.robustness_score (edge_cases_report_of priority) in
  (generated = 0%nat -> points = 70%Q) /\
  (generated <> 0%nat -> (points == inject_Z (10 * Z.of_nat (Nat.min 10 generated)))%Q) /\
  (10 <= points <= 100)%Q.
Proof.
  intros Hpriority generated points.
  destruct (prioritize_cases_spec all_cases) as [Hok Hraise].
  assert (Hlength : length priority = Nat.min 10 generated).
  { destruct (forallb well_formed (map snd (cases_of all_cases))).
    - destruct (Hok eq_refl) as [Hresult Hlength]. rewrite Hresult in Hpriority.
      injection Hpriority as <-. exact Hlength.
    - specialize (Hraise eq_refl). rewrite Hpriority in Hraise. discriminate Hraise. }
  subst points. unfold Summarizer.robustness_score, edge_cases_report_of.
  cbn [Summarizer.priority_cases].
  destruct (Nat.eq_dec generated 0) as [Hzero|Hsome].
  - destruct priority as [|x rest]; [|cbn [length] in Hlength; lia].
    cbn [map]. split; [reflexivity|]. split; [contradiction|].
    split; unfold Qle; simpl; lia.
  - destruct priority as [|x rest]; [cbn [length] in Hlength; lia|].
    cbn [map].
    assert (Hcount : length (summary_case x :: map summary_case rest)
                     = Nat.min 10 generated).
    { cbn [length]. rewrite length_map. exact Hlength. }
    rewrite Hcount.
    assert (Hvalue : (inject_Z (Z.of_nat (Nat.min 10 generated)) / 10 * 100
                      == inject_Z (10 * Z.of_nat (Nat.min 10 generated)))%Q).
    { rewrite inject_Z_mult. change (inject_Z 10) with 10%Q. field. }
    split; [intros Hzero; contradiction|]. split; [intros _; exact Hvalue|].
    rewrite Hvalue. change 10%Q with (inject_Z 10). change 100%Q with (inject_Z 100).
    rewrite <- !Zle_Qle. lia.
Qed.

End RobustnessPoints.

(** Three generated cases in two categories. *)
Definition sample_cases : list (string * Json.json) :=
  EdgeCases.edge_cases_dict
    [Json.JObject [("name", Json.JString "empty list"); ("severity", Json.JString "low")];
     Json.JObject [("name", Json.JString "one element")]]
    [] [Json.JObject [("name", Json.JString "huge"); ("severity", Json.JString "critical")]] [].

Definition sample_priority : list Json.json :=
  [Json.JObject [("name", Json.JString "huge"); ("severity", Json.JString "critical");
                 ("category", Json.JString "stress_cases")];
   Json.JObject [("name", Json.JString "one element");
                 ("category", Json.JString "boundary_cases")];
   Json.JObject [("name", Json.JString "empty list"); ("severity", Json.JString "low");
                 ("category", Json.JString "boundary_cases")]].

Lemma robustness_points_witness :
  EdgeCases._prioritize_cases sample_cases = Py.Ok sample_priority /\
  (Summarizer.robustness_score (edge_cases_report_of sample_priority) == 30)%Q.
Proof.
  split; [reflexivity|].
  destruct (robustness_points_count_cases sample_cases sample_priority eq_refl)
    as (_ & Hpoints & _).
  rewrite Hpoints; [reflexivity|]. simpl. discriminate.
Defined.

(** ** Summarizer: the overall score and the sub-scores *)

Section OverallBounds.
Import Summarizer.

Lemma int_of_float_between (x : Q) (low high : Z) :
  (inject_Z low <= x <= inject_Z high)%Q -> (low <= int_of_float x <= high)%Z.
Proof.
  intros [Hlow Hhigh]. destruct (int_of_float_truncates x) as [Hpos Hneg].
  destruct (Qlt_le_dec x 0) as [Hx|Hx].
  - destruct (Hneg (Qlt_le_weak _ _ Hx)) as [Hle Hlt]. split.
    + rewrite Zle_Qle. eapply Qle_trans; [exact Hlow|exact Hle].
    + assert (Hstrict : (inject_Z (int_of_float x - 1) < inject_Z high)%Q).
      { unfold Z.sub. rewrite inject_Z_plus, inject_Z_opp.
        eapply Qlt_le_trans; [exact Hlt|exact Hhigh]. }
      rewrite <- Zlt_Qlt in Hstrict. lia.
  - destruct (Hpos Hx) as [Hle Hlt]. split.
    + assert (Hstrict : (inject_Z low < inject_Z (int_of_float x + 1))%Q).
      { rewrite inject_Z_plus. eapply Qle_lt_trans; [exact Hlow|exact Hlt]. }
      rewrite <- Zlt_Qlt in Hstrict. lia.
    + rewrite Zle_Qle. eapply Qle_trans; [exact Hle|exact Hhigh].
Qed.

Lemma int_of_float_monotone (x y : Q) :
  (x <= y)%Q -> (int_of_float x <= int_of_float y)%Z.
Proof.
  intros Hxy.
  destruct (int_of_float_truncates x) as [Hxpos Hxneg].
  destruct (int_of_float_truncates y) as [Hypos Hyneg].
  destruct (Qlt_le_dec x 0) as [Hx|Hx]; destruct (Qlt_le_dec y 0) as [Hy|Hy].
  - destruct (Hxneg (Qlt_le_weak _ _ Hx)) as [_ Hlt].
    destruct (Hyneg (Qlt_le_weak _ _ Hy)) as [Hle _].
    assert (Hstrict : (inject_Z (int_of_float x - 1) < inject_Z (int_of_float y))%Q).
    { unfold Z.sub. rewrite inject_Z_plus, inject_Z_opp.
      eapply Qlt_le_trans; [exact Hlt|]. eapply Qle_trans; [exact Hxy|exact Hle]. }
    rewrite <- Zlt_Qlt in Hstrict. lia.
  - destruct (Hxneg (Qlt_le_weak _ _ Hx)) as [_ Hlt]. destruct (Hypos Hy) as [_ Hlt'].
    assert (Hleft : (inject_Z (int_of_float x - 1) < inject_Z 0)%Q).
    { unfold Z.sub. rewrite inject_Z_plus, inject_Z_opp.
      eapply Qlt_trans; [exact Hlt|exact Hx]. }
    assert (Hright : (inject_Z 0 < inject_Z (int_of_float y + 1))%Q).
    { rewrite inject_Z_plus. eapply Qle_lt_trans; [exact Hy|exact Hlt']. }
    rewrite <- Zlt_Qlt in Hleft, Hright. lia.
  - exfalso. apply (Qlt_irrefl 0). eapply Qle_lt_trans; [exact Hx|].
    eapply Qle_lt_trans; [exact Hxy|exact Hy].
  - destruct (Hxpos Hx) as [Hle _]. destruct (Hypos Hy) as [_ Hlt].
    assert (Hstrict : (inject_Z (int_of_float x) < inject_Z (int_of_float y + 1))%Q).
    { rewrite inject_Z_plus. eapply Qle_lt_trans; [exact Hle|].
      eapply Qle_lt_trans; [exact Hxy|exact Hlt]. }
    rewrite <- Zlt_Qlt in Hstrict. lia.
Qed.

(** X21.  The overall score lies between any two integers that bound the
    four sub-scores, and it never drops when no sub-score drops. *)
Theorem overall_score_follows_sub_scores (reports : Reports) :
  let s := sub_scores reports in
  (forall low high : Z,
     (inject_Z low <= correctness s <= inject_Z high)%Q ->
     (inject_Z low <= complexity s <= inject_Z high)%Q ->
     (inject_Z low <= readability s <= inject_Z high)%Q ->
     (inject_Z low <= robustness s <= inject_Z high)%Q ->
     (low <= _calculate_overall_score reports <= high)%Z) /\
  (forall better : Reports,
     (correctness s <= correctness (sub_scores better))%Q ->
     (complexity s <= complexity (sub_scores better))%Q ->
     (readability s <= readability (sub_scores better))%Q ->
     (robustness s <= robustness (sub_scores better))%Q ->
     (_calculate_overall_score reports <= _calculate_overall_score better)%Z).
Proof.
  intros s. unfold _calculate_overall_score. fold s. split.
  - intros low high [H1 H1'] [H2 H2'] [H3 H3'] [H4 H4'].
    apply int_of_float_between. unfold weighted_sum.
    cbn [weights correctness complexity readability robustness].
    set (a := correctness s) in *. set (b := complexity s) in *.
    set (c := readability s) in *. set (d := robustness s) in *.
    split; lra.
  - intros better H1 H2 H3 H4. apply int_of_float_monotone. unfold weighted_sum.
    cbn [weights correctness complexity readability robustness].
    set (a := correctness s) in *. set (b := complexity s) in *.
    set (c := readability s) in *. set (d := robustness s) in *.
    set (a' := correctness (sub_scores better)) in *.
    set (b' := complexity (sub_scores better)) in *.
    set (c' := readability (sub_scores better)) in *.
    set (d' := robustness (sub_scores better)) in *.
    lra.
Qed.

End OverallBounds.

(** ** Orchestrator: what the summarizer is handed *)

Section SummarizerInputs.
Import Graph.
Variable Report : Type.
Variable empty_report : Report.
Variable agents : Agents Report.

(** The logged agent call of a node. *)
Definition logged (n : graph_node) (log : list (graph_node * option (Py.result Report)))
    : option (Py.result Report) :=
  match List.find (fun outcome => bool_decide (outcome.1 = n)) log with
  | Some outcome => outcome.2
  | None => None
  end.

(** The report of a stage as the summarizer stage finds it: the one the
    stage returned, else what the request held under the stage's key, else
    the empty report. *)
Definition handed_over (initial_state : ReviewState Report)
    (log : list (graph_node * option (Py.result Report))) (n : graph_node) : Report :=
  match logged n log with
  | Some (Py.Ok report) => report
  | _ => get_result empty_report (result_key n) initial_state
  end.

Lemma logged_cons (n m : graph_node) (outcome : option (Py.result Report))
    (log : list (graph_node * option (Py.result Report))) :
  logged n ((m, outcome) :: log) = if decide (m = n) then outcome else logged n log.
Proof.
  unfold logged. cbn [List.find fst snd]. unfold bool_decide.
  destruct (decide_rel eq m n); destruct (decide (m = n)); try reflexivity; contradiction.
Qed.

Lemma logged_nil (n : graph_node) : logged n [] = None.
Proof. reflexivity. Qed.

Ltac decide_closed :=
  repeat first [rewrite decide_True by reflexivity | rewrite decide_False by discriminate].

Ltac stage_outcome :=
  match goal with
  | |- context [guarded ?label ?key ?call ?s] =>
      let r := fresh "report" in
      let e := fresh "e" in
      destruct call as [r|e];
      cbn [guarded set_result append_error set_errors set_current_agent
           code language user_id results errors]
  end.

(** X22.  The summarizer agent is called once, after the other stages, with
    the request's code, language and user and with the reports of the four
    analysis stages: for a stage that raised it gets what the request held
    under that stage's key, the empty report if nothing.  The similarity
    report is not handed to it. *)
Theorem summarizer_receives_stage_reports (clock_start : Q)
    (initial_state : ReviewState Report) :
  let state := started clock_start initial_state in
  let log :=
    outcome_log empty_report agents
      (pipeline (_should_check_plagiarism initial_state)) state in
  logged summarizer log
    = Some (summarizer_summarize agents (code initial_state) (language initial_state)
              (handed_over initial_state log correctness)
              (handed_over initial_state log complexity)
              (handed_over initial_state log readability)
              (handed_over initial_state log edge_cases)
              (user_id initial_state)).
Proof.
  intros state log. subst log. unfold handed_over, pipeline.
  destruct (_should_check_plagiarism initial_state);
    cbn [app outcome_log]; rewrite !logged_cons, ?logged_nil; decide_closed;
    cbn [invocation node_function];
    unfold _delay_2_seconds, _run_correctness, _run_complexity, _run_readability,
      _run_edge_cases, _run_plagiarism; cbv zeta;
    cbn [set_current_agent code language user_id results];
    repeat stage_outcome;
    unfold get_result, started;
    cbn [set_result append_error set_errors set_times set_current_agent
         code language user_id results result_key];
    rewrite ?lookup_insert; decide_closed; reflexivity.
Qed.

End SummarizerInputs.

(** ** Correctness agent: the tallies of a simulated test run *)

Section SimulatedTallies.
Import Json Correctness.
Local Open Scope Z_scope.
Variable json_loads : string -> Py.result json.
Variable str_of : json -> string.
Variable simulate : string -> string -> json -> json -> json -> Py.result string.
Variable search_object : string -> option string.

(** The model's answer to the prompt of one test case. *)
Definition answer (code language : string) (test : json) : Py.result string :=
  input_value ← get_default test "input" JNull;
  expected_value ← get_default test "expected" JNull;
  description ← get_default test "description" JNull;
  simulate code language input_value expected_value description.

(** The answer holds an opening brace followed, somewhere, by a closing
    one. *)
Definition answered (code language : string) (test : json) : bool :=
  match answer code language test with
  | Py.Ok content => bool_decide (is_Some (search_object content))
  | Py.Raise _ => false
  end.

Lemma simulated_tallied handled test content results :
  tallied handled results ->
  match simulated json_loads search_object test content results with
  | Some (Py.Ok results') =>
      tallied (S handled) results' /\ total_tests results' = total_tests results
  | _ => True
  end.
Proof.
  intros Htally. unfold simulated. destruct (search_object content) as [text|]; [|exact I].
  destruct (json_loads text) as [result|e]; [|exact I].
  cbn [mbind result_bind Py.bind].
  destruct test as [| | | | | |fields]; try exact I.
  rewrite get_default_object. cbn [mbind result_bind Py.bind].
  destruct result as [| | | | | |reply]; try exact I.
  rewrite !get_default_object. cbn [mbind result_bind Py.bind mret result_ret].
  apply add_result_tallied; [|exact Htally]. cbn [passed].
  destruct (lookup "passed" reply); reflexivity.
Qed.

Lemma simulate_tests_tallied (code language : string) (tests : list json) :
  forall handled results results',
    tallied handled results ->
    simulate_tests json_loads str_of simulate search_object code language tests results
      = Py.Ok results' ->
    tallied (length (List.filter (answered code language) tests) + handled) results' /\
    total_tests results' = total_tests results.
Proof.
  induction tests as [|test rest IH]; intros handled results results' Htally Hrun.
  - injection Hrun as <-. split; [exact Htally|reflexivity].
  - cbn [simulate_tests] in Hrun. cbn [List.filter].
    unfold answered at 1. unfold answer.
    destruct (get_default test "input" JNull) as [input_value|e];
      [|discriminate Hrun].
    destruct (get_default test "expected" JNull) as [expected_value|e];
      [|discriminate Hrun].
    destruct (get_default test "description" JNull) as [description|e];
      [|discriminate Hrun].
    cbn [mbind result_bind Py.bind] in Hrun |- *.
    destruct (simulate code language input_value expected_value description)
      as [content|e]; [|discriminate Hrun].
    cbn [mbind result_bind Py.bind] in Hrun.
    pose proof (simulated_tallied handled test content results Htally) as Hstep.
    unfold simulated in Hrun, Hstep.
    destruct (search_object content) as [text|].
    + rewrite bool_decide_eq_true_2 by (eexists; reflexivity). cbn [length].
      match type of Hrun with
      | simulate_tests _ _ _ _ _ _ _ (match ?outcome with _ => _ end) = _ =>
          destruct outcome as [results1|e] eqn:Eoutcome
      end.
      * destruct Hstep as [Hstep Htotal].
        destruct (IH (S handled) results1 results' Hstep Hrun) as [Hrest Htotal'].
        split; [|rewrite Htotal', Htotal; reflexivity].
        replace (S (length (List.filter (answered code language) rest)) + handled)%nat
          with (length (List.filter (answered code language) rest) + S handled)%nat by lia.
        exact Hrest.
      * destruct (add_error_tallied handled
                    ("Failed to parse LLM response for test: " +:+ str_of description)
                    results Htally) as [Hstep' Htotal].
        destruct (IH (S handled) _ results' Hstep' Hrun) as [Hrest Htotal'].
        split; [|rewrite Htotal', Htotal; reflexivity].
        replace (S (length (List.filter (answered code language) rest)) + handled)%nat
          with (length (List.filter (answered code language) rest) + S handled)%nat by lia.
        exact Hrest.
    + rewrite bool_decide_eq_false_2 by (intros [x Hx]; discriminate Hx).
      exact (IH handled results results' Htally Hrun).
Qed.

(** X23.  When a simulated test run returns, the counter of passed tests is
    the number of entries recorded as passed and the total is the number of
    test cases, but only the test cases whose answer holds a pair of braces
    leave an entry or an error message: an answer without braces is dropped
    without a trace, so entries and errors may add up to less than the
    total. *)
Theorem simulated_test_report_may_drop_tests (code language : string) (tests : list json)
    (results : Results) :
  _llm_based_testing json_loads str_of simulate search_object code language tests
    = Py.Ok results ->
  total_tests results = Z.of_nat (length tests) /\
  tests_passed results = passes (test_results results) /\
  (length (test_results results) + length (errors results)
   = length (List.filter (answered code language) tests))%nat /\
  (length (test_results results) + length (errors results) <= length tests)%nat.
Proof.
  unfold _llm_based_testing. intros Hrun.
  destruct (simulate_tests_tallied code language tests 0 (results_init tests) results)
    as [[Hpassed Hhandled] Htotal]; [split; reflexivity|exact Hrun|].
  rewrite Nat.add_0_r in Hhandled.
  pose proof (List.filter_length_le (answered code language) tests).
  repeat split; try assumption; lia.
Qed.

End SimulatedTallies.

Lemma simulated_test_report_witness :
  exists results,
    Correctness._llm_based_testing (fun _ => Py.Ok (Json.JObject []))
      (fun _ => "None") (fun _ _ _ _ _ => Py.Ok "no verdict") (fun _ => None)
      "fn main() {}" "rust" [Json.JObject []] = Py.Ok results /\
    Correctness.total_tests results = 1%Z /\
    (length (Correctness.test_results results) + length (Correctness.errors results) = 0)%nat.
Proof.
  eexists. split; [reflexivity|].
  destruct (simulated_test_report_may_drop_tests (fun _ => Py.Ok (Json.JObject []))
              (fun _ => "None") (fun _ _ _ _ _ => Py.Ok "no verdict") (fun _ => None)
              "fn main() {}" "rust" [Json.JObject []] _ eq_refl) as (Htotal & _ & Hleft & _).
  split; [exact Htotal|exact Hleft].
Defined.

(** ** Summarizer: the critical issues *)

Section CriticalIssues.
Import SummarizerReview.

Lemma failing_tests_short (r : Summarizer.CorrectnessReport) (failing : list string) :
  failing_tests r = Py.Ok failing -> (length failing <= 1)%nat.
Proof.
  unfold failing_tests. destruct (Summarizer.total_tests r) as [total|].
  - destruct (0 <? total)%Z.
    + destruct (Summarizer.tests_passed r) as [passed|]; [|discriminate].
      destruct (0 <? total - passed)%Z; intros H; injection H as <-; simpl; lia.
    + intros H. injection H as <-. simpl. lia.
  - intros H. injection H as <-. simpl. lia.
Qed.


End CriticalIssues.

(** ** Summarizer: the feedback history *)

Section FeedbackHistory.
Import SummarizerReview.
Variable isoformat_now : Py.result string.

(** A call of [record_feedback] with its arguments. *)
Record feedback_call : Type := {
  call_review : string;
  call_user : string;
  call_rating : Z;
  call_comments : string
}.

(** The agent after a series of calls whose exceptions the caller
    handles. *)
Definition after_calls (calls : list feedback_call) (self : SummarizerAgent) : SummarizerAgent :=
  fold_left
    (fun agent call =>
       match record_feedback isoformat_now agent (call_review call) (call_user call)
               (call_rating call) (call_comments call) with
       | Py.Ok agent' => agent'
       | Py.Raise _ => agent
       end)
    calls self.

Lemma record_feedback_raises (self : SummarizerAgent) (review user : string) (stars : Z)
    (text : string) :
  record_feedback isoformat_now self review user stars text
    = Py.Raise (Py.NameError "name 'import_datetime' is not defined").
Proof. reflexivity. Qed.

Lemma after_calls_unchanged (calls : list feedback_call) (self : SummarizerAgent) :
  after_calls calls self = self.
Proof.
  unfold after_calls. induction calls as [|call calls IH]; [reflexivity|].
  cbn [fold_left]. rewrite record_feedback_raises. exact IH.
Qed.

(** X25.  Recording feedback never works: the method names a helper that
    is only a method of the class, so every call raises the name error
    before the entry is appended.  The history of an agent therefore stays
    empty whatever feedback is sent, no user ever has a preferred style, and
    the summary is never adapted. *)
Theorem feedback_is_never_recorded (calls : list feedback_call) :
  (forall self review user stars text,
     record_feedback isoformat_now self review user stars text
       = Py.Raise (Py.NameError "name 'import_datetime' is not defined")) /\
  Py.str_in "import_datetime"
    (record_feedback_locals ++ module_globals ++ Plagiarism.builtins) = false /\
  feedback_history (after_calls calls SummarizerAgent_init) = [] /\
  (forall user, _get_user_preferences (after_calls calls SummarizerAgent_init) user = None).
Proof.
  split; [intros; apply record_feedback_raises|]. split; [vm_compute; reflexivity|].
  rewrite after_calls_unchanged. split; [reflexivity|]. intros user. reflexivity.
Qed.

End FeedbackHistory.

(** ** Repository manager: the tallies of a clone *)

Section RepositoryTallies.
Import RepoManager.
Local Open Scope Z_scope.
Variable walk_files : string -> list (string * string).
Variable relpath : string -> string -> string.
Variable splitext_ext : string -> string.
Variable getsize : string -> Py.result Z.
Variable lower : string -> string.
Variable join_path : string -> string -> string.
Variable read_head : string -> option (Py.result string).
Variable md5_prefix : string -> string.
Variable clone_from : string -> string -> string -> Py.result unit.

Local Abbreviation detect := (_detect_language splitext_ext lower).
Local Abbreviation test_path := (is_test_path lower).

(** How often a language occurs in a list of detected languages. *)
Definition occurrences (lang : string) (detected : list (option string)) : Z :=
  Z.of_nat (length (List.filter (fun l => bool_decide (l = Some lang)) detected)).

Definition sum_counts (d : list (string * Z)) : Z :=
  fold_right (fun p total => p.2 + total) 0 d.

Definition has_language (f : FileInfo) : bool := bool_decide (is_Some (language f)).

(** What the loop keeps true of an entry. *)
Definition consistent (state : RepoState) : Prop :=
  List.NoDup (map fst (languages state)) /\
  List.Forall (fun p => 0 < p.2) (languages state) /\
  (forall lang, default 0 (dict_get (languages state) lang)
                = occurrences lang (map language (files state))) /\
  sum_counts (languages state)
    = Z.of_nat (length (List.filter has_language (files state))) /\
  has_tests state = existsb (fun f => test_path (path f)) (files state).

Lemma occurrences_snoc (lang : string) (detected : list (option string))
    (l : option string) :
  occurrences lang (detected ++ [l])
    = occurrences lang detected + (if bool_decide (l = Some lang) then 1 else 0).
Proof.
  unfold occurrences. rewrite List.filter_app, length_app. cbn [List.filter].
  destruct (bool_decide (l = Some lang)); simpl; lia.
Qed.

Lemma count_language_get (lang key : string) (d : list (string * Z)) :
  dict_get (count_language lang d) key
    = if String.eqb lang key then Some (default 0 (dict_get d lang) + 1)
      else dict_get d key.
Proof.
  induction d as [|[k v] rest IH].
  - cbn [count_language dict_get default]. destruct (String.eqb lang key); reflexivity.
  - cbn [count_language dict_get]. destruct (String.eqb_spec k lang) as [->|Hk].
    + cbn [dict_get default]. destruct (String.eqb lang key); reflexivity.
    + cbn [dict_get]. rewrite IH.
      destruct (String.eqb_spec lang key) as [->|Hl].
      * destruct (String.eqb_spec k key) as [->|_]; [contradiction|reflexivity].
      * reflexivity.
Qed.

Lemma count_language_keys (lang : string) (d : list (string * Z)) :
  (forall k, In k (map fst (count_language lang d)) <-> k = lang \/ In k (map fst d)) /\
  (List.NoDup (map fst d) -> List.NoDup (map fst (count_language lang d))).
Proof.
  induction d as [|[k v] rest [IHin IHnodup]].
  - split; [|intros _; repeat constructor; intros []].
    intros k. simpl. split; [intros [<-|[]]; left; reflexivity|intros [->|[]]; left; reflexivity].
  - cbn [count_language]. destruct (String.eqb_spec k lang) as [->|Hk].
    + split; [|intros H; exact H]. intros k'. cbn [map fst In]. intuition congruence.
    + split.
      * intros k'. cbn [map fst In]. rewrite IHin. intuition congruence.
      * cbn [map fst]. intros Hnodup. apply List.NoDup_cons_iff in Hnodup as [Hfresh Hnodup].
        apply List.NoDup_cons_iff. split; [|exact (IHnodup Hnodup)].
        rewrite IHin. intros [->|Hin]; [contradiction|exact (Hfresh Hin)].
Qed.

Lemma count_language_positive (lang : string) (d : list (string * Z)) :
  List.Forall (fun p => 0 < p.2) d -> List.Forall (fun p => 0 < p.2) (count_language lang d).
Proof.
  induction 1 as [|[k v] rest Hv Hrest IH]; [repeat constructor; cbn [snd]; lia|].
  cbn [count_language]. cbn [snd] in Hv.
  destruct (String.eqb k lang); constructor; try assumption; cbn [snd]; lia.
Qed.

Lemma count_language_sum (lang : string) (d : list (string * Z)) :
  sum_counts (count_language lang d) = sum_counts d + 1.
Proof.
  induction d as [|[k v] rest IH]; [reflexivity|].
  cbn [count_language]. destruct (String.eqb k lang); cbn [sum_counts fold_right snd].
  - fold (sum_counts rest). lia.
  - fold (sum_counts (count_language lang rest)). fold (sum_counts rest). lia.
Qed.

Lemma has_language_info (p e : string) (s : Z) (l : option string) :
  has_language {| path := p; extension := e; size := s; language := l |}
    = bool_decide (is_Some l).
Proof. reflexivity. Qed.

Lemma analyze_file_consistent (state state' : RepoState) (found : string * string) :
  consistent state ->
  analyze_file relpath splitext_ext getsize lower state found = Py.Ok state' ->
  consistent state' /\
  url state' = url state /\ repo_path state' = repo_path state /\
  branch state' = branch state /\ dependencies state' = dependencies state /\
  map language (files state') = map language (files state) ++ [detect found.2] /\
  map path (files state')
    = map path (files state) ++ [relpath found.1 (repo_path state)].
Proof.
  intros (Hnodup & Hpositive & Hcount & Hsum & Htests). destruct found as [file_path file].
  unfold analyze_file. destruct (getsize file_path) as [bytes|e]; [|discriminate].
  cbn [mbind result_bind Py.bind mret result_ret language]. intros Hstate. injection Hstate as <-.
  cbn [url repo_path branch dependencies files languages has_tests fst snd].
  rewrite !map_app. cbn [map language path].
  split; [|repeat split].
  unfold consistent. cbn [files languages has_tests].
  rewrite !map_app, List.filter_app, length_app, existsb_app. cbn [map language path].
  destruct (detect file) as [lang|] eqn:Elang.
  - split; [apply count_language_keys; exact Hnodup|].
    split; [apply count_language_positive; exact Hpositive|].
    split; [|split].
    + intros key. rewrite count_language_get, occurrences_snoc.
      destruct (String.eqb_spec lang key) as [->|Hne].
      * rewrite bool_decide_eq_true_2 by reflexivity. cbn [default]. rewrite Hcount. reflexivity.
      * rewrite bool_decide_eq_false_2 by congruence. rewrite Hcount. lia.
    + rewrite count_language_sum, Hsum. cbn [List.filter]. rewrite has_language_info.
      rewrite bool_decide_eq_true_2 by (eexists; reflexivity). simpl. lia.
    + rewrite Htests. cbn [existsb path]. rewrite orb_false_r.
      destruct (test_path (relpath file_path (repo_path state)));
        [rewrite orb_true_r|rewrite orb_false_r]; reflexivity.
  - split; [exact Hnodup|]. split; [exact Hpositive|]. split; [|split].
    + intros key. rewrite occurrences_snoc, bool_decide_eq_false_2 by discriminate.
      rewrite Hcount. lia.
    + rewrite Hsum. cbn [List.filter]. rewrite has_language_info.
      rewrite bool_decide_eq_false_2 by (intros [x Hx]; discriminate Hx). simpl. lia.
    + rewrite Htests. cbn [existsb path]. rewrite orb_false_r.
      destruct (test_path (relpath file_path (repo_path state)));
        [rewrite orb_true_r|rewrite orb_false_r]; reflexivity.
Qed.

Lemma analyze_files_consistent (found : list (string * string)) :
  forall state state',
    consistent state ->
    analyze_files relpath splitext_ext getsize lower state found = (state', Py.Ok tt) ->
    consistent state' /\
    url state' = url state /\ repo_path state' = repo_path state /\
    branch state' = branch state /\ dependencies state' = dependencies state /\
    map language (files state')
      = map language (files state) ++ map (fun file => detect file.2) found /\
    map path (files state')
      = map path (files state)
          ++ map (fun file => relpath file.1 (repo_path state)) found.
Proof.
  induction found as [|file rest IH]; intros state state' Hstate Hrun.
  - cbn [analyze_files] in Hrun. injection Hrun as <-. cbn [map]. rewrite !app_nil_r.
    split; [exact Hstate|]. repeat split.
  - cbn [analyze_files] in Hrun.
    destruct (analyze_file relpath splitext_ext getsize lower state file)
      as [middle|e] eqn:Estep; [|discriminate Hrun].
    destruct (analyze_file_consistent state middle file Hstate Estep)
      as (Hmiddle & Hu & Hp & Hb & Hd & Hl & Hpaths).
    destruct (IH middle state' Hmiddle Hrun) as (Hfinal & Hu' & Hp' & Hb' & Hd' & Hl' & Hpaths').
    split; [exact Hfinal|].
    rewrite Hu', Hp', Hb', Hd', Hl', Hpaths', Hu, Hp, Hb, Hd, Hl, Hpaths, <- !app_assoc.
    repeat split.
Qed.

Lemma max_key_greatest (rest : list (string * Z)) (best : string * Z) :
  exists v, In (max_key best rest, v) (best :: rest) /\
            forall p, In p (best :: rest) -> p.2 <= v.
Proof.
  revert best. induction rest as [|[k v] rest IH]; intros best.
  - exists best.2. cbn [max_key]. split; [left; destruct best; reflexivity|].
    intros p [<-|[]]. lia.
  - cbn [max_key]. destruct (Z.ltb_spec best.2 v) as [Hlt|Hle].
    + destruct (IH (k, v)) as (m & Hin & Hmax). exists m. split.
      * destruct Hin as [Hin|Hin]; [right; left; exact Hin|right; right; exact Hin].
      * intros p [<-|[<-|Hp]].
        -- specialize (Hmax (k, v) (or_introl eq_refl)). cbn [snd] in Hmax. lia.
        -- apply Hmax. left. reflexivity.
        -- apply Hmax. right. exact Hp.
    + destruct (IH best) as (m & Hin & Hmax). exists m. split.
      * destruct Hin as [Hin|Hin]; [left; exact Hin|right; right; exact Hin].
      * intros p [<-|[<-|Hp]].
        -- apply Hmax. left. reflexivity.
        -- specialize (Hmax best (or_introl eq_refl)). cbn [snd]. lia.
        -- apply Hmax. right. exact Hp.
Qed.

Lemma dict_get_member (d : list (string * Z)) (k : string) (v : Z) :
  List.NoDup (map fst d) -> In (k, v) d -> dict_get d k = Some v.
Proof.
  induction d as [|[k' v'] rest IH]; intros Hnodup Hin; [destruct Hin|].
  cbn [map fst] in Hnodup. apply List.NoDup_cons_iff in Hnodup as [Hfresh Hnodup].
  cbn [dict_get]. destruct Hin as [Heq|Hin].
  - injection Heq as -> ->. rewrite String.eqb_refl. reflexivity.
  - destruct (String.eqb_spec k' k) as [->|_]; [|exact (IH Hnodup Hin)].
    exfalso. apply Hfresh. apply (in_map fst) in Hin. exact Hin.
Qed.

Lemma dict_get_found (d : list (string * Z)) (k : string) (v : Z) :
  dict_get d k = Some v -> In (k, v) d.
Proof.
  induction d as [|[k' v'] rest IH]; [discriminate|].
  cbn [dict_get]. destruct (String.eqb_spec k' k) as [->|_].
  - intros H. injection H as ->. left. reflexivity.
  - intros H. right. exact (IH H).
Qed.

Lemma filter_languages (fs : list FileInfo) :
  List.filter (fun l => bool_decide (is_Some l)) (map language fs)
    = map language (List.filter has_language fs).
Proof.
  induction fs as [|f fs IH]; [reflexivity|].
  cbn [map List.filter]. unfold has_language at 1.
  destruct (bool_decide (is_Some (language f))); cbn [map]; rewrite IH; reflexivity.
Qed.

Lemma existsb_map {A B : Type} (f : A -> B) (p : B -> bool) (xs : list A) :
  existsb (fun x => p (f x)) xs = existsb p (map f xs).
Proof.
  induction xs as [|x xs IH]; [reflexivity|]. cbn [existsb map]. rewrite IH. reflexivity.
Qed.

Local Abbreviation clone :=
  (clone_repository walk_files relpath splitext_ext getsize lower join_path read_head
     md5_prefix clone_from).

(** The entry a successful clone leaves behind. *)
Lemma clone_entry (self self' : RepoManagerAgent) (repo_url branch_name repo_id : string) :
  clone self repo_url branch_name = (self', Py.Ok repo_id) ->
  let clone_path := join_path (temp_dir self) (md5_prefix repo_url) in
  repo_id = md5_prefix repo_url /\
  exists state,
    repo_state self' !! repo_id = Some state /\
    consistent state /\ url state = repo_url /\ branch state = branch_name /\
    map language (files state) = map (fun file => detect file.2) (walk_files clone_path) /\
    map path (files state)
      = map (fun file => relpath file.1 clone_path) (walk_files clone_path).
Proof.
  intros Hclone clone_path. unfold clone_repository, _generate_repo_id in Hclone.
  fold clone_path in Hclone.
  destruct (clone_from repo_url clone_path branch_name) as [[]|e];
    [|injection Hclone as _ Hraise; discriminate Hraise].
  unfold _analyze_repo_structure in Hclone. cbn [repo_path] in Hclone.
  set (fresh := {| url := repo_url; repo_path := clone_path; branch := branch_name;
                   files := []; languages := []; has_tests := false;
                   dependencies := [] |}) in Hclone.
  destruct (analyze_files relpath splitext_ext getsize lower fresh (walk_files clone_path))
    as [walked [[]|e]] eqn:Ewalk.
  - assert (Hfresh : consistent fresh).
    { repeat split; try constructor. }
    destruct (analyze_files_consistent _ fresh walked Hfresh Ewalk)
      as (Hwalked & Hu & Hp & Hb & Hd & Hl & Hpaths).
    subst fresh. cbn [url repo_path branch files map app] in Hu, Hp, Hb, Hl, Hpaths.
    unfold _detect_dependencies in Hclone.
    destruct (read_dependencies join_path read_head (repo_path walked) dep_files)
      as [found|e].
    + cbn [mbind result_bind Py.bind mret result_ret] in Hclone.
      injection Hclone as <- <-. split; [reflexivity|].
      eexists. cbn [repo_state]. rewrite lookup_insert, decide_True by reflexivity.
      split; [reflexivity|]. cbn [url branch files].
      split; [exact Hwalked|]. repeat split; assumption.
    + injection Hclone as _ Hraise. discriminate Hraise.
  - injection Hclone as _ Hraise. discriminate Hraise.
Qed.

(** X26.  After a successful clone the summary of the repository is
    consistent with the files of the walk: it counts all of them, the count
    of a language is the number of files detected as that language, the
    code files are those with a language and their number is the sum of the
    language counts, and tests are reported exactly when the relative path
    of some file contains "test" or "spec" in lower case. *)
Theorem repository_summary_tallies (self self' : RepoManagerAgent)
    (repo_url branch_name repo_id : string) :
  clone self repo_url branch_name = (self', Py.Ok repo_id) ->
  let clone_path := join_path (temp_dir self) (md5_prefix repo_url) in
  let detected := map (fun file => detect file.2) (walk_files clone_path) in
  exists summary,
    get_repo_summary self' repo_id = Py.Ok summary /\
    s_url summary = repo_url /\ s_branch summary = branch_name /\
    total_files summary = Z.of_nat (length (walk_files clone_path)) /\
    (forall lang, default 0 (dict_get (s_languages summary) lang)
                  = occurrences lang detected) /\
    (forall lang, occurrences lang detected = 0 <->
                  dict_get (s_languages summary) lang = None) /\
    code_files summary = sum_counts (s_languages summary) /\
    code_files summary
      = Z.of_nat (length (List.filter (fun l => bool_decide (is_Some l)) detected)) /\
    0 <= code_files summary <= total_files summary /\
    s_has_tests summary
      = existsb (fun file => test_path (relpath file.1 clone_path)) (walk_files clone_path).
Proof.
  intros Hclone clone_path detected.
  destruct (clone_entry self self' repo_url branch_name repo_id Hclone)
    as (_ & state & Hstate & (Hnodup & Hpositive & Hcount & Hsum & Htests)
        & Hu & Hb & Hl & Hpaths).
  fold clone_path in Hl, Hpaths. fold detected in Hl.
  unfold get_repo_summary. rewrite Hstate. eexists. split; [reflexivity|].
  cbn [s_url s_branch total_files code_files s_languages s_has_tests].
  assert (Hfiles : length (files state) = length (walk_files clone_path)).
  { rewrite <- (length_map language), Hl. unfold detected. apply length_map. }
  pose proof (filter_languages (files state)) as Hcode.
  split; [exact Hu|]. split; [exact Hb|]. split; [rewrite Hfiles; reflexivity|].
  split; [intros lang; rewrite Hcount, Hl; reflexivity|].
  split.
  { intros lang. rewrite <- Hl, <- Hcount. split.
    - destruct (dict_get (languages state) lang) as [v|] eqn:Eget; [|reflexivity].
      cbn [default]. unfold id. intros Hzero. exfalso.
      apply dict_get_found in Eget. rewrite List.Forall_forall in Hpositive.
      specialize (Hpositive _ Eget). cbn [snd] in Hpositive. lia.
    - intros ->. reflexivity. }
  split; [symmetry; exact Hsum|].
  split; [rewrite <- Hl, Hcode, length_map; reflexivity|].
  split.
  { pose proof (List.filter_length_le has_language (files state)).
    fold (has_language). lia. }
  rewrite Htests, (existsb_map path test_path), Hpaths, <- existsb_map. reflexivity.
Qed.

(** X27.  The main language of a cloned repository is absent exactly when
    no file has a detected language; otherwise it is a detected language
    that no other language outnumbers. *)
Theorem main_language_is_most_frequent (self self' : RepoManagerAgent)
    (repo_url branch_name repo_id : string) :
  clone self repo_url branch_name = (self', Py.Ok repo_id) ->
  let clone_path := join_path (temp_dir self) (md5_prefix repo_url) in
  let detected := map (fun file => detect file.2) (walk_files clone_path) in
  exists summary,
    get_repo_summary self' repo_id = Py.Ok summary /\
    (main_language summary = None <-> code_files summary = 0) /\
    (forall main, main_language summary = Some main ->
       0 < occurrences main detected /\
       forall lang, occurrences lang detected <= occurrences main detected).
Proof.
  intros Hclone clone_path detected.
  destruct (clone_entry self self' repo_url branch_name repo_id Hclone)
    as (_ & state & Hstate & (Hnodup & Hpositive & Hcount & Hsum & Htests)
        & Hu & Hb & Hl & Hpaths).
  fold clone_path in Hl. fold detected in Hl.
  unfold get_repo_summary. rewrite Hstate. eexists. split; [reflexivity|].
  cbn [main_language code_files]. fold has_language. rewrite <- Hsum.
  destruct (languages state) as [|first rest] eqn:Elanguages.
  - split; [split; reflexivity|]. intros main Hmain. discriminate Hmain.
  - split.
    { split; [discriminate|]. intros Hzero. exfalso.
      apply List.Forall_cons_iff in Hpositive as [Hfirst Hrest].
      assert (Hnonneg : 0 <= sum_counts rest).
      { clear -Hrest. induction Hrest as [|p ps Hp _ IH]; [simpl; lia|].
        cbn [sum_counts fold_right]. fold (sum_counts ps). lia. }
      cbn [sum_counts fold_right] in Hzero. fold (sum_counts rest) in Hzero. lia. }
    intros main Hmain. injection Hmain as <-.
    destruct (max_key_greatest rest first) as (v & Hin & Hmax).
    pose proof (dict_get_member (first :: rest) _ v Hnodup Hin) as Hget.
    assert (Hv : occurrences (max_key first rest) detected = v).
    { rewrite <- Hl, <- Hcount, Hget. reflexivity. }
    rewrite Hv. split.
    + rewrite List.Forall_forall in Hpositive. exact (Hpositive _ Hin).
    + intros lang. rewrite <- Hl, <- Hcount.
      destruct (dict_get (first :: rest) lang) as [w|] eqn:Elang.
      * cbn [default]. apply dict_get_found in Elang. exact (Hmax _ Elang).
      * cbn [default]. rewrite List.Forall_forall in Hpositive.
        specialize (Hpositive _ Hin). cbn [snd] in Hpositive. lia.
Qed.

(** X28.  Cleaning a repository up removes its entry and nothing else:
    afterwards its summary cannot be had any more, the summaries of the
    other repositories are what they were, and cleaning up an unknown
    repository changes nothing. *)
Theorem cleanup_forgets_one_repository (self : RepoManagerAgent) (repo_id : string) :
  get_repo_summary (cleanup self repo_id) repo_id
    = Py.Raise (Py.OtherError ("Repository " +:+ repo_id +:+ " not found")) /\
  (forall other, other <> repo_id ->
     get_repo_summary (cleanup self repo_id) other = get_repo_summary self other) /\
  (repo_state self !! repo_id = None -> cleanup self repo_id = self) /\
  cleanup (cleanup self repo_id) repo_id = cleanup self repo_id.
Proof.
  unfold get_repo_summary, cleanup. cbn [repo_state temp_dir].
  split; [rewrite lookup_delete_eq; reflexivity|].
  split; [intros other Hother; rewrite lookup_delete_ne by congruence; reflexivity|].
  split.
  - intros Hnone. destruct self as [dir states]. cbn [repo_state temp_dir] in *.
    rewrite delete_id by exact Hnone. reflexivity.
  - rewrite delete_delete_eq. reflexivity.
Qed.

End RepositoryTallies.

(** A clone of a repository of three files, two of them Python, one of
    them a test. *)
Definition sample_walk (root : string) : list (string * string) :=
  [("app.py", "app.py"); ("test_app.py", "test_app.py"); ("README.md", "README.md")].

Definition sample_extension (file : string) : string :=
  if String.eqb file "README.md" then ".md" else ".py".

Definition sample_manager : RepoManager.RepoManagerAgent :=
  {| RepoManager.temp_dir := "/tmp/repos"; RepoManager.repo_state := ∅ |}.

Definition sample_clone : RepoManager.RepoManagerAgent * Py.result string :=
  RepoManager.clone_repository sample_walk (fun file _ => file) sample_extension
    (fun _ => Py.Ok 120%Z) (fun text => text) (fun root file => root +:+ "/" +:+ file)
    (fun _ => None) (fun _ => "0123456789") (fun _ _ _ => Py.Ok tt)
    sample_manager "https://github.com/user/project" "main".

Lemma sample_clone_succeeds : sample_clone = (sample_clone.1, Py.Ok "0123456789").
Proof. reflexivity. Qed.

Lemma repository_summary_witness :
  exists summary,
    RepoManager.get_repo_summary sample_clone.1 "0123456789" = Py.Ok summary /\
    RepoManager.total_files summary = 3%Z /\
    RepoManager.code_files summary = (RepoManager.total_files summary - 1)%Z.
Proof.
  destruct (repository_summary_tallies sample_walk (fun file _ => file) sample_extension
              (fun _ => Py.Ok 120%Z) (fun text => text)
              (fun root file => root +:+ "/" +:+ file)
              (fun _ => None) (fun _ => "0123456789") (fun _ _ _ => Py.Ok tt)
              sample_manager sample_clone.1 "https://github.com/user/project" "main"
              "0123456789" sample_clone_succeeds)
    as (summary & Hsummary & _ & _ & Htotal & _ & _ & _ & Hcode & _).
  exists summary. split; [exact Hsummary|]. split; [exact Htotal|].
  rewrite Hcode, Htotal. reflexivity.
Defined.

Lemma main_language_witness :
  exists summary,
    RepoManager.get_repo_summary sample_clone.1 "0123456789" = Py.Ok summary /\
    RepoManager.main_language summary = Some "Python".
Proof.
  destruct (main_language_is_most_frequent sample_walk (fun file _ => file) sample_extension
              (fun _ => Py.Ok 120%Z) (fun text => text)
              (fun root file => root +:+ "/" +:+ file)
              (fun _ => None) (fun _ => "0123456789") (fun _ _ _ => Py.Ok tt)
              sample_manager sample_clone.1 "https://github.com/user/project" "main"
              "0123456789" sample_clone_succeeds)
    as (summary & Hsummary & _ & _).
  exists summary. split; [exact Hsummary|].
  assert (Hfound : RepoManager.get_repo_summary sample_clone.1 "0123456789"
                   = Py.Ok summary) by exact Hsummary.
  vm_compute in Hfound. injection Hfound as <-. reflexivity.
Defined.

(** ** Summarizer: the agent scores beside the overall score *)

Section AgentScores.
Import Summarizer.

(** The reports of a review whose stages left nothing behind. *)
Definition empty_reports : Reports :=
  {| correctness_report := {| tests_passed := None; total_tests := None |};
     complexity_report := {| big_o := None |};
     readability_report := {| scores := None |};
     edge_cases_report := {| Summarizer.priority_cases := None |} |}.

Definition has_tests (r : CorrectnessReport) : bool :=
  match total_tests r with
  | Some total => negb (total =? 0)%Z
  | None => false
  end.

Definition has_scores (r : ReadabilityReport) : bool :=
  match scores r with
  | Some d => negb (bool_decide (d = ∅))
  | None => false
  end.

Definition has_cases (r : EdgeCasesReport) : bool :=
  match Summarizer.priority_cases r with
  | Some (_ :: _) => true
  | _ => false
  end.

(** X29.  The agent scores returned beside the overall score are the
    sub-scores the overall score is computed from, except for a report
    without data: there the overall score counts 70 where the agent scores
    show 0 for correctness and readability and 50 for robustness.  So the
    overall score is never below the one the shown scores would give, and a
    review whose stages all failed gets the overall score 72 while it shows
    0, 80, 0 and 50. *)
Theorem agent_scores_differ_from_sub_scores (reports : Reports) :
  let used := sub_scores reports in
  let shown := SummarizerReview.agent_scores reports in
  complexity shown = complexity used /\
  (if has_tests (correctness_report reports)
   then correctness shown = correctness used
   else correctness shown = 0%Q /\ correctness used = 70%Q) /\
  (if has_scores (readability_report reports)
   then readability shown = readability used
   else readability shown = 0%Q /\ readability used = 70%Q) /\
  (if has_cases (edge_cases_report reports)
   then robustness shown = robustness used
   else robustness shown = 50%Q /\ robustness used = 70%Q) /\
  (int_of_float (weighted_sum shown) <= _calculate_overall_score reports)%Z /\
  _calculate_overall_score empty_reports = 72%Z /\
  SummarizerReview.agent_scores empty_reports
    = {| correctness := 0; complexity := 80; readability := 0; robustness := 50 |}.
Proof.
  intros used shown.
  assert (H1 : if has_tests (correctness_report reports)
               then correctness shown = correctness used
               else correctness shown = 0%Q /\ correctness used = 70%Q).
  { subst used shown. unfold has_tests, SummarizerReview.agent_scores, sub_scores,
      SummarizerReview.agent_correctness,
      correctness_score. cbn [correctness].
    destruct (total_tests (correctness_report reports)) as [total|]; [|split; reflexivity].
    destruct (total =? 0)%Z; [split; reflexivity|reflexivity]. }
  assert (H2 : if has_scores (readability_report reports)
               then readability shown = readability used
               else readability shown = 0%Q /\ readability used = 70%Q).
  { subst used shown. unfold has_scores, SummarizerReview.agent_scores, sub_scores,
      SummarizerReview.agent_readability,
      readability_score. cbn [readability].
    destruct (scores (readability_report reports)) as [d|]; [|split; reflexivity].
    destruct (bool_decide (d = ∅)); [split; reflexivity|reflexivity]. }
  assert (H3 : if has_cases (edge_cases_report reports)
               then robustness shown = robustness used
               else robustness shown = 50%Q /\ robustness used = 70%Q).
  { subst used shown. unfold has_cases, SummarizerReview.agent_scores, sub_scores,
      SummarizerReview.agent_robustness,
      robustness_score. cbn [robustness].
    destruct (Summarizer.priority_cases (edge_cases_report reports)) as [[|c cases]|];
      first [reflexivity | split; reflexivity]. }
  split; [reflexivity|]. split; [exact H1|]. split; [exact H2|]. split; [exact H3|].
  split; [|split; [vm_compute; reflexivity|reflexivity]].
  unfold _calculate_overall_score. fold used. apply int_of_float_monotone.
  unfold weighted_sum. cbn [weights correctness complexity readability robustness].
  assert (Hc : (correctness shown <= correctness used)%Q).
  { destruct (has_tests (correctness_report reports)).
    - rewrite H1. apply Qle_refl.
    - destruct H1 as [-> ->]. unfold Qle. simpl. lia. }
  assert (Hr : (readability shown <= readability used)%Q).
  { destruct (has_scores (readability_report reports)).
    - rewrite H2. apply Qle_refl.
    - destruct H2 as [-> ->]. unfold Qle. simpl. lia. }
  assert (Hb : (robustness shown <= robustness used)%Q).
  { destruct (has_cases (edge_cases_report reports)).
    - rewrite H3. apply Qle_refl.
    - destruct H3 as [-> ->]. unfold Qle. simpl. lia. }
  assert (Hx : (complexity shown == complexity used)%Q) by reflexivity.
  set (a := correctness shown) in *. set (a' := correctness used) in *.
  set (b := complexity shown) in *. set (b' := complexity used) in *.
  set (c := readability shown) in *. set (c' := readability used) in *.
  set (d := robustness shown) in *. set (d' := robustness used) in *.
  lra.
Qed.

End AgentScores.
